(** * A point-of-sale ledger for short-lived sales events

    Shallow embedding of [pos_sys_v2.py]: the three SQLite relations and the
    queries of class [POSDatabase], the cart handling of class [POSApp] and
    the input validation of the classes [EventDialog] and
    [ProductManagementDialog].

    Modelling conventions.
    - A table is the list of its rows in rowid order; [INSERT] appends.
      [INTEGER PRIMARY KEY AUTOINCREMENT] hands out the successor of the
      largest id ever used, kept per table in a sequence counter.
    - Integers are [Z]; all values are taken to stay inside SQLite's 64-bit
      range, where SQL arithmetic is exact.
    - Text is [string], compared byte-wise as SQLite's default collation does.
      Where the code points of a text matter, the [string] is its UTF-8
      encoding.
    - The wall clock is an input: every operation that stores a timestamp
      receives the current reading, a text of the form
      [YYYY-MM-DD HH:MM:SS] with one-second resolution.
    - [ORDER BY] is a stable sort of the rows in scan order, which is what
      SQLite's sorter produces for rows that tie on the sort key.
    - Message boxes are returned as values.
    - [str.strip], [int] and [strptime] of Python's library are parameters
      of the dialogs that call them, and so is [int] for the conversion
      that ttk's tree view applies to the cells it hands back. *)

From Stdlib Require Import ZArith List String Ascii Bool Lia.
From Stdlib Require Import Sorting.Sorted Sorting.Permutation.
From Stdlib Require Import Structures.OrdersEx.
Import ListNotations.

Local Open Scope string_scope.
Local Open Scope list_scope.
Local Open Scope Z_scope.

(* ================================================================= *)
(** ** Relational helpers *)

Module Sql.

Section OrderBy.
Context {A : Type}.
(** [before x y]: row [x] may be output no later than row [y]. *)
Variable before : A -> A -> bool.

Fixpoint insert (x : A) (l : list A) : list A :=
  match l with
  | [] => [x]
  | y :: l' => if before x y then x :: l else y :: insert x l'
  end.

(** Rows are inserted from the last scanned to the first, each in front
    of the rows it ties with: ties keep scan order. *)
Definition order_by (l : list A) : list A := fold_right insert [] l.
End OrderBy.

(** [LIMIT n]: a negative bound means no bound. *)
Definition limit {A : Type} (n : Z) (l : list A) : list A :=
  if n <? 0 then l else firstn (Z.to_nat n) l.

(** [COALESCE(SUM(..), 0)] over integer values. *)
Definition sum (l : list Z) : Z := fold_right Z.add 0 l.

(** [COUNT( * )] and [cursor.rowcount]. *)
Definition count {A : Type} (l : list A) : Z := Z.of_nat (List.length l).

End Sql.

(* ================================================================= *)
(** ** class POSDatabase *)

Module POSDatabase.

Record event := mk_event {
  ev_id : Z;
  ev_name : string;
  ev_date : string;
  ev_created_at : string
}.

Record product := mk_product {
  p_id : Z;
  p_event_id : Z;
  p_name : string;
  p_stock : Z;
  p_price : Z;
  p_created_at : string
}.

Record sale := mk_sale {
  s_id : Z;
  s_event_id : Z;
  s_product_id : Z;
  s_quantity : Z;
  s_total_price : Z;
  s_sale_time : string;
  s_cancelled : bool
}.

Record db := mk_db {
  events : list event;
  events_seq : Z;
  products : list product;
  products_seq : Z;
  sales : list sale;
  sales_seq : Z
}.

(** [init_database] on a fresh file: three empty tables. *)
Definition init_database : db := mk_db [] 0 [] 0 [] 0.

Definition set_stock (p : product) (stock : Z) : product :=
  mk_product (p_id p) (p_event_id p) (p_name p) stock (p_price p)
             (p_created_at p).

Definition set_cancelled (s : sale) (c : bool) : sale :=
  mk_sale (s_id s) (s_event_id s) (s_product_id s) (s_quantity s)
          (s_total_price s) (s_sale_time s) c.

Definition with_products (d : db) (ps : list product) : db :=
  mk_db (events d) (events_seq d) ps (products_seq d) (sales d) (sales_seq d).

Definition with_sales (d : db) (ss : list sale) : db :=
  mk_db (events d) (events_seq d) (products d) (products_seq d) ss
        (sales_seq d).

(** [INSERT INTO events (name, date)]; [created_at] defaults to the clock.
    Returns [cursor.lastrowid]. *)
Definition create_event (now : string) (name date : string) (d : db)
  : Z * db :=
  let event_id := events_seq d + 1 in
  (event_id,
   mk_db (events d ++ [mk_event event_id name date now]) event_id
         (products d) (products_seq d) (sales d) (sales_seq d)).

(** [SELECT id, name, date FROM events ORDER BY created_at DESC] *)
Definition created_desc (a b : event) : bool :=
  String.leb (ev_created_at b) (ev_created_at a).

Definition get_events (d : db) : list (Z * string * string) :=
  map (fun e => (ev_id e, ev_name e, ev_date e))
      (Sql.order_by created_desc (events d)).

Definition add_product (now : string) (event_id : Z) (name : string)
  (price stock : Z) (d : db) : Z * db :=
  let product_id := products_seq d + 1 in
  (product_id,
   mk_db (events d) (events_seq d)
         (products d ++ [mk_product product_id event_id name stock price now])
         product_id (sales d) (sales_seq d)).

(** Rows counted by
    [SELECT COUNT( * ) FROM sales WHERE product_id = ? AND cancelled = FALSE] *)
Definition live_sale_of (product_id : Z) (s : sale) : bool :=
  (s_product_id s =? product_id) && negb (s_cancelled s).

Definition delete_product (product_id : Z) (d : db) : bool * db :=
  let sales_count := Sql.count (filter (live_sale_of product_id) (sales d)) in
  if sales_count >? 0 then (false, d)
  else
    let rowcount :=
      Sql.count (filter (fun p => p_id p =? product_id) (products d)) in
    (rowcount >? 0,
     with_products d
       (filter (fun p => negb (p_id p =? product_id)) (products d))).

(** [SELECT id, name, price, stock FROM products WHERE event_id = ?
     ORDER BY name] *)
Definition name_asc (a b : product) : bool := String.leb (p_name a) (p_name b).

Definition get_products (event_id : Z) (d : db)
  : list (Z * string * Z * Z) :=
  map (fun p => (p_id p, p_name p, p_price p, p_stock p))
      (Sql.order_by name_asc
         (filter (fun p => p_event_id p =? event_id) (products d))).

(** [sale_time] is the reading of [get_current_time]; [cancelled] takes its
    default 0. *)
Definition record_sale (now : string) (event_id product_id quantity
  total_price : Z) (d : db) : Z * db :=
  let sale_id := sales_seq d + 1 in
  (sale_id,
   mk_db (events d) (events_seq d) (products d) (products_seq d)
         (sales d ++
            [mk_sale sale_id event_id product_id quantity total_price now
                     false])
         sale_id).

(** [UPDATE products SET stock = stock + ? WHERE id = ?] *)
Definition update_stock (product_id quantity_change : Z) (d : db)
  : bool * db :=
  let rowcount :=
    Sql.count (filter (fun p => p_id p =? product_id) (products d)) in
  (rowcount >? 0,
   with_products d
     (map (fun p => if p_id p =? product_id
                    then set_stock p (p_stock p + quantity_change)
                    else p)
          (products d))).

(** [fetchone] takes the first matching row; no row yields 0. *)
Definition get_product_stock (product_id : Z) (d : db) : Z :=
  match filter (fun p => p_id p =? product_id) (products d) with
  | p :: _ => p_stock p
  | [] => 0
  end.

(** [UPDATE sales SET cancelled = TRUE WHERE id = ?]; [rowcount] counts the
    rows the [WHERE] clause selects, whatever their former value. *)
Definition cancel_sale (sale_id : Z) (d : db) : bool * db :=
  let rowcount :=
    Sql.count (filter (fun s => s_id s =? sale_id) (sales d)) in
  (rowcount >? 0,
   with_sales d
     (map (fun s => if s_id s =? sale_id then set_cancelled s true else s)
          (sales d))).

(** [FROM sales s JOIN products p ON s.product_id = p.id
     WHERE s.event_id = ?]: sales are scanned, products looked up. *)
Definition sales_join_products (event_id : Z) (d : db)
  : list (sale * product) :=
  flat_map
    (fun s =>
       map (fun p => (s, p))
           (filter (fun p => p_id p =? s_product_id s) (products d)))
    (filter (fun s => s_event_id s =? event_id) (sales d)).

Definition sale_time_desc (a b : sale * product) : bool :=
  String.leb (s_sale_time (fst b)) (s_sale_time (fst a)).

Definition get_recent_sales (event_id : Z) (limit : Z) (d : db)
  : list (Z * string * Z * Z * string * bool) :=
  map (fun sp =>
         let s := fst sp in
         (s_id s, p_name (snd sp), s_quantity s, s_total_price s,
          s_sale_time s, s_cancelled s))
      (Sql.limit limit
         (Sql.order_by sale_time_desc (sales_join_products event_id d))).

(** Rows selected by [WHERE event_id = ? AND cancelled = FALSE] *)
Definition live_sale_in (event_id : Z) (s : sale) : bool :=
  (s_event_id s =? event_id) && negb (s_cancelled s).

Definition get_sales_summary (event_id : Z) (d : db) : Z * Z * Z :=
  let rows := filter (live_sale_in event_id) (sales d) in
  let total_sales := Sql.sum (map s_total_price rows) in
  let total_quantity := Sql.sum (map s_quantity rows) in
  let transaction_count := Sql.count rows in
  (total_sales, total_quantity, transaction_count).

(** [FROM products p LEFT JOIN sales s ON p.id = s.product_id AND
     s.cancelled = FALSE WHERE p.event_id = ?]: products are scanned; a
    product without a matching sale is kept once, its sale columns NULL. *)
Definition join_rows (d : db) (p : product) : list (product * option sale) :=
  match filter (live_sale_of (p_id p)) (sales d) with
  | [] => [(p, None)]
  | ss => map (fun s => (p, Some s)) ss
  end.

Definition products_left_join_sales (event_id : Z) (d : db)
  : list (product * option sale) :=
  flat_map (join_rows d)
           (filter (fun p => p_event_id p =? event_id) (products d)).

(** [GROUP BY p.id, p.name, p.price] *)
Definition group_key : Type := Z * string * Z.

Definition key_of (p : product) : group_key := (p_id p, p_name p, p_price p).

Definition key_eqb (k1 k2 : group_key) : bool :=
  let '(i1, n1, c1) := k1 in
  let '(i2, n2, c2) := k2 in
  (i1 =? i2) && String.eqb n1 n2 && (c1 =? c2).

(** The distinct keys, each at its first occurrence; the scan meets the
    products by ascending id. *)
Fixpoint group_keys (ks : list group_key) : list group_key :=
  match ks with
  | [] => []
  | k :: ks' => k :: filter (fun k' => negb (key_eqb k k')) (group_keys ks')
  end.

(** [SUM] skips NULL; [COALESCE(.., 0)] turns the NULL of an all-NULL group
    into 0. *)
Definition sum_column (col : sale -> Z) (rows : list (product * option sale))
  : Z :=
  Sql.sum (flat_map (fun r => match snd r with
                              | Some s => [col s]
                              | None => []
                              end) rows).

Definition aggregate (rows : list (product * option sale)) (k : group_key)
  : string * Z * Z * Z :=
  let '(_, name, price) := k in
  let group := filter (fun r => key_eqb (key_of (fst r)) k) rows in
  (name, sum_column s_quantity group, sum_column s_total_price group, price).

Definition row_name (r : string * Z * Z * Z) : string :=
  let '(name, _, _, _) := r in name.
Definition row_quantity (r : string * Z * Z * Z) : Z :=
  let '(_, total_quantity, _, _) := r in total_quantity.
Definition row_sales (r : string * Z * Z * Z) : Z :=
  let '(_, _, total_sales, _) := r in total_sales.
Definition row_price (r : string * Z * Z * Z) : Z :=
  let '(_, _, _, price) := r in price.

(** [ORDER BY total_sales DESC, p.name] *)
Definition sales_desc_name_asc (a b : string * Z * Z * Z) : bool :=
  (row_sales b <? row_sales a)
  || ((row_sales a =? row_sales b) && String.leb (row_name a) (row_name b)).

Definition get_product_sales_summary (event_id : Z) (d : db)
  : list (string * Z * Z * Z) :=
  let rows := products_left_join_sales event_id d in
  Sql.order_by sales_desc_name_asc
    (map (aggregate rows) (group_keys (map (fun r => key_of (fst r)) rows))).

(** The tables as the operations above leave them: ids are primary keys
    handed out by the sequence counters. *)
Record wf (d : db) : Prop := mk_wf {
  wf_events : NoDup (map ev_id (events d));
  wf_events_seq : Forall (fun e => 0 < ev_id e <= events_seq d) (events d);
  wf_products : NoDup (map p_id (products d));
  wf_products_seq :
    Forall (fun p => 0 < p_id p <= products_seq d) (products d);
  wf_sales : NoDup (map s_id (sales d));
  wf_sales_seq : Forall (fun s => 0 < s_id s <= sales_seq d) (sales d);
  wf_seq : 0 <= events_seq d /\ 0 <= products_seq d /\ 0 <= sales_seq d
}.

Definition stock_nonneg (d : db) : Prop :=
  Forall (fun p => 0 <= p_stock p) (products d).

End POSDatabase.

(* ================================================================= *)
(** ** Python's library under the dialogs

    [str.strip], [int] and [datetime.datetime.strptime] are not code of the
    program.  The dialogs below take them as parameters, so what is proved
    of a dialog holds for every behaviour of the library.  This module
    writes the three functions out for CPython 3.11 (Unicode 14.0.0), to
    run the dialogs on concrete input. *)

Module Python.

(** *** Text

    A Python [str] is a sequence of code points; a text of the model is
    its UTF-8 encoding.  A byte that is no continuation byte starts a code
    point, and every continuation byte adds six bits to it.  Bytes that
    encode no text stand for no [str], and nothing is said about them. *)

Definition byte (c : ascii) : Z := Z.of_nat (nat_of_ascii c).

Definition continuation (c : ascii) : bool :=
  (128 <=? byte c) && (byte c <? 192).

Definition lead (c : ascii) : Z :=
  let b := byte c in
  if b <? 192 then b
  else if b <? 224 then b - 192
  else if b <? 240 then b - 224
  else b - 240.

(** The code points of a text, each with the bytes that encode it. *)
Fixpoint chars_from (cp : Z) (bytes s : string) : list (Z * string) :=
  match s with
  | EmptyString => [(cp, bytes)]
  | String c s' =>
      if continuation c
      then chars_from (64 * cp + (byte c - 128)) (bytes ++ String c "") s'
      else (cp, bytes) :: chars_from (lead c) (String c "") s'
  end.

Definition chars (s : string) : list (Z * string) :=
  match s with
  | EmptyString => []
  | String c s' => chars_from (lead c) (String c "") s'
  end.

Definition code_points (s : string) : list Z := map fst (chars s).

Definition between (lo hi cp : Z) : bool := (lo <=? cp) && (cp <=? hi).

(** [str.isspace] of one code point. *)
Definition isspace (cp : Z) : bool :=
  between 9 13 cp || between 28 32 cp || (cp =? 133) || (cp =? 160)
  || (cp =? 5760) || between 8192 8202 cp || (cp =? 8232) || (cp =? 8233)
  || (cp =? 8239) || (cp =? 8287) || (cp =? 12288).

Fixpoint lstrip (l : list (Z * string)) : list (Z * string) :=
  match l with
  | [] => []
  | (cp, bytes) :: l' => if isspace cp then lstrip l' else l
  end.

Definition rstrip (l : list (Z * string)) : list (Z * string) :=
  rev (lstrip (rev l)).

(** [str.strip()] *)
Definition strip (s : string) : string :=
  String.concat "" (map snd (rstrip (lstrip (chars s)))).

(** The code points of the decimal digit zero of every script (general
    category Nd of Unicode 14.0.0); the other nine digits of a script
    follow its zero. *)
Definition Nd_zero : list Z :=
  [48; 1632; 1776; 1984; 2406; 2534; 2662; 2790; 2918; 3046; 3174; 3302;
   3430; 3558; 3664; 3792; 3872; 4160; 4240; 6112; 6160; 6470; 6608; 6784;
   6800; 6992; 7088; 7232; 7248; 42528; 43216; 43264; 43472; 43504; 43600;
   44016; 65296; 66720; 68912; 69734; 69872; 69942; 70096; 70384; 70736;
   70864; 71248; 71360; 71472; 71904; 72016; 72784; 73040; 73120; 92768;
   92864; 93008; 120782; 120792; 120802; 120812; 120822; 123200; 123632;
   125264; 130032].

(** [unicodedata.decimal]: the value of a decimal digit. *)
Definition decimal (cp : Z) : option Z :=
  match find (fun zero => between zero (zero + 9) cp) Nd_zero with
  | Some zero => Some (cp - zero)
  | None => None
  end.

(** *** [int(text)]

    Blanks around the number are skipped: of the ASCII characters TAB, LF,
    VT, FF, CR and the space, outside ASCII every code point of
    [isspace].  Then a sign may come, then decimal digits of any script
    with single underscores between them.  A number of more than 4300
    digits is refused (the default of [sys.set_int_max_str_digits]).
    [None] stands for [ValueError]. *)

Definition int_space (cp : Z) : bool :=
  between 9 13 cp || (cp =? 32) || ((128 <=? cp) && isspace cp).

Fixpoint skip_spaces (l : list Z) : list Z :=
  match l with
  | [] => []
  | cp :: l' => if int_space cp then skip_spaces l' else l
  end.

(** [digits value n l]: the text [l] follows a digit; [value] is the number
    read so far and [n] the number of its digits. *)
Fixpoint digits (value n : Z) (l : list Z) : option (Z * Z) :=
  match l with
  | [] => Some (value, n)
  | cp :: l' =>
      match decimal cp with
      | Some v => digits (10 * value + v) (n + 1) l'
      | None =>
          if cp =? 95
          then
            match l' with
            | cp' :: l'' =>
                match decimal cp' with
                | Some v => digits (10 * value + v) (n + 1) l''
                | None => None
                end
            | [] => None
            end
          else
            match skip_spaces l with
            | [] => Some (value, n)
            | _ :: _ => None
            end
      end
  end.

Definition unsigned (l : list Z) : option Z :=
  match l with
  | [] => None
  | cp :: l' =>
      match decimal cp with
      | Some v =>
          match digits v 1 l' with
          | Some (value, n) => if n <=? 4300 then Some value else None
          | None => None
          end
      | None => None
      end
  end.

Definition int (s : string) : option Z :=
  match skip_spaces (code_points s) with
  | 43 :: l => unsigned l
  | 45 :: l => option_map Z.opp (unsigned l)
  | l => unsigned l
  end.

(** *** [datetime.datetime.strptime(text, "%Y-%m-%d")]

    The library turns the format into the regular expression
    [(?P<Y>\d\d\d\d)-(?P<m>1[0-2]|0[1-9]|[1-9])-(?P<d>3[0-1]|[1-2]\d|0[1-9]|[1-9]| [1-9])],
    matches it at the start of the text, refuses text left over after the
    match, reads the three groups with [int] and builds a calendar date
    from the numbers. *)

(** A character class: the digit value of a code point of the class. *)
Definition class : Type := Z -> option Z.

(** [[lo-hi]], a range of ASCII digits. *)
Definition range (lo hi : Z) : class := fun cp =>
  if between (48 + lo) (48 + hi) cp then Some (cp - 48) else None.

(** [\d], a decimal digit of any script. *)
Definition digit : class := decimal.

(** One alternative of a group: the number read and the text left. *)
Definition alt : Type := list Z -> option (Z * list Z).

Definition one (c : class) : alt := fun s =>
  match s with
  | cp :: rest =>
      match c cp with
      | Some v => Some (v, rest)
      | None => None
      end
  | [] => None
  end.

Definition two (c1 c2 : class) : alt := fun s =>
  match s with
  | cp1 :: cp2 :: rest =>
      match c1 cp1, c2 cp2 with
      | Some a, Some b => Some (10 * a + b, rest)
      | _, _ => None
      end
  | _ => None
  end.

Definition space_one (c : class) : alt := fun s =>
  match s with
  | 32 :: rest => one c rest
  | _ => None
  end.

Definition re_Y : alt := fun s =>
  match two digit digit s with
  | Some (hi, rest) =>
      match two digit digit rest with
      | Some (lo, rest') => Some (100 * hi + lo, rest')
      | None => None
      end
  | None => None
  end.

Definition re_m : list alt :=
  [two (range 1 1) (range 0 2); two (range 0 0) (range 1 9);
   one (range 1 9)].

Definition re_d : list alt :=
  [two (range 3 3) (range 0 1); two (range 1 2) digit;
   two (range 0 0) (range 1 9); one (range 1 9); space_one (range 1 9)].

(** The literal [-]. *)
Definition hyphen (s : list Z) : option (list Z) :=
  match s with
  | 45 :: rest => Some rest
  | _ => None
  end.

(** Alternatives are tried in order; one is kept when the rest of the
    pattern matches after it. *)
Fixpoint first_match {R : Type} (alts : list alt)
  (k : Z -> list Z -> option R) (s : list Z) : option R :=
  match alts with
  | [] => None
  | a :: alts' =>
      match a s with
      | Some (v, rest) =>
          match k v rest with
          | Some r => Some r
          | None => first_match alts' k s
          end
      | None => first_match alts' k s
      end
  end.

Definition re_match (s : list Z) : option (Z * Z * Z * list Z) :=
  match re_Y s with
  | None => None
  | Some (y, s1) =>
      match hyphen s1 with
      | None => None
      | Some s2 =>
          first_match re_m
            (fun m s3 =>
               match hyphen s3 with
               | None => None
               | Some s4 =>
                   first_match re_d (fun dd s5 => Some (y, m, dd, s5)) s4
               end)
            s2
      end
  end.

Definition is_leap (year : Z) : bool :=
  (year mod 4 =? 0) && (negb (year mod 100 =? 0) || (year mod 400 =? 0)).

Definition days_in_month (year month : Z) : Z :=
  if month =? 2 then (if is_leap year then 29 else 28)
  else if (month =? 4) || (month =? 6) || (month =? 9) || (month =? 11)
       then 30 else 31.

(** [None] stands for [ValueError]. *)
Definition strptime (s : string) : option (Z * Z * Z) :=
  match re_match (code_points s) with
  | Some (year, month, day, []) =>
      if (1 <=? year) && (1 <=? day) && (day <=? days_in_month year month)
      then Some (year, month, day)
      else None
  | _ => None
  end.

End Python.

(* ================================================================= *)
(** ** class EventDialog *)

Module EventDialog.

(** The two error boxes of the dialog. *)
Inductive message : Type :=
  | enter_event_name
  | enter_valid_date.

(** What a press of the create button leaves behind: an error box with
    [self.result] still [None], or [self.result = (name, date)]. *)
Inductive outcome : Type :=
  | showerror (m : message)
  | result (name date : string).

Section CreateEvent.

(** [str.strip], and [datetime.datetime.strptime] with the format
    ["%Y-%m-%d"], where [None] stands for [ValueError]. *)
Variable strip : string -> string.
Variable strptime : string -> option (Z * Z * Z).

Definition create_event (name_var date_var : string) : outcome :=
  let name := strip name_var in
  let date := strip date_var in
  if String.eqb name "" then showerror enter_event_name
  else
    match strptime date with
    | None => showerror enter_valid_date
    | Some _ => result name date
    end.

End CreateEvent.

End EventDialog.

(* ================================================================= *)
(** ** class ProductManagementDialog *)

Module ProductManagementDialog.

Import POSDatabase.

(** The boxes of [add_product]. *)
Inductive message : Type :=
  | enter_product_name
  | enter_valid_price_and_stock
  | product_added.

Section AddProduct.

(** [str.strip] and [int], where [None] stands for [ValueError]. *)
Variable strip : string -> string.
Variable int : string -> option Z.

(** [name_var], [price_var] and [stock_var] are the three entries. *)
Definition add_product (now : string) (event_id : Z)
  (name_var price_var stock_var : string) (d : db) : message * db :=
  let name := strip name_var in
  let price_str := strip price_var in
  let stock_str := strip stock_var in
  if String.eqb name "" then (enter_product_name, d)
  else
    match int price_str, int stock_str with
    | Some price, Some stock =>
        if (price <? 0) || (stock <? 0)
        then (enter_valid_price_and_stock, d)
        else (product_added,
              snd (POSDatabase.add_product now event_id name price stock d))
    | _, _ => (enter_valid_price_and_stock, d)
    end.

End AddProduct.

(** The boxes of [delete_selected_product]. *)
Inductive delete_box : Type :=
  | product_not_found
  | delete_declined
  | product_deleted
  | product_has_history.

(** The loop over [get_products] that looks the selected name up: the id of
    the first row with that name. *)
Fixpoint find_by_name (product_name : string)
  (products : list (Z * string * Z * Z)) : option Z :=
  match products with
  | [] => None
  | (product_id, name, _, _) :: rest =>
      if String.eqb name product_name then Some product_id
      else find_by_name product_name rest
  end.

(** [product_name] is the name shown in the selected row; [askyesno] is the
    answer to the confirmation box.  An id of 0 counts as not found. *)
Definition delete_selected_product (askyesno : bool) (product_name : string)
  (event_id : Z) (d : db) : delete_box * db :=
  match find_by_name product_name (get_products event_id d) with
  | None => (product_not_found, d)
  | Some product_id =>
      if product_id =? 0 then (product_not_found, d)
      else if askyesno then
        let '(ok, d') := delete_product product_id d in
        if ok then (product_deleted, d') else (product_has_history, d')
      else (delete_declined, d)
  end.

End ProductManagementDialog.

(* ================================================================= *)
(** ** class POSApp *)

Module POSApp.

Import POSDatabase.

(** [self.cart_items]: tuples [(product_id, name, price, quantity)]. *)
Definition cart_item : Type := Z * string * Z * Z.

Definition item_id (item : cart_item) : Z :=
  let '(product_id, _, _, _) := item in product_id.
Definition item_name (item : cart_item) : string :=
  let '(_, name, _, _) := item in name.
Definition item_price (item : cart_item) : Z :=
  let '(_, _, price, _) := item in price.
Definition item_quantity (item : cart_item) : Z :=
  let '(_, _, _, quantity) := item in quantity.

(** The error boxes of [add_to_cart]: the quantity is no positive integer;
    the stock does not cover the request (the box shows the stock). *)
Inductive cart_error : Type :=
  | ValidationError
  | InsufficientStockError (stock : Z).

(** [sum(item[3] for item in self.cart_items if item[0] == product_id)] *)
Definition current_cart_qty (product_id : Z) (cart_items : list cart_item)
  : Z :=
  Sql.sum (map item_quantity
               (filter (fun item => item_id item =? product_id) cart_items)).

(** The [for ... else] loop: [Some] is the cart after the [break], [None]
    means the loop ran to its end. *)
Fixpoint update_line (product_id : Z) (name : string) (price quantity : Z)
  (cart_items : list cart_item) : option (list cart_item) :=
  match cart_items with
  | [] => None
  | item :: rest =>
      if item_id item =? product_id
      then Some ((product_id, name, price, item_quantity item + quantity)
                   :: rest)
      else option_map (cons item)
                      (update_line product_id name price quantity rest)
  end.

(** [product] is the selected entry of [self.product_data], a row of
    [get_products]; [quantity_var] is the spin box read by [int], [None]
    when [int] raises.  The result is the cart afterwards and the error box
    shown, if any. *)
Definition add_to_cart (product : Z * string * Z * Z)
  (quantity_var : option Z) (cart_items : list cart_item)
  : list cart_item * option cart_error :=
  let '(product_id, name, price, stock) := product in
  match quantity_var with
  | None => (cart_items, Some ValidationError)
  | Some quantity =>
      if quantity <=? 0 then (cart_items, Some ValidationError)
      else if current_cart_qty product_id cart_items + quantity >? stock
      then (cart_items, Some (InsufficientStockError stock))
      else
        match update_line product_id name price quantity cart_items with
        | Some cart_items' => (cart_items', None)
        | None => (cart_items ++ [(product_id, name, price, quantity)], None)
        end
  end.

(** *** The cart tree

    [update_cart_display] shows one row per cart line, the name in the
    first column.  [ttk.Treeview.item] hands a cell back as a number when
    its text reads as one, and as the text otherwise. *)
Inductive tree_value : Type :=
  | tree_text (s : string)
  | tree_int (n : Z).

Section Treeview.

(** [int], where [None] stands for [ValueError]. *)
Variable int : string -> option Z.

(** [ttk._convert_stringval]: [int(value)] when that succeeds, else the
    text itself. *)
Definition convert_stringval (value : string) : tree_value :=
  match int value with
  | Some n => tree_int n
  | None => tree_text value
  end.

End Treeview.

(** [item[1] != product_name]: a name differs from every number. *)
Definition differs (name : string) (product_name : tree_value) : bool :=
  match product_name with
  | tree_text s => negb (String.eqb name s)
  | tree_int _ => true
  end.

(** [product_name] is [item['values'][0]] of the selected row. *)
Definition remove_from_cart (product_name : tree_value)
  (cart_items : list cart_item) : list cart_item :=
  filter (fun item => differs (item_name item) product_name) cart_items.

Definition clear_cart : list cart_item := [].

(** [sum(item[2] * item[3] for item in self.cart_items)] *)
Definition total (cart_items : list cart_item) : Z :=
  Sql.sum (map (fun item => item_price item * item_quantity item) cart_items).

(** The loop of [checkout]: one [record_sale] and one [update_stock] per
    line, in cart order; [clock n] is the clock reading at the [n]-th
    [record_sale] of this run. *)
Fixpoint record_lines (clock : nat -> string) (n : nat) (event_id : Z)
  (cart_items : list cart_item) (d : db) : db :=
  match cart_items with
  | [] => d
  | (product_id, name, price, quantity) :: rest =>
      let total_price := price * quantity in
      let d1 := snd (record_sale (clock n) event_id product_id quantity
                                 total_price d) in
      let d2 := snd (update_stock product_id (- quantity) d1) in
      record_lines clock (S n) event_id rest d2
  end.

(** [current_event_id] is [None] or an id, and 0 counts as none;
    [askyesno] is the answer to the confirmation box. *)
Definition checkout (clock : nat -> string) (askyesno : bool)
  (current_event_id : option Z) (cart_items : list cart_item) (d : db)
  : db * list cart_item :=
  match current_event_id with
  | None => (d, cart_items)
  | Some event_id =>
      if event_id =? 0 then (d, cart_items)
      else
        match cart_items with
        | [] => (d, cart_items)
        | _ :: _ =>
            if askyesno
            then (record_lines clock 0 event_id cart_items d, clear_cart)
            else (d, cart_items)
        end
  end.

Section NewEvent.

(** The library functions of [EventDialog.create_event]. *)
Variable strip : string -> string.
Variable strptime : string -> option (Z * Z * Z).

(** [create_new_event]: the dialog first, the insert only on a result. *)
Definition create_new_event (now : string) (name_var date_var : string)
  (d : db) : (EventDialog.message + Z) * db :=
  match EventDialog.create_event strip strptime name_var date_var with
  | EventDialog.showerror m => (inl m, d)
  | EventDialog.result name date =>
      let '(event_id, d') := create_event now name date d in
      (inr event_id, d')
  end.

End NewEvent.

(** [refresh_history] fills the state column of the history view. *)
Definition status (cancelled : bool) : string :=
  if cancelled then "キャンセル" else "有効".

Definition history (event_id : Z) (d : db) : list (Z * string) :=
  map (fun r => let '(sale_id, _, _, _, _, cancelled) := r in
                (sale_id, status cancelled))
      (get_recent_sales event_id 20 d).

(** The boxes of [cancel_selected_sale]. *)
Inductive cancel_box : Type :=
  | already_cancelled
  | not_confirmed
  | sale_cancelled
  | cancel_failed.

Definition cancel_selected_sale (askyesno : bool) (item : Z * string)
  (d : db) : cancel_box * db :=
  let '(sale_id, status) := item in
  if String.eqb status "取消" then (already_cancelled, d)
  else if askyesno then
    let '(ok, d') := cancel_sale sale_id d in
    if ok then (sale_cancelled, d') else (cancel_failed, d')
  else (not_confirmed, d).

(** *** The session: the current event, the cart and [self.event_data] *)

Record session := mk_session {
  session_event_id : option Z;
  session_cart : list cart_item;
  session_event_data : list (string * Z)
}.

(** A dictionary with text keys, as the list of its items in insertion
    order: assigning to a key that is present replaces its value in place. *)
Fixpoint dict_set (k : string) (v : Z) (dict : list (string * Z))
  : list (string * Z) :=
  match dict with
  | [] => [(k, v)]
  | (k', v') :: rest =>
      if String.eqb k' k then (k', v) :: rest
      else (k', v') :: dict_set k v rest
  end.

Fixpoint dict_get (k : string) (dict : list (string * Z)) : option Z :=
  match dict with
  | [] => None
  | (k', v) :: rest => if String.eqb k' k then Some v else dict_get k rest
  end.

(** The text of an event in the combo box: the name, then the date in
    parentheses. *)
Definition event_text (name date : string) : string :=
  (name ++ " (" ++ date ++ ")")%string.

(** [on_event_selected]: a text that is a key of [self.event_data] makes
    its event the current one and empties the cart. *)
Definition on_event_selected (selected : string) (s : session) : session :=
  match dict_get selected (session_event_data s) with
  | Some event_id =>
      mk_session (Some event_id) clear_cart (session_event_data s)
  | None => s
  end.

(** [load_events]: the dictionary is rebuilt from [get_events], a later
    event of the same text overwriting an earlier one, and the first text
    of the list is selected. *)
Definition load_events (d : db) (s : session) : session :=
  let events := get_events d in
  let event_list :=
    map (fun e => let '(_, name, date) := e in event_text name date) events in
  let event_data :=
    fold_left (fun dict e => let '(event_id, name, date) := e in
                             dict_set (event_text name date) event_id dict)
              events [] in
  let s' := mk_session (session_event_id s) (session_cart s) event_data in
  match event_list with
  | [] => s'
  | first :: _ => on_event_selected first s'
  end.

Section NewEventSelected.

Variable strip : string -> string.
Variable strptime : string -> option (Z * Z * Z).

(** [create_new_event] with what follows the insert: the events are
    reloaded and the text of the new event is selected. *)
Definition create_new_event_selected (now : string)
  (name_var date_var : string) (s : session) (d : db) : session * db :=
  match EventDialog.create_event strip strptime name_var date_var with
  | EventDialog.showerror _ => (s, d)
  | EventDialog.result name date =>
      let d' := snd (create_event now name date d) in
      (on_event_selected (event_text name date) (load_events d' s), d')
  end.

End NewEventSelected.

End POSApp.

(* ================================================================= *)
(** ** Vocabulary of the statements *)

Module Spec.

Import POSDatabase.

(** The row update of [cancel_sale]. *)
Definition cancel_row (sale_id : Z) (s : sale) : sale :=
  if s_id s =? sale_id then set_cancelled s true else s.

(** The tables with the rows of sale [sale_id] left out. *)
Definition without_sale (sale_id : Z) (d : db) : db :=
  with_sales d (filter (fun s => negb (s_id s =? sale_id)) (sales d)).

(** A cart that the stock covers: one line per product, and no line asks
    for more than a product of that id has in stock. *)
Definition covered (d : db) (cart_items : list POSApp.cart_item) : Prop :=
  NoDup (map POSApp.item_id cart_items)
  /\ Forall (fun item =>
               forall p, In p (products d) ->
                         p_id p = POSApp.item_id item ->
                         POSApp.item_quantity item <= p_stock p)
            cart_items.

(** The tables reached from a fresh database by calls with validated
    input: products are added with a stock that is not negative, as the
    product dialog checks, and stock is taken only by the checkout of a
    covered cart. *)
Inductive validated : db -> Prop :=
  | validated_init : validated init_database
  | validated_create_event now name date d :
      validated d -> validated (snd (create_event now name date d))
  | validated_add_product now event_id name price stock d :
      validated d -> 0 <= stock ->
      validated (snd (add_product now event_id name price stock d))
  | validated_delete_product product_id d :
      validated d -> validated (snd (delete_product product_id d))
  | validated_cancel_sale sale_id d :
      validated d -> validated (snd (cancel_sale sale_id d))
  | validated_checkout clock askyesno current_event_id cart_items d :
      validated d -> covered d cart_items ->
      validated
        (fst (POSApp.checkout clock askyesno current_event_id cart_items d)).

(** The row update of [update_stock]. *)
Definition restock (product_id quantity_change : Z) (p : product) : product :=
  if p_id p =? product_id then set_stock p (p_stock p + quantity_change)
  else p.

(** The sale a row of [get_recent_sales] stands for. *)
Definition recent_sale_id (row : Z * string * Z * Z * string * bool) : Z :=
  let '(sale_id, _, _, _, _, _) := row in sale_id.


(** The summary row of one product as the specification words it: name,
    quantity sold and revenue over the sales of the product that are not
    cancelled, unit price. *)
Definition product_row (d : db) (p : product) : string * Z * Z * Z :=
  let sold :=
    filter (fun s => (s_product_id s =? p_id p) && negb (s_cancelled s))
           (sales d) in
  (p_name p, Sql.sum (map s_quantity sold), Sql.sum (map s_total_price sold),
   p_price p).

(** Revenue descending, then name ascending. *)
Definition summary_order (a b : string * Z * Z * Z) : Prop :=
  row_sales b < row_sales a
  \/ (row_sales a = row_sales b
      /\ String.leb (row_name a) (row_name b) = true).

(** *** Sequences of calls *)

(** The calls of [POSDatabase] that write. *)
Inductive call : Type :=
  | call_create_event (now name date : string)
  | call_add_product (now : string) (event_id : Z) (name : string)
                     (price stock : Z)
  | call_delete_product (product_id : Z)
  | call_record_sale (now : string)
                     (event_id product_id quantity total_price : Z)
  | call_update_stock (product_id quantity_change : Z)
  | call_cancel_sale (sale_id : Z).

Definition exec (c : call) (d : db) : db :=
  match c with
  | call_create_event now name date => snd (create_event now name date d)
  | call_add_product now event_id name price stock =>
      snd (add_product now event_id name price stock d)
  | call_delete_product product_id => snd (delete_product product_id d)
  | call_record_sale now event_id product_id quantity total_price =>
      snd (record_sale now event_id product_id quantity total_price d)
  | call_update_stock product_id quantity_change =>
      snd (update_stock product_id quantity_change d)
  | call_cancel_sale sale_id => snd (cancel_sale sale_id d)
  end.

Definition exec_all (cs : list call) (d : db) : db :=
  fold_left (fun d c => exec c d) cs d.

(** The same sale, possibly cancelled since. *)
Definition sale_kept (s s' : sale) : Prop :=
  s' = s \/ (s_cancelled s = false /\ s' = set_cancelled s true).

(** Rows of [get_products] by name, ascending. *)
Definition by_name (a b : Z * string * Z * Z) : Prop :=
  let '(_, name_a, _, _) := a in
  let '(_, name_b, _, _) := b in
  String.leb name_a name_b = true.

(** Rows of [get_recent_sales] from the latest sale time to the earliest. *)
Definition latest_first (a b : Z * string * Z * Z * string * bool) : Prop :=
  let '(_, _, _, _, time_a, _) := a in
  let '(_, _, _, _, time_b, _) := b in
  String.leb time_b time_a = true.

(** Every sale that is not cancelled refers to a product of its own event,
    and that product is in the tables. *)
Definition sales_refer_to_products (d : db) : Prop :=
  forall s, In s (sales d) -> s_cancelled s = false ->
    exists p, In p (products d) /\ p_id p = s_product_id s
              /\ p_event_id p = s_event_id s.

(** Carts built by [add_to_cart] from the rows that [get_products] lists
    for an event; [None] is a quantity that does not read as a number. *)
Fixpoint fill_cart (requests : list ((Z * string * Z * Z) * option Z))
  (cart_items : list POSApp.cart_item) : list POSApp.cart_item :=
  match requests with
  | [] => cart_items
  | (product, quantity_var) :: rest =>
      fill_cart rest (fst (POSApp.add_to_cart product quantity_var cart_items))
  end.

End Spec.

(* ================================================================= *)
(** * Properties *)

Import Spec.

(** ** Byte-wise text order *)

Lemma string_compare_OT (s1 s2 : string) :
  String.compare s1 s2 = String_as_OT.compare s1 s2.
Proof.
  revert s2; induction s1; destruct s2; simpl; auto.
Qed.

Lemma string_lt_irrefl (s : string) : ~ String_as_OT.lt s s.
Proof.
  apply (@RelationClasses.StrictOrder_Irreflexive
           _ _ String_as_OT.lt_strorder).
Qed.

Lemma string_lt_trans (s1 s2 s3 : string) :
  String_as_OT.lt s1 s2 -> String_as_OT.lt s2 s3 -> String_as_OT.lt s1 s3.
Proof.
  apply (@RelationClasses.StrictOrder_Transitive
           _ _ String_as_OT.lt_strorder).
Qed.

Lemma string_leb_cases (s1 s2 : string) :
  String.leb s1 s2 = true <-> s1 = s2 \/ String_as_OT.lt s1 s2.
Proof.
  unfold String.leb.
  rewrite string_compare_OT.
  destruct (String_as_OT.compare_spec s1 s2) as [E | L | G]; split.
  - intros _. left. exact E.
  - reflexivity.
  - intros _. right. exact L.
  - reflexivity.
  - discriminate.
  - intros [E | L].
    + subst s2. elim (string_lt_irrefl s1 G).
    + elim (string_lt_irrefl s1). eapply string_lt_trans; eassumption.
Qed.

Lemma string_leb_trans (s1 s2 s3 : string) :
  String.leb s1 s2 = true -> String.leb s2 s3 = true ->
  String.leb s1 s3 = true.
Proof.
  rewrite !string_leb_cases.
  intros [-> | L12] [-> | L23]; auto.
  right. eapply string_lt_trans; eassumption.
Qed.

Lemma string_leb_false (s1 s2 : string) :
  String.leb s1 s2 = false -> String.leb s2 s1 = true.
Proof.
  intros H. destruct (String.leb_total s1 s2) as [T | T]; congruence.
Qed.

(** ** Stable sorting, [LIMIT], [SUM] *)

Section OrderByFacts.
Context {A : Type}.
Variable before : A -> A -> bool.

Lemma insert_perm (x : A) (l : list A) :
  Permutation (Sql.insert before x l) (x :: l).
Proof.
  induction l as [| y l IH]; simpl.
  - apply Permutation_refl.
  - destruct (before x y).
    + apply Permutation_refl.
    + eapply perm_trans; [ apply perm_skip, IH | apply perm_swap ].
Qed.

Lemma order_by_perm (l : list A) : Permutation (Sql.order_by before l) l.
Proof.
  induction l as [| x l IH]; simpl.
  - constructor.
  - eapply perm_trans; [ apply insert_perm | apply perm_skip, IH ].
Qed.

Lemma order_by_In (l : list A) (x : A) :
  In x (Sql.order_by before l) <-> In x l.
Proof.
  split; apply Permutation_in;
    [ | apply Permutation_sym ]; apply order_by_perm.
Qed.


Hypothesis before_total :
  forall x y, before x y = false -> before y x = true.
Hypothesis before_trans :
  forall x y z, before x y = true -> before y z = true ->
                before x z = true.

Lemma insert_sorted (x : A) (l : list A) :
  StronglySorted (fun a b => before a b = true) l ->
  StronglySorted (fun a b => before a b = true) (Sql.insert before x l).
Proof.
  induction 1 as [| y l S IH F]; simpl.
  - repeat constructor.
  - destruct (before x y) eqn:E.
    + constructor; [ constructor; assumption | ].
      constructor; [ exact E | ].
      eapply Forall_impl; [ | exact F ].
      intros z Hz. eapply before_trans; eassumption.
    + constructor; [ exact IH | ].
      eapply Permutation_Forall;
        [ apply Permutation_sym, insert_perm | ].
      constructor; [ apply before_total, E | exact F ].
Qed.

Lemma order_by_sorted (l : list A) :
  StronglySorted (fun a b => before a b = true) (Sql.order_by before l).
Proof.
  induction l as [| x l IH]; simpl.
  - constructor.
  - apply insert_sorted, IH.
Qed.
End OrderByFacts.

Lemma firstn_incl {A : Type} (n : nat) (l : list A) : incl (firstn n l) l.
Proof.
  revert l; induction n as [| n IH]; intros [| y l] x H; simpl in *;
    try contradiction.
  destruct H as [-> | H]; [ left; reflexivity | right; apply IH, H ].
Qed.

Lemma limit_incl {A : Type} (n : Z) (l : list A) : incl (Sql.limit n l) l.
Proof.
  unfold Sql.limit. destruct (n <? 0).
  - apply incl_refl.
  - apply firstn_incl.
Qed.

Lemma sum_app (l1 l2 : list Z) :
  Sql.sum (l1 ++ l2) = Sql.sum l1 + Sql.sum l2.
Proof.
  unfold Sql.sum. induction l1 as [| x l1 IH]; simpl; [ reflexivity | ].
  rewrite IH. lia.
Qed.

Lemma filter_all {A : Type} (f : A -> bool) (l : list A) :
  (forall x, In x l -> f x = true) -> filter f l = l.
Proof.
  induction l as [| x l IH]; simpl; intros H; [ reflexivity | ].
  rewrite (H x (or_introl eq_refl)), IH; auto.
Qed.

Lemma filter_filter_same {A : Type} (f : A -> bool) (l : list A) :
  filter f (filter f l) = filter f l.
Proof.
  apply filter_all. intros x H. apply filter_In in H. tauto.
Qed.

Lemma NoDup_map_inj {A : Type} (f : A -> Z) (l : list A) (x y : A) :
  NoDup (map f l) -> In x l -> In y l -> f x = f y -> x = y.
Proof.
  induction l as [| z l IH]; simpl; intros N Hx Hy E; [ contradiction | ].
  inversion N as [| ? ? Hnin N']; subst.
  destruct Hx as [-> | Hx], Hy as [-> | Hy]; auto.
  - elim Hnin. rewrite E. apply in_map, Hy.
  - elim Hnin. rewrite <- E. apply in_map, Hx.
Qed.

Lemma count_pos_iff {A : Type} (l : list A) :
  (Sql.count l >? 0) = true <-> l <> [].
Proof.
  unfold Sql.count. destruct l as [| x l]; simpl List.length; split.
  - discriminate.
  - congruence.
  - discriminate.
  - intros _. apply Z.gtb_lt. lia.
Qed.

Lemma count_pos_exists {A : Type} (f : A -> bool) (l : list A) :
  (Sql.count (filter f l) >? 0) = true <-> exists x, In x l /\ f x = true.
Proof.
  rewrite count_pos_iff. split.
  - destruct (filter f l) as [| x l'] eqn:E; [ congruence | intros _ ].
    exists x. apply filter_In. rewrite E. left; reflexivity.
  - intros (x & Hin & Hf) E.
    assert (H : In x (filter f l)) by (apply filter_In; auto).
    rewrite E in H. exact H.
Qed.

(* ================================================================= *)
(** ** Primary keys *)

Section Wf.
Import POSDatabase.

Lemma wf_init_database : wf init_database.
Proof. constructor; simpl; try constructor; lia. Qed.

Lemma NoDup_map_app_fresh {A : Type} (f : A -> Z) (l : list A) (x : A)
  (bound : Z) :
  NoDup (map f l) -> Forall (fun y => 0 < f y <= bound) l -> bound < f x ->
  NoDup (map f (l ++ [x])).
Proof.
  intros N F B. rewrite map_app. simpl.
  apply NoDup_app; [ exact N | repeat constructor; intros [] | ].
  intros y Hy [<- | []].
  apply in_map_iff in Hy. destruct Hy as (z & Hz & Hin).
  rewrite Forall_forall in F. specialize (F z Hin). lia.
Qed.

Lemma Forall_app_fresh {A : Type} (f : A -> Z) (l : list A) (x : A)
  (bound : Z) :
  0 <= bound -> Forall (fun y => 0 < f y <= bound) l -> f x = bound + 1 ->
  Forall (fun y => 0 < f y <= bound + 1) (l ++ [x]).
Proof.
  intros B F E. apply Forall_app. split.
  - eapply Forall_impl; [ | exact F ]. simpl. intros; lia.
  - repeat constructor; lia.
Qed.

Lemma wf_create_event now name date d :
  wf d -> wf (snd (create_event now name date d)).
Proof.
  intros [He Hes Hp Hps Hs Hss (B1 & B2 & B3)].
  constructor; simpl; auto; try lia.
  - eapply NoDup_map_app_fresh; eauto. simpl. lia.
  - apply Forall_app_fresh; auto.
Qed.

Lemma wf_add_product now event_id name price stock d :
  wf d -> wf (snd (add_product now event_id name price stock d)).
Proof.
  intros [He Hes Hp Hps Hs Hss (B1 & B2 & B3)].
  constructor; simpl; auto; try lia.
  - eapply NoDup_map_app_fresh; eauto. simpl. lia.
  - apply Forall_app_fresh; auto.
Qed.

Lemma wf_record_sale now event_id product_id quantity total_price d :
  wf d ->
  wf (snd (record_sale now event_id product_id quantity total_price d)).
Proof.
  intros [He Hes Hp Hps Hs Hss (B1 & B2 & B3)].
  constructor; simpl; auto; try lia.
  - eapply NoDup_map_app_fresh; eauto. simpl. lia.
  - apply Forall_app_fresh; auto.
Qed.

Lemma NoDup_map_filter {A : Type} (f : A -> Z) (g : A -> bool) (l : list A) :
  NoDup (map f l) -> NoDup (map f (filter g l)).
Proof.
  induction l as [| x l IH]; simpl; intros N; [ constructor | ].
  inversion N as [| ? ? Hnin N']; subst.
  destruct (g x); simpl; auto.
  constructor; auto.
  intros Hin. apply Hnin.
  apply in_map_iff in Hin. destruct Hin as (y & Hy & Hin).
  apply in_map_iff. exists y. split; auto.
  apply filter_In in Hin. tauto.
Qed.

Lemma wf_delete_product product_id d :
  wf d -> wf (snd (delete_product product_id d)).
Proof.
  intros W. unfold delete_product.
  destruct (Sql.count _ >? 0); [ exact W | ].
  destruct W as [He Hes Hp Hps Hs Hss B].
  constructor; simpl; auto.
  - apply NoDup_map_filter, Hp.
  - apply Forall_forall. intros p Hin. apply filter_In in Hin.
    rewrite Forall_forall in Hps. apply Hps. tauto.
Qed.

Lemma map_id_update_stock product_id quantity_change ps :
  map p_id
      (map (fun p => if p_id p =? product_id
                     then set_stock p (p_stock p + quantity_change)
                     else p) ps)
  = map p_id ps.
Proof.
  rewrite map_map. apply map_ext. intros p.
  destruct (p_id p =? product_id); reflexivity.
Qed.

Lemma wf_update_stock product_id quantity_change d :
  wf d -> wf (snd (update_stock product_id quantity_change d)).
Proof.
  intros [He Hes Hp Hps Hs Hss B].
  constructor; simpl; auto.
  - rewrite map_id_update_stock. exact Hp.
  - apply Forall_map. eapply Forall_impl; [ | exact Hps ].
    intros p Hb. destruct (p_id p =? product_id); exact Hb.
Qed.

Lemma map_id_cancel sale_id ss :
  map s_id
      (map (fun s => if s_id s =? sale_id then set_cancelled s true else s)
           ss)
  = map s_id ss.
Proof.
  rewrite map_map. apply map_ext. intros s.
  destruct (s_id s =? sale_id); reflexivity.
Qed.

Lemma wf_cancel_sale sale_id d :
  wf d -> wf (snd (cancel_sale sale_id d)).
Proof.
  intros [He Hes Hp Hps Hs Hss B].
  constructor; simpl; auto.
  - rewrite map_id_cancel. exact Hs.
  - apply Forall_map. eapply Forall_impl; [ | exact Hss ].
    intros s Hb. destruct (s_id s =? sale_id); exact Hb.
Qed.

End Wf.

(* ================================================================= *)
(** ** Cancelling a sale *)

Section CancelSale.
Import POSDatabase.

Lemma with_products_same d : with_products d (products d) = d.
Proof. destruct d; reflexivity. Qed.

Lemma cancel_sale_sales sale_id d :
  sales (snd (cancel_sale sale_id d)) = map (cancel_row sale_id) (sales d).
Proof. reflexivity. Qed.

Lemma cancel_sale_found sale_id d :
  fst (cancel_sale sale_id d) = true <->
  exists s, In s (sales d) /\ s_id s = sale_id.
Proof.
  unfold cancel_sale. simpl. rewrite count_pos_exists.
  split; intros (s & Hin & H); exists s; split; auto; apply Z.eqb_eq; auto.
Qed.

(** The second of two cancellations finds the tables as the first left
    them. *)
Lemma cancel_rows_idem sale_id ss :
  map (cancel_row sale_id) (map (cancel_row sale_id) ss)
  = map (cancel_row sale_id) ss.
Proof.
  rewrite map_map. apply map_ext. intros s. unfold cancel_row.
  destruct (s_id s =? sale_id) eqn:E; simpl; rewrite E; reflexivity.
Qed.

Lemma cancel_sale_idem sale_id d :
  snd (cancel_sale sale_id (snd (cancel_sale sale_id d)))
  = snd (cancel_sale sale_id d).
Proof.
  unfold cancel_sale. simpl. unfold with_sales. simpl.
  f_equal. apply cancel_rows_idem.
Qed.

Lemma filter_live_cancel (live : sale -> bool) sale_id ss :
  (forall s, live (set_cancelled s true) = false) ->
  filter live (map (cancel_row sale_id) ss)
  = filter live (filter (fun s => negb (s_id s =? sale_id)) ss).
Proof.
  intros Hlive. induction ss as [| s ss IH]; simpl; [ reflexivity | ].
  rewrite IH. unfold cancel_row.
  destruct (s_id s =? sale_id); simpl.
  - rewrite Hlive. reflexivity.
  - reflexivity.
Qed.

Lemma live_sale_in_cancelled event_id s :
  live_sale_in event_id (set_cancelled s true) = false.
Proof. unfold live_sale_in. simpl. apply andb_false_r. Qed.

Lemma live_sale_of_cancelled product_id s :
  live_sale_of product_id (set_cancelled s true) = false.
Proof. unfold live_sale_of. simpl. apply andb_false_r. Qed.

Lemma get_sales_summary_live event_id d1 d2 :
  filter (live_sale_in event_id) (sales d1)
  = filter (live_sale_in event_id) (sales d2) ->
  get_sales_summary event_id d1 = get_sales_summary event_id d2.
Proof. unfold get_sales_summary. intros ->. reflexivity. Qed.

Lemma get_product_sales_summary_live event_id d1 d2 :
  products d1 = products d2 ->
  (forall product_id,
      filter (live_sale_of product_id) (sales d1)
      = filter (live_sale_of product_id) (sales d2)) ->
  get_product_sales_summary event_id d1
  = get_product_sales_summary event_id d2.
Proof.
  intros Hp Hs.
  assert (J : products_left_join_sales event_id d1
              = products_left_join_sales event_id d2).
  { unfold products_left_join_sales. rewrite Hp.
    apply flat_map_ext. intros p. unfold join_rows. rewrite Hs.
    reflexivity. }
  unfold get_product_sales_summary. rewrite J. reflexivity.
Qed.

End CancelSale.

Section CancelSaleClaims.
Import POSDatabase.

Lemma filter_other_ids_absent sale_id (ss : list sale) :
  ~ In sale_id (map s_id ss) ->
  filter (fun s => negb (s_id s =? sale_id)) ss = ss.
Proof.
  intros H. induction ss as [| s ss IH]; simpl; [ reflexivity | ].
  simpl in H.
  destruct (Z.eqb_spec (s_id s) sale_id) as [E | _]; simpl.
  - elim H. left. exact E.
  - rewrite IH; [ reflexivity | tauto ].
Qed.

(** Leaving out a live row with a unique id lowers every total by that
    row's share. *)
Lemma live_rows_without (live : sale -> bool) s ss :
  NoDup (map s_id ss) -> In s ss -> live s = true ->
  exists l1 l2,
    filter live ss = l1 ++ s :: l2
    /\ filter live (filter (fun s' => negb (s_id s' =? s_id s)) ss)
       = l1 ++ l2.
Proof.
  induction ss as [| x ss IH]; simpl; intros N Hin L; [ contradiction | ].
  inversion N as [| ? ? Hnin N']; subst.
  destruct Hin as [-> | Hin].
  - rewrite L, Z.eqb_refl. simpl.
    exists [], (filter live ss). split; [ reflexivity | ].
    rewrite filter_other_ids_absent; auto.
  - destruct (IH N' Hin L) as (l1 & l2 & E1 & E2).
    destruct (Z.eqb_spec (s_id x) (s_id s)) as [E | _]; simpl.
    + elim Hnin. rewrite E. apply in_map, Hin.
    + destruct (live x).
      * exists (x :: l1), l2. rewrite E1, E2. split; reflexivity.
      * exists l1, l2. split; assumption.
Qed.

(** C3. [get_sales_summary] reports revenue, quantity and number of
    transactions of the event's sales that are not cancelled: rows with the
    cancelled flag set could as well be absent.  After [cancel_sale] both
    [get_sales_summary] and [get_product_sales_summary] answer as if the
    sale had never been recorded; for a live sale of the event with its own
    id that lowers the three totals by its price, its quantity and one.
    Cancelling the same sale once more changes neither answer. *)
Theorem cancel_sale_excludes_from_summaries (sale_id event_id : Z) (d : db) :
  let d1 := snd (cancel_sale sale_id d) in
  let d2 := snd (cancel_sale sale_id d1) in
  (let rows :=
     filter (fun s => (s_event_id s =? event_id) && negb (s_cancelled s))
            (sales d) in
   get_sales_summary event_id d
   = (Sql.sum (map s_total_price rows), Sql.sum (map s_quantity rows),
      Sql.count rows)
   /\ get_sales_summary event_id d
      = get_sales_summary event_id (with_sales d rows))
  /\ get_sales_summary event_id d1
     = get_sales_summary event_id (without_sale sale_id d)
  /\ get_product_sales_summary event_id d1
     = get_product_sales_summary event_id (without_sale sale_id d)
  /\ (forall s total_sales total_quantity transaction_count,
         NoDup (map s_id (sales d)) -> In s (sales d) ->
         s_id s = sale_id -> s_event_id s = event_id ->
         s_cancelled s = false ->
         get_sales_summary event_id d
         = (total_sales, total_quantity, transaction_count) ->
         get_sales_summary event_id d1
         = (total_sales - s_total_price s, total_quantity - s_quantity s,
            transaction_count - 1))
  /\ get_sales_summary event_id d2 = get_sales_summary event_id d1
  /\ get_product_sales_summary event_id d2
     = get_product_sales_summary event_id d1.
Proof.
  intros d1 d2.
  assert (E1 : get_sales_summary event_id d1
               = get_sales_summary event_id (without_sale sale_id d)).
  { apply get_sales_summary_live. subst d1.
    rewrite cancel_sale_sales. simpl.
    apply filter_live_cancel, live_sale_in_cancelled. }
  split; [ split | repeat split ].
  - reflexivity.
  - apply get_sales_summary_live. simpl. symmetry.
    apply (filter_filter_same (live_sale_in event_id)).
  - exact E1.
  - apply get_product_sales_summary_live; [ reflexivity | ].
    intros product_id. subst d1. rewrite cancel_sale_sales. simpl.
    apply filter_live_cancel, live_sale_of_cancelled.
  - intros s ts tq tc N Hin Hid Hev Hc Hsum.
    rewrite E1. clear E1. subst sale_id.
    assert (L : live_sale_in event_id s = true).
    { unfold live_sale_in. rewrite Hc, Hev, Z.eqb_refl. reflexivity. }
    destruct (live_rows_without (live_sale_in event_id) s (sales d) N Hin L)
      as (l1 & l2 & F1 & F2).
    unfold get_sales_summary in *. simpl.
    rewrite F1 in Hsum. rewrite F2.
    unfold Sql.count in *.
    rewrite !map_app, !sum_app, !length_app in *. simpl in Hsum.
    inversion Hsum; subst. f_equal; [ f_equal | ]; lia.
  - unfold d2, d1. rewrite cancel_sale_idem. reflexivity.
  - unfold d2, d1. rewrite cancel_sale_idem. reflexivity.
Qed.

Lemma cancel_sale_excludes_from_summaries_witness :
  let d :=
    snd (record_sale "2024-05-01 10:05:00" 1 1 1 300
           (snd (record_sale "2024-05-01 10:00:00" 1 1 2 600
                             init_database))) in
  get_sales_summary 1 d = (900, 3, 2)
  /\ get_sales_summary 1 (snd (cancel_sale 1 d)) = (300, 1, 1).
Proof.
  intros d. split; [ reflexivity | ].
  pose proof (cancel_sale_excludes_from_summaries 1 1 d) as H.
  destruct H as (_ & _ & _ & H & _).
  apply (H (mk_sale 1 1 1 2 600 "2024-05-01 10:00:00" false) 900 3 2).
  - repeat constructor; simpl; intuition discriminate.
  - left. reflexivity.
  - reflexivity.
  - reflexivity.
  - reflexivity.
  - reflexivity.
Defined.

End CancelSaleClaims.

Section CancelSaleFrame.
Import POSDatabase.

Lemma cancel_rows_frame sale_id ss :
  Forall2 (fun s s' =>
             s' = s \/ (s_id s = sale_id /\ s' = set_cancelled s true))
          ss (map (cancel_row sale_id) ss).
Proof.
  induction ss as [| s ss IH]; simpl; constructor; auto.
  unfold cancel_row.
  destruct (Z.eqb_spec (s_id s) sale_id); [ right | left ]; auto.
Qed.

(** C5. [cancel_sale] does not give stock back.  It leaves the products and
    the events as they are, and every sale row keeps all its columns except
    that the cancelled flag of the rows with the given id is set; so every
    stock read before the cancellation is read after it.  In the scenario
    of one "Sticker" at 300 with stock 10, of which 2 are put in the cart
    and checked out, the summary is (600, 2, 1) and the stock 8; cancelling
    that sale makes the summary (0, 0, 0) while the stock remains 8. *)
Theorem cancel_sale_does_not_restore_stock (sale_id : Z) (d : db) :
  let d' := snd (cancel_sale sale_id d) in
  products d' = products d
  /\ events d' = events d
  /\ (events_seq d', products_seq d', sales_seq d')
     = (events_seq d, products_seq d, sales_seq d)
  /\ Forall2 (fun s s' =>
                s' = s \/ (s_id s = sale_id /\ s' = set_cancelled s true))
             (sales d) (sales d')
  /\ (forall product_id,
         get_product_stock product_id d' = get_product_stock product_id d)
  /\ (forall event_id, get_products event_id d' = get_products event_id d)
  /\ (forall now1 now2 clock,
         let d1 := snd (create_event now1 "Spring Fair" "2024-05-01"
                                     init_database) in
         let d2 := snd (add_product now2 1 "Sticker" 300 10 d1) in
         let cart := fst (POSApp.add_to_cart (1, "Sticker", 300, 10)
                                             (Some 2) []) in
         let d3 := fst (POSApp.checkout clock true (Some 1) cart d2) in
         let d4 := snd (cancel_sale 1 d3) in
         get_products 1 d2 = [(1, "Sticker", 300, 10)]
         /\ cart = [(1, "Sticker", 300, 2)]
         /\ sales d3 = [mk_sale 1 1 1 2 600 (clock 0%nat) false]
         /\ get_product_stock 1 d3 = 8
         /\ get_sales_summary 1 d3 = (600, 2, 1)
         /\ fst (cancel_sale 1 d3) = true
         /\ get_sales_summary 1 d4 = (0, 0, 0)
         /\ get_product_stock 1 d4 = 8).
Proof.
  intros d'. subst d'.
  repeat split; try reflexivity.
  rewrite cancel_sale_sales. apply cancel_rows_frame.
Qed.

(** The state column of the history never reads as the text the guard of
    [cancel_selected_sale] compares it with. *)
Lemma status_is_not_guard_text (cancelled : bool) :
  String.eqb (POSApp.status cancelled) "取消" = false.
Proof. destruct cancelled; reflexivity. Qed.

Lemma cancel_guard_never_fires (cancelled : bool) (askyesno : bool)
  (sale_id : Z) (d : db) :
  fst (POSApp.cancel_selected_sale askyesno
         (sale_id, POSApp.status cancelled) d)
  <> POSApp.already_cancelled.
Proof.
  unfold POSApp.cancel_selected_sale.
  rewrite status_is_not_guard_text.
  destruct askyesno; [ | discriminate ].
  destruct (cancel_sale sale_id d) as [[|] ?]; discriminate.
Qed.

(** C2.  Where the claim has [cancel_sale] answer false for a sale that is
    already cancelled, the code answers true: one sale of two "Sticker" is
    recorded and cancelled; cancelling it a second time again reports a
    changed row and leaves the tables as they are, and the history view,
    whose state column reads "cancelled" for the sale, lets the second
    cancellation through to the success box. *)
Theorem cancel_sale_twice_reports_success (now1 now2 now3 : string) :
  let d0 := snd (add_product now2 1 "Sticker" 300 10
                   (snd (create_event now1 "Spring Fair" "2024-05-01"
                                      init_database))) in
  let d1 := snd (update_stock 1 (-2) (snd (record_sale now3 1 1 2 600 d0))) in
  let d2 := snd (cancel_sale 1 d1) in
  fst (cancel_sale 1 d1) = true
  /\ sales d2 = [mk_sale 1 1 1 2 600 now3 true]
  /\ cancel_sale 1 d2 = (true, d2)
  /\ POSApp.history 1 d2 = [(1, POSApp.status true)]
  /\ POSApp.cancel_selected_sale true (1, POSApp.status true) d2
     = (POSApp.sale_cancelled, d2).
Proof.
  repeat split; reflexivity.
Qed.

End CancelSaleFrame.

(* ================================================================= *)
(** ** Deleting a product *)

Section DeleteProduct.
Import POSDatabase.

Lemma no_live_sale_iff product_id d :
  (Sql.count (filter (live_sale_of product_id) (sales d)) >? 0) = false <->
  (forall s, In s (sales d) -> s_product_id s = product_id ->
             s_cancelled s = true).
Proof.
  rewrite <- not_true_iff_false, count_pos_exists. split.
  - intros H s Hin Hp. destruct (s_cancelled s) eqn:C; [ reflexivity | ].
    elim H. exists s. split; [ exact Hin | ].
    unfold live_sale_of. rewrite C, Hp, Z.eqb_refl. reflexivity.
  - intros H (s & Hin & L). unfold live_sale_of in L.
    apply andb_prop in L. destruct L as (E & C).
    apply Z.eqb_eq in E. rewrite (H s Hin E) in C. discriminate.
Qed.

(** C4, the first product of an event deleted twice: the second call finds
    no sale at all referring to product 1 and still answers false. *)
Lemma delete_product_missing_returns_false :
  let d0 := snd (add_product "2024-05-01 09:00:00" 1 "Sticker" 300 10
                   (snd (create_event "2024-05-01 08:00:00" "Spring Fair"
                                      "2024-05-01" init_database))) in
  let d1 := snd (delete_product 1 d0) in
  fst (delete_product 1 d0) = true
  /\ sales d1 = []
  /\ fst (delete_product 1 d1) = false.
Proof. repeat split; reflexivity. Qed.

(** [delete_product] when no sale that counts refers to the product. *)
Lemma delete_product_free (product_id : Z) (d : db) :
  (forall s, In s (sales d) -> s_product_id s = product_id ->
             s_cancelled s = true) ->
  delete_product product_id d
  = (Sql.count (filter (fun p => p_id p =? product_id) (products d)) >? 0,
     with_products d
       (filter (fun p => negb (p_id p =? product_id)) (products d))).
Proof.
  intros H. unfold delete_product.
  rewrite (proj2 (no_live_sale_iff product_id d) H). reflexivity.
Qed.

(** C4, amended.  [delete_product] answers true exactly when no sale that
    is not cancelled refers to the product and a product with that id
    exists.  On true the rows with that id, and no others, are gone from
    the products; on false the tables are untouched.  Sales and events are
    never touched, and the answer is a boolean in every case. *)
Theorem delete_product_guard (product_id : Z) (d : db) :
  let r := delete_product product_id d in
  (fst r = true <->
   (forall s, In s (sales d) -> s_product_id s = product_id ->
              s_cancelled s = true)
   /\ (exists p, In p (products d) /\ p_id p = product_id))
  /\ (fst r = true ->
      forall p, In p (products (snd r)) <->
                In p (products d) /\ p_id p <> product_id)
  /\ (fst r = false -> snd r = d)
  /\ sales (snd r) = sales d
  /\ events (snd r) = events d.
Proof.
  intros r. subst r. unfold delete_product.
  destruct (Sql.count (filter (live_sale_of product_id) (sales d)) >? 0)
    eqn:L.
  - simpl. repeat split; try discriminate; try reflexivity.
    intros (H & _). apply (proj2 (no_live_sale_iff product_id d)) in H.
    congruence.
  - pose proof (proj1 (no_live_sale_iff product_id d) L) as L'. simpl.
    split; [ split | split; [ | split; [ | split; reflexivity ] ] ].
    + intros H. split; [ exact L' | ].
      apply count_pos_exists in H. destruct H as (p & Hin & E).
      exists p. split; [ exact Hin | apply Z.eqb_eq, E ].
    + intros (_ & p & Hin & E). apply count_pos_exists.
      exists p. split; [ exact Hin | apply Z.eqb_eq, E ].
    + intros _ p. rewrite filter_In, negb_true_iff, Z.eqb_neq. tauto.
    + intros H. rewrite filter_all; [ apply with_products_same | ].
      intros p Hin. apply negb_true_iff, Z.eqb_neq. intros E.
      apply not_true_iff_false in H. apply H, count_pos_exists.
      exists p. split; [ exact Hin | apply Z.eqb_eq, E ].
Qed.

Lemma delete_product_guard_witness :
  let d0 := snd (add_product "2024-05-01 09:00:00" 1 "Sticker" 300 10
                   (snd (create_event "2024-05-01 08:00:00" "Spring Fair"
                                      "2024-05-01" init_database))) in
  let d1 := snd (record_sale "2024-05-01 10:00:00" 1 1 2 600 d0) in
  (forall p, In p (products (snd (delete_product 1 d0))) <->
             In p (products d0) /\ p_id p <> 1)
  /\ snd (delete_product 1 d1) = d1.
Proof.
  intros d0 d1. split.
  - apply (delete_product_guard 1 d0). reflexivity.
  - apply (delete_product_guard 1 d1). reflexivity.
Defined.

End DeleteProduct.

(* ================================================================= *)
(** ** The cart *)

Section Cart.
Import POSDatabase POSApp.

Lemma update_line_ids product_id name price quantity cart_items cart_items' :
  update_line product_id name price quantity cart_items = Some cart_items' ->
  map item_id cart_items' = map item_id cart_items.
Proof.
  revert cart_items'.
  induction cart_items as [| item rest IH]; simpl; intros c';
    [ discriminate | ].
  destruct (Z.eqb_spec (item_id item) product_id) as [E | N].
  - intros H. inversion H. simpl. rewrite E. reflexivity.
  - destruct (update_line product_id name price quantity rest) as [r |];
      simpl; intros H; inversion H.
    simpl. rewrite (IH r eq_refl). reflexivity.
Qed.

Lemma update_line_none product_id name price quantity cart_items :
  update_line product_id name price quantity cart_items = None <->
  ~ In product_id (map item_id cart_items).
Proof.
  induction cart_items as [| item rest IH]; simpl.
  - tauto.
  - destruct (Z.eqb_spec (item_id item) product_id) as [E | N].
    + split; [ discriminate | intros H; elim H; auto ].
    + destruct (update_line product_id name price quantity rest); simpl.
      * split; [ discriminate | ].
        intros H. exfalso. destruct IH as [_ IH].
        assert (X : @Some (list cart_item) l = None) by (apply IH; tauto).
        discriminate.
      * split; [ | reflexivity ]. intros _ [E | H]; [ auto | ].
        destruct IH as [IH _]. exact (IH eq_refl H).
Qed.

Lemma update_line_merge product_id name price quantity l1 item l2 :
  item_id item = product_id -> ~ In product_id (map item_id l1) ->
  update_line product_id name price quantity (l1 ++ item :: l2)
  = Some (l1 ++ (product_id, name, price, item_quantity item + quantity)
             :: l2).
Proof.
  intros E. induction l1 as [| x l1 IH]; simpl; intros N.
  - rewrite E, Z.eqb_refl. reflexivity.
  - destruct (Z.eqb_spec (item_id x) product_id) as [E' | _];
      [ elim N; auto | ].
    rewrite IH; [ reflexivity | tauto ].
Qed.

(** C7. [add_to_cart] shows the validation error when the quantity is not
    positive.  With a positive quantity that, added to what the cart
    already holds of the product, exceeds the product's stock, it shows the
    insufficient-stock error with that stock; in both cases the cart stays
    as it was.  Otherwise no error is shown, and the quantity is added to
    the first line of the product, or a new line is appended when the cart
    has none; a cart with at most one line per product keeps at most one
    line per product.  So 2 and then 3 of a product give one line of 5, and
    with stock 4 and 2 in the cart, adding 3 is refused with stock 4. *)
Theorem add_to_cart_spec (product_id : Z) (name : string)
  (price stock quantity : Z) (cart_items : list cart_item) :
  let r := add_to_cart (product_id, name, price, stock) (Some quantity)
                       cart_items in
  let staged := current_cart_qty product_id cart_items in
  (quantity <= 0 -> r = (cart_items, Some ValidationError))
  /\ (0 < quantity -> staged + quantity > stock ->
      r = (cart_items, Some (InsufficientStockError stock)))
  /\ (0 < quantity -> staged + quantity <= stock ->
      snd r = None
      /\ (forall l1 item l2,
             cart_items = l1 ++ item :: l2 -> item_id item = product_id ->
             ~ In product_id (map item_id l1) ->
             fst r = l1 ++ (product_id, name, price,
                            item_quantity item + quantity) :: l2)
      /\ (~ In product_id (map item_id cart_items) ->
          fst r = cart_items ++ [(product_id, name, price, quantity)])
      /\ (NoDup (map item_id cart_items) -> NoDup (map item_id (fst r))))
  /\ fst (add_to_cart (1, "Sticker", 300, 10) (Some 3)
            (fst (add_to_cart (1, "Sticker", 300, 10) (Some 2) [])))
     = [(1, "Sticker", 300, 5)]
  /\ add_to_cart (1, "Sticker", 300, 4) (Some 3) [(1, "Sticker", 300, 2)]
     = ([(1, "Sticker", 300, 2)], Some (InsufficientStockError 4)).
Proof.
  intros r staged. subst r staged. unfold add_to_cart.
  split; [ | split; [ | split; [ | split; reflexivity ] ] ].
  - intros Q. apply Z.leb_le in Q. rewrite Q. reflexivity.
  - intros Q S.
    assert (Q' : (quantity <=? 0) = false) by (apply Z.leb_gt; lia).
    assert (S' : (current_cart_qty product_id cart_items + quantity >? stock)
                 = true) by (apply Z.gtb_lt; lia).
    rewrite Q', S'. reflexivity.
  - intros Q S.
    assert (Q' : (quantity <=? 0) = false) by (apply Z.leb_gt; lia).
    assert (S' : (current_cart_qty product_id cart_items + quantity >? stock)
                 = false).
    { apply not_true_iff_false. intros H. apply Z.gtb_lt in H. lia. }
    rewrite Q', S'.
    split; [ | split; [ | split ] ].
    + destruct (update_line product_id name price quantity cart_items);
        reflexivity.
    + intros l1 item l2 -> E N.
      rewrite (update_line_merge _ _ _ _ _ _ _ E N). reflexivity.
    + intros N.
      rewrite (proj2 (update_line_none product_id name price quantity
                                       cart_items) N).
      reflexivity.
    + intros N.
      destruct (update_line product_id name price quantity cart_items)
        as [c |] eqn:U; simpl.
      * rewrite (update_line_ids _ _ _ _ _ _ U). exact N.
      * apply (proj1 (update_line_none _ _ _ _ _)) in U.
        rewrite map_app. simpl. apply NoDup_app; auto.
        -- repeat constructor. intros [].
        -- intros x Hx [<- | []]. exact (U Hx).
Qed.

Lemma add_to_cart_spec_witness :
  add_to_cart (7, "Badge", 150, 3) (Some 0) [(7, "Badge", 150, 1)]
  = ([(7, "Badge", 150, 1)], Some ValidationError)
  /\ add_to_cart (7, "Badge", 150, 3) (Some 3) [(7, "Badge", 150, 1)]
     = ([(7, "Badge", 150, 1)], Some (InsufficientStockError 3))
  /\ NoDup (map item_id
              (fst (add_to_cart (7, "Badge", 150, 3) (Some 2)
                                [(7, "Badge", 150, 1)]))).
Proof.
  split; [ | split ].
  - apply (add_to_cart_spec 7 "Badge" 150 3 0 [(7, "Badge", 150, 1)]). lia.
  - apply (add_to_cart_spec 7 "Badge" 150 3 3 [(7, "Badge", 150, 1)]).
    + lia.
    + vm_compute. reflexivity.
  - apply (add_to_cart_spec 7 "Badge" 150 3 2 [(7, "Badge", 150, 1)]).
    + lia.
    + vm_compute. discriminate.
    + repeat constructor. intros [].
Defined.

End Cart.

(* ================================================================= *)
(** ** Stock *)

Section Stock.
Import POSDatabase POSApp.

Lemma update_stock_products product_id quantity_change d :
  products (snd (update_stock product_id quantity_change d))
  = map (restock product_id quantity_change) (products d).
Proof. reflexivity. Qed.

Lemma update_stock_found product_id quantity_change d :
  fst (update_stock product_id quantity_change d) = true <->
  exists p, In p (products d) /\ p_id p = product_id.
Proof.
  unfold update_stock. simpl. rewrite count_pos_exists.
  split; intros (p & Hin & H); exists p; split; auto; apply Z.eqb_eq; auto.
Qed.

Lemma restock_id product_id quantity_change p :
  p_id (restock product_id quantity_change p) = p_id p.
Proof. unfold restock. destruct (p_id p =? product_id); reflexivity. Qed.

Lemma restock_other product_id quantity_change p :
  p_id p <> product_id -> restock product_id quantity_change p = p.
Proof.
  intros N. unfold restock.
  destruct (Z.eqb_spec (p_id p) product_id); [ contradiction | reflexivity ].
Qed.

Lemma restock_same product_id quantity_change p :
  p_id p = product_id ->
  p_stock (restock product_id quantity_change p)
  = p_stock p + quantity_change.
Proof.
  intros E. unfold restock. rewrite E, Z.eqb_refl. reflexivity.
Qed.

(** The operations other than [update_stock] do not write the stock of an
    existing product. *)
Lemma stock_nonneg_create_event now name date d :
  stock_nonneg d -> stock_nonneg (snd (create_event now name date d)).
Proof. intros H; exact H. Qed.

Lemma stock_nonneg_record_sale now event_id product_id quantity total_price d :
  stock_nonneg d ->
  stock_nonneg
    (snd (record_sale now event_id product_id quantity total_price d)).
Proof. intros H; exact H. Qed.

Lemma stock_nonneg_cancel_sale sale_id d :
  stock_nonneg d -> stock_nonneg (snd (cancel_sale sale_id d)).
Proof. intros H; exact H. Qed.

Lemma stock_nonneg_delete_product product_id d :
  stock_nonneg d -> stock_nonneg (snd (delete_product product_id d)).
Proof.
  unfold stock_nonneg, delete_product. intros H.
  destruct (Sql.count _ >? 0); simpl; [ exact H | ].
  apply Forall_forall. intros p Hin. apply filter_In in Hin.
  rewrite Forall_forall in H. apply H. tauto.
Qed.

Lemma stock_nonneg_add_product now event_id name price stock d :
  0 <= stock -> stock_nonneg d ->
  stock_nonneg (snd (add_product now event_id name price stock d)).
Proof.
  unfold stock_nonneg. simpl. intros S H.
  apply Forall_app. split; [ exact H | ]. repeat constructor. exact S.
Qed.

Lemma stock_nonneg_update_stock product_id quantity_change d :
  stock_nonneg d ->
  (stock_nonneg (snd (update_stock product_id quantity_change d)) <->
   forall p, In p (products d) -> p_id p = product_id ->
             0 <= p_stock p + quantity_change).
Proof.
  unfold stock_nonneg. rewrite update_stock_products.
  intros H. rewrite Forall_forall in H. rewrite Forall_forall. split.
  - intros F p Hin E.
    rewrite <- (restock_same product_id quantity_change p E).
    apply F, in_map, Hin.
  - intros B p' Hin'. apply in_map_iff in Hin'.
    destruct Hin' as (p & <- & Hin).
    destruct (Z.eq_dec (p_id p) product_id) as [E | N].
    + rewrite restock_same; auto.
    + rewrite restock_other; auto.
Qed.

Lemma covered_after_line now event_id product_id quantity total_price
  (item : cart_item) rest d :
  item_id item = product_id ->
  covered d (item :: rest) ->
  covered
    (snd (update_stock product_id (- quantity)
            (snd (record_sale now event_id product_id quantity total_price
                              d))))
    rest.
Proof.
  intros E (N & F). inversion N as [| ? ? Hnin N']; subst.
  inversion F as [| ? ? _ F']; subst.
  split; [ exact N' | ].
  rewrite Forall_forall in F'. apply Forall_forall.
  intros item' Hin' p' Hp' Eid.
  rewrite update_stock_products in Hp'. simpl in Hp'.
  apply in_map_iff in Hp'. destruct Hp' as (p & <- & Hp).
  rewrite restock_id in Eid.
  assert (Hne : p_id p <> item_id item).
  { intros X. apply Hnin. rewrite <- X, Eid. apply in_map, Hin'. }
  rewrite restock_other by exact Hne.
  apply (F' item' Hin' p Hp Eid).
Qed.

Lemma record_lines_stock_nonneg clock n event_id cart_items d :
  stock_nonneg d -> covered d cart_items ->
  stock_nonneg (record_lines clock n event_id cart_items d).
Proof.
  revert n d.
  induction cart_items as [| [[[product_id name] price] quantity] rest IH];
    intros n d Hs C; [ exact Hs | ].
  change (stock_nonneg
            (record_lines clock (S n) event_id rest
               (snd (update_stock product_id (- quantity)
                       (snd (record_sale (clock n) event_id product_id
                                         quantity (price * quantity) d)))))).
  apply IH.
  - apply stock_nonneg_update_stock.
    + apply stock_nonneg_record_sale, Hs.
    + intros p Hin E. destruct C as (_ & F).
      pose proof (Forall_inv F p Hin E) as B. simpl in B. lia.
  - apply (covered_after_line (clock n) event_id product_id quantity
             (price * quantity) (product_id, name, price, quantity));
      [ reflexivity | exact C ].
Qed.

(** A line that [add_to_cart] lets into a covered cart leaves it covered
    when the stock it was given is the stock in the tables. *)
Lemma current_cart_qty_absent product_id cart_items :
  ~ In product_id (map item_id cart_items) ->
  current_cart_qty product_id cart_items = 0.
Proof.
  unfold current_cart_qty.
  induction cart_items as [| item rest IH]; simpl; intros N;
    [ reflexivity | ].
  destruct (Z.eqb_spec (item_id item) product_id) as [E | _];
    [ elim N; auto | ].
  apply IH. tauto.
Qed.

Lemma current_cart_qty_line product_id l1 item l2 :
  item_id item = product_id ->
  ~ In product_id (map item_id l1) -> ~ In product_id (map item_id l2) ->
  current_cart_qty product_id (l1 ++ item :: l2) = item_quantity item.
Proof.
  intros E N1 N2.
  pose proof (current_cart_qty_absent product_id l1 N1) as Q1.
  pose proof (current_cart_qty_absent product_id l2 N2) as Q2.
  unfold current_cart_qty in *.
  rewrite filter_app, map_app, sum_app. simpl.
  rewrite E, Z.eqb_refl. simpl. lia.
Qed.

Lemma add_to_cart_covered product_id name price stock quantity cart_items
  cart_items' d :
  (forall p, In p (products d) -> p_id p = product_id -> p_stock p = stock) ->
  covered d cart_items ->
  add_to_cart (product_id, name, price, stock) (Some quantity) cart_items
  = (cart_items', None) ->
  covered d cart_items'.
Proof.
  intros Hstock (N & F) H.
  unfold add_to_cart in H.
  destruct (quantity <=? 0) eqn:Q; [ discriminate | ].
  destruct (current_cart_qty product_id cart_items + quantity >? stock)
    eqn:G; [ discriminate | ].
  assert (Hle : current_cart_qty product_id cart_items + quantity <= stock).
  { destruct (Z.gtb_spec (current_cart_qty product_id cart_items + quantity)
                         stock); [ discriminate | lia ]. }
  clear G.
  destruct (update_line product_id name price quantity cart_items)
    as [c |] eqn:U; injection H as <-.
  - split; [ rewrite (update_line_ids _ _ _ _ _ _ U); exact N | ].
    assert (Hin : In product_id (map item_id cart_items)).
    { destruct (in_dec Z.eq_dec product_id (map item_id cart_items))
        as [I | I]; [ exact I | ].
      apply (proj2 (update_line_none product_id name price quantity
                                     cart_items)) in I.
      congruence. }
    apply in_map_iff in Hin. destruct Hin as (item & E & Hin).
    apply in_split in Hin. destruct Hin as (l1 & l2 & ->).
    rewrite map_app in N. simpl in N.
    pose proof (NoDup_remove_2 _ _ _ N) as Nin. rewrite E in Nin.
    assert (N1 : ~ In product_id (map item_id l1))
      by (intros X; apply Nin, in_or_app; auto).
    assert (N2 : ~ In product_id (map item_id l2))
      by (intros X; apply Nin, in_or_app; auto).
    rewrite (update_line_merge _ _ _ _ _ _ _ E N1) in U.
    injection U as <-.
    rewrite (current_cart_qty_line _ _ _ _ E N1 N2) in Hle.
    apply Forall_app in F. destruct F as (F1 & F2).
    inversion F2 as [| ? ? _ F2']; subst.
    apply Forall_app. split; [ exact F1 | ].
    constructor; [ | exact F2' ].
    simpl. intros p Hp Eid. rewrite (Hstock p Hp Eid). exact Hle.
  - apply (proj1 (update_line_none _ _ _ _ _)) in U.
    split.
    + rewrite map_app. simpl. apply NoDup_app; auto.
      * repeat constructor. intros [].
      * intros x Hx [<- | []]. exact (U Hx).
    + apply Forall_app. split; [ exact F | ].
      repeat constructor. simpl. intros p Hp Eid.
      rewrite (Hstock p Hp Eid).
      rewrite (current_cart_qty_absent _ _ U) in Hle. lia.
Qed.

(** What the product dialog lets through is a validated call. *)
Lemma dialog_add_product_validated (strip : string -> string)
  (int : string -> option Z) now event_id name_var price_var stock_var d :
  validated d ->
  validated
    (snd (ProductManagementDialog.add_product strip int now event_id
            name_var price_var stock_var d)).
Proof.
  intros V. unfold ProductManagementDialog.add_product.
  destruct (String.eqb (strip name_var) ""); [ exact V | ].
  destruct (int (strip price_var)) as [price |],
           (int (strip stock_var)) as [stock |]; try exact V.
  destruct (price <? 0) eqn:P; [ exact V | ].
  destruct (Z.ltb_spec stock 0) as [L | G]; [ exact V | ].
  simpl. apply validated_add_product; assumption.
Qed.

(** The stock in a row of [get_products] is the stock of the product. *)
Lemma get_products_stock event_id d product_id name price stock :
  NoDup (map p_id (products d)) ->
  In (product_id, name, price, stock) (get_products event_id d) ->
  forall p, In p (products d) -> p_id p = product_id -> p_stock p = stock.
Proof.
  intros N H p Hin E. unfold get_products in H.
  apply in_map_iff in H. destruct H as (q & Hq & Hqin).
  apply order_by_In, filter_In in Hqin. destruct Hqin as (Hqin & _).
  injection Hq as Eid _ _ Est.
  assert (X : p = q).
  { apply (NoDup_map_inj p_id (products d)); auto. congruence. }
  subst q. exact Est.
Qed.

(** C1, the stock of a product driven below zero by the ledger: an event
    with one product of stock 3, reached through [create_event] and
    [add_product]; [update_stock] with change -5 is carried out and leaves
    stock -2. *)
Lemma update_stock_drives_stock_negative :
  let d := snd (add_product "2024-05-01 09:00:00" 1 "Sticker" 300 3
                  (snd (create_event "2024-05-01 08:00:00" "Spring Fair"
                                     "2024-05-01" init_database))) in
  stock_nonneg d
  /\ get_product_stock 1 d = 3
  /\ fst (update_stock 1 (-5) d) = true
  /\ get_product_stock 1 (snd (update_stock 1 (-5) d)) = -2
  /\ ~ stock_nonneg (snd (update_stock 1 (-5) d)).
Proof.
  intros d. repeat split.
  - repeat constructor. simpl. lia.
  - intros H. inversion H as [| ? ? B _]; subst. simpl in B. lia.
Qed.

Lemma wf_record_lines clock n event_id cart_items d :
  wf d -> wf (record_lines clock n event_id cart_items d).
Proof.
  revert n d.
  induction cart_items as [| [[[product_id name] price] quantity] rest IH];
    intros n d W; [ exact W | ].
  change (wf (record_lines clock (S n) event_id rest
                (snd (update_stock product_id (- quantity)
                        (snd (record_sale (clock n) event_id product_id
                                          quantity (price * quantity) d)))))).
  apply IH, wf_update_stock, wf_record_sale, W.
Qed.

Lemma checkout_cases clock askyesno current_event_id cart_items d :
  fst (checkout clock askyesno current_event_id cart_items d) = d
  \/ exists event_id,
       fst (checkout clock askyesno current_event_id cart_items d)
       = record_lines clock 0 event_id cart_items d.
Proof.
  unfold checkout.
  destruct current_event_id as [event_id |]; [ | left; reflexivity ].
  destruct (event_id =? 0); [ left; reflexivity | ].
  destruct cart_items as [| item rest]; [ left; reflexivity | ].
  destruct askyesno; [ | left; reflexivity ].
  right. exists event_id. reflexivity.
Qed.

Lemma validated_invariant (d : db) : validated d -> wf d /\ stock_nonneg d.
Proof.
  induction 1 as [ | now name date d V [W S] | now event_id name price stock
                   d V [W S] B | product_id d V [W S] | sale_id d V [W S]
                 | clock askyesno current_event_id cart_items d V [W S] C ].
  - split; [ apply wf_init_database | constructor ].
  - split; [ apply wf_create_event, W | apply stock_nonneg_create_event, S ].
  - split; [ apply wf_add_product, W
           | apply stock_nonneg_add_product; assumption ].
  - split; [ apply wf_delete_product, W
           | apply stock_nonneg_delete_product, S ].
  - split; [ apply wf_cancel_sale, W | apply stock_nonneg_cancel_sale, S ].
  - destruct (checkout_cases clock askyesno current_event_id cart_items d)
      as [-> | (event_id & ->)].
    + split; assumption.
    + split; [ apply wf_record_lines, W
             | apply record_lines_stock_nonneg; assumption ].
Qed.

(** C1, amended.  Stock is non-negative in every state reached by
    validated calls: products added with a stock that is not negative, and
    stock taken by checkouts of carts with one line per product, none
    larger than the product's stock.  The ledger itself neither rejects nor
    clamps: [update_stock] gives every product of the id the stock plus the
    change and leaves the others alone, so that the stock is non-negative
    afterwards exactly when the stock plus the change is not negative for
    the products of that id. *)
Theorem stock_nonneg_validated_calls (d : db) :
  validated d ->
  stock_nonneg d
  /\ forall product_id quantity_change,
       products (snd (update_stock product_id quantity_change d))
       = map (fun p => if p_id p =? product_id
                       then set_stock p (p_stock p + quantity_change)
                       else p) (products d)
       /\ (stock_nonneg (snd (update_stock product_id quantity_change d)) <->
           forall p, In p (products d) -> p_id p = product_id ->
                     0 <= p_stock p + quantity_change).
Proof.
  intros V. destruct (validated_invariant d V) as (_ & S).
  split; [ exact S | ].
  intros product_id quantity_change. split; [ reflexivity | ].
  apply stock_nonneg_update_stock, S.
Qed.

Lemma stock_nonneg_validated_calls_witness :
  let d := snd (add_product "2024-05-01 09:00:00" 1 "Sticker" 300 10
                  (snd (create_event "2024-05-01 08:00:00" "Spring Fair"
                                     "2024-05-01" init_database))) in
  stock_nonneg
    (fst (checkout (fun _ => "2024-05-01 10:00:00") true (Some 1)
                   [(1, "Sticker", 300, 2)] d)).
Proof.
  intros d.
  apply (stock_nonneg_validated_calls
           (fst (checkout (fun _ => "2024-05-01 10:00:00") true (Some 1)
                          [(1, "Sticker", 300, 2)] d))).
  apply validated_checkout.
  - apply validated_add_product; [ | lia ].
    apply validated_create_event, validated_init.
  - split.
    + repeat constructor. intros [].
    + repeat constructor. simpl.
      intros p [<- | []] _. simpl. lia.
Defined.

End Stock.

(* ================================================================= *)
(** ** Events *)

Section Events.
Import POSDatabase.

(** C6, [create_event] called with an empty name and a date that is none:
    nothing is checked, the row is stored as it is given and its id is the
    result. *)
Lemma create_event_stores_unchecked_input :
  create_event "2024-05-01 08:00:00" "" "no date" init_database
  = (1, mk_db [mk_event 1 "" "no date" "2024-05-01 08:00:00"] 1 [] 0 [] 0).
Proof. reflexivity. Qed.

(** C6, amended.  [create_event] checks nothing: it stores the name and the
    date it is given and returns the id of the new row.  The input is
    checked by the event dialog, before [create_event] is called.  The
    dialog strips the entered name and date.  When the stripped name is
    empty the name error is shown; otherwise, when [strptime] refuses the
    stripped date, the date error is shown; in both cases the tables are
    what they were.  In the one case left the event is stored under the
    stripped name and date, and the result is the id of that new row, an id
    no earlier event has. *)
Theorem create_event_validates_first (strip : string -> string)
  (strptime : string -> option (Z * Z * Z))
  (now name_var date_var : string) (d : db) :
  let name := strip name_var in
  let date := strip date_var in
  let r := POSApp.create_new_event strip strptime now name_var date_var d in
  (forall name' date',
      fst (create_event now name' date' d) = events_seq d + 1
      /\ events (snd (create_event now name' date' d))
         = events d ++ [mk_event (events_seq d + 1) name' date' now])
  /\ (name = "" -> r = (inl EventDialog.enter_event_name, d))
  /\ (name <> "" -> strptime date = None ->
      r = (inl EventDialog.enter_valid_date, d))
  /\ (name <> "" -> strptime date <> None ->
      r = (inr (fst (create_event now name date d)),
           snd (create_event now name date d))
      /\ events (snd r)
         = events d
           ++ [mk_event (fst (create_event now name date d)) name date now]
      /\ products (snd r) = products d
      /\ sales (snd r) = sales d
      /\ (wf d ->
          ~ In (fst (create_event now name date d)) (map ev_id (events d)))).
Proof.
  intros name date r. subst name date r.
  unfold POSApp.create_new_event, EventDialog.create_event.
  split; [ | split; [ | split ] ].
  - intros name' date'. split; reflexivity.
  - intros ->. reflexivity.
  - intros N V. apply String.eqb_neq in N. rewrite N, V. reflexivity.
  - intros N V.
    apply String.eqb_neq in N. rewrite N.
    destruct (strptime (strip date_var)); [ | congruence ].
    simpl. repeat split.
    intros W Hin. apply in_map_iff in Hin. destruct Hin as (e & E & Hin).
    pose proof (wf_events_seq d W) as F. rewrite Forall_forall in F.
    specialize (F e Hin). lia.
Qed.

Lemma create_event_validates_first_witness :
  let d := snd (create_event "2024-04-01 08:00:00" "Winter Fair"
                             "2024-01-20" init_database) in
  let create_new_event :=
    POSApp.create_new_event Python.strip Python.strptime
                            "2024-05-01 08:00:00" in
  create_new_event "　" "2024-05-01" d
  = (inl EventDialog.enter_event_name, d)
  /\ create_new_event "Spring Fair" "2024-02-30" d
     = (inl EventDialog.enter_valid_date, d)
  /\ create_new_event " Spring Fair " "２０２４-05-01 " d
     = (inr 2,
        snd (create_event "2024-05-01 08:00:00" "Spring Fair"
                          "２０２４-05-01" d)).
Proof.
  intros d create_new_event. split; [ | split ].
  - apply (create_event_validates_first Python.strip Python.strptime
             "2024-05-01 08:00:00" "　" "2024-05-01" d).
    vm_compute. reflexivity.
  - apply (create_event_validates_first Python.strip Python.strptime
             "2024-05-01 08:00:00" "Spring Fair" "2024-02-30" d).
    + vm_compute. discriminate.
    + vm_compute. reflexivity.
  - apply (create_event_validates_first Python.strip Python.strptime
             "2024-05-01 08:00:00" " Spring Fair " "２０２４-05-01 " d).
    + vm_compute. discriminate.
    + vm_compute. discriminate.
Defined.








End Events.

(* ================================================================= *)
(** ** History of sales *)

Section RecentSales.
Import POSDatabase.

Lemma get_recent_sales_origin event_id limit d row :
  In row (get_recent_sales event_id limit d) ->
  exists s p,
    In s (sales d) /\ In p (products d)
    /\ s_event_id s = event_id /\ p_id p = s_product_id s
    /\ row = (s_id s, p_name p, s_quantity s, s_total_price s,
              s_sale_time s, s_cancelled s).
Proof.
  unfold get_recent_sales. intros H.
  apply in_map_iff in H. destruct H as ([s p] & <- & H).
  apply limit_incl, order_by_In in H.
  unfold sales_join_products in H.
  apply in_flat_map in H. destruct H as (s' & Hs & H).
  apply in_map_iff in H. destruct H as (p' & E & Hp).
  injection E as -> ->.
  apply filter_In in Hs. apply filter_In in Hp.
  destruct Hs as (Hs & Ev), Hp as (Hp & Ep).
  apply Z.eqb_eq in Ev, Ep.
  exists s, p. repeat split; auto.
Qed.

(** C10. A product that exists and all of whose sales are cancelled is
    deleted: [delete_product] answers true.  The sales table is left as it
    is, so the cancelled sales are still recorded; but no row that
    [get_recent_sales] returns afterwards, for whatever event and limit,
    stands for one of them, since the query joins each sale with its
    product. *)
Theorem delete_product_hides_cancelled_sales (product_id : Z) (d : db) :
  NoDup (map s_id (sales d)) ->
  (exists p, In p (products d) /\ p_id p = product_id) ->
  (forall s, In s (sales d) -> s_product_id s = product_id ->
             s_cancelled s = true) ->
  let r := delete_product product_id d in
  fst r = true
  /\ sales (snd r) = sales d
  /\ forall s event_id limit row,
       In s (sales d) -> s_product_id s = product_id ->
       In row (get_recent_sales event_id limit (snd r)) ->
       recent_sale_id row <> s_id s.
Proof.
  intros N (p & Hp & Ep) Hc r. subst r.
  rewrite (delete_product_free product_id d Hc). simpl.
  split; [ | split; [ reflexivity | ] ].
  - apply count_pos_exists. exists p.
    split; [ exact Hp | apply Z.eqb_eq, Ep ].
  - intros s event_id limit row Hin Hprod Hrow E.
    apply get_recent_sales_origin in Hrow.
    destruct Hrow as (s' & p' & Hs' & Hp' & _ & Eid & ->).
    simpl in E, Hs', Hp'.
    assert (X : s' = s) by (eapply NoDup_map_inj; eauto).
    subst s'. apply filter_In in Hp'. destruct Hp' as (_ & Hne).
    apply negb_true_iff, Z.eqb_neq in Hne. congruence.
Qed.

Lemma delete_product_hides_cancelled_sales_witness :
  let d0 := snd (add_product "2024-05-01 09:00:00" 1 "Sticker" 300 10
                   (snd (create_event "2024-05-01 08:00:00" "Spring Fair"
                                      "2024-05-01" init_database))) in
  let d1 := snd (update_stock 1 (-2)
                   (snd (record_sale "2024-05-01 10:00:00" 1 1 2 600 d0))) in
  let d2 := snd (cancel_sale 1 d1) in
  get_recent_sales 1 20 d2
  = [(1, "Sticker", 2, 600, "2024-05-01 10:00:00", true)]
  /\ fst (delete_product 1 d2) = true
  /\ sales (snd (delete_product 1 d2)) = sales d2
  /\ get_recent_sales 1 20 (snd (delete_product 1 d2)) = [].
Proof.
  intros d0 d1 d2.
  split; [ reflexivity | ].
  assert (H : fst (delete_product 1 d2) = true
              /\ sales (snd (delete_product 1 d2)) = sales d2).
  { pose proof (delete_product_hides_cancelled_sales 1 d2) as H.
    simpl in H. split; apply H.
    - repeat constructor. intros [].
    - eexists. split; [ left; reflexivity | reflexivity ].
    - intros s [<- | []] _. reflexivity.
    - repeat constructor. intros [].
    - eexists. split; [ left; reflexivity | reflexivity ].
    - intros s [<- | []] _. reflexivity. }
  destruct H as (H1 & H2).
  split; [ exact H1 | split; [ exact H2 | reflexivity ] ].
Defined.

End RecentSales.

(* ================================================================= *)
(** ** Summary by product *)

Section ProductSummary.
Import POSDatabase.

Lemma key_eqb_eq (k1 k2 : group_key) : key_eqb k1 k2 = true <-> k1 = k2.
Proof.
  destruct k1 as [[i1 n1] c1], k2 as [[i2 n2] c2]. unfold key_eqb.
  rewrite !andb_true_iff, !Z.eqb_eq, String.eqb_eq.
  split.
  - intros ((-> & ->) & ->). reflexivity.
  - intros E. injection E as -> -> ->. auto.
Qed.

Lemma key_eqb_refl (k : group_key) : key_eqb k k = true.
Proof. apply key_eqb_eq. reflexivity. Qed.

Lemma key_of_id (p q : product) : key_of p = key_of q -> p_id p = p_id q.
Proof. unfold key_of. intros E. injection E as E _ _. exact E. Qed.

Lemma join_rows_fst d p r : In r (join_rows d p) -> fst r = p.
Proof.
  unfold join_rows.
  destruct (filter (live_sale_of (p_id p)) (sales d)) as [| s ss].
  - intros [<- | []]. reflexivity.
  - intros H. apply in_map_iff in H. destruct H as (s' & <- & _).
    reflexivity.
Qed.

Lemma join_rows_nonempty d p : join_rows d p <> [].
Proof.
  unfold join_rows.
  destruct (filter (live_sale_of (p_id p)) (sales d)); discriminate.
Qed.

Lemma sum_column_join_rows (col : sale -> Z) d p :
  sum_column col (join_rows d p)
  = Sql.sum (map col (filter (live_sale_of (p_id p)) (sales d))).
Proof.
  unfold sum_column, join_rows.
  destruct (filter (live_sale_of (p_id p)) (sales d)) as [| s ss];
    [ reflexivity | ].
  f_equal. generalize (s :: ss). intros l.
  induction l as [| x l IH]; simpl; [ reflexivity | ].
  rewrite IH. reflexivity.
Qed.

(** The rows of one product make one group. *)
Lemma group_keys_block (k : group_key) (l rest : list group_key) :
  l <> [] -> (forall x, In x l -> x = k) ->
  group_keys (l ++ rest)
  = k :: filter (fun k' => negb (key_eqb k k')) (group_keys rest).
Proof.
  induction l as [| x l IH]; intros N H; [ congruence | ].
  assert (x = k) by (apply H; left; reflexivity). subst x.
  simpl. f_equal.
  destruct l as [| y l]; [ reflexivity | ].
  rewrite IH; [ | discriminate | intros z Hz; apply H; right; exact Hz ].
  simpl. rewrite key_eqb_refl. simpl. apply filter_filter_same.
Qed.

Lemma group_keys_products d (ps : list product) :
  NoDup (map p_id ps) ->
  group_keys (map (fun r => key_of (fst r)) (flat_map (join_rows d) ps))
  = map key_of ps.
Proof.
  induction ps as [| p ps IH]; simpl; intros N; [ reflexivity | ].
  inversion N as [| ? ? Hnin N']; subst.
  rewrite map_app.
  rewrite (group_keys_block (key_of p)).
  - rewrite (IH N'). f_equal. apply filter_all.
    intros k Hk. apply in_map_iff in Hk. destruct Hk as (q & <- & Hq).
    apply negb_true_iff, not_true_iff_false. intros E.
    apply key_eqb_eq, key_of_id in E.
    apply Hnin. rewrite E. apply in_map, Hq.
  - pose proof (join_rows_nonempty d p).
    destruct (join_rows d p); [ congruence | discriminate ].
  - intros k Hk. apply in_map_iff in Hk. destruct Hk as (r & <- & Hr).
    rewrite (join_rows_fst d p r Hr). reflexivity.
Qed.

Lemma filter_rows_of_key d (k : group_key) (ps : list product) :
  filter (fun r => key_eqb (key_of (fst r)) k) (flat_map (join_rows d) ps)
  = flat_map (join_rows d) (filter (fun q => key_eqb (key_of q) k) ps).
Proof.
  induction ps as [| q ps IH]; [ reflexivity | ].
  cbn [flat_map filter]. rewrite filter_app, IH.
  destruct (key_eqb (key_of q) k) eqn:E; cbn [flat_map].
  - f_equal. apply filter_all. intros r Hr.
    rewrite (join_rows_fst d q r Hr). exact E.
  - rewrite <- app_nil_l. f_equal.
    assert (X : forall l : list (product * option sale),
                 (forall r, In r l -> fst r = q) ->
                          filter (fun r => key_eqb (key_of (fst r)) k) l
                          = []).
    { induction l as [| r l IHl]; intros H; [ reflexivity | ].
      cbn [filter]. rewrite (H r (or_introl eq_refl)), E.
      apply IHl. intros r' Hr'. apply H. right. exact Hr'. }
    apply X. intros r Hr. apply (join_rows_fst d q r Hr).
Qed.

Lemma filter_key_unique (p : product) (ps : list product) :
  NoDup (map p_id ps) -> In p ps ->
  filter (fun q => key_eqb (key_of q) (key_of p)) ps = [p].
Proof.
  induction ps as [| q ps IH]; intros N Hin; [ contradiction | ].
  cbn [map] in N. inversion N as [| ? ? Hnin N']; subst.
  cbn [filter].
  destruct Hin as [-> | Hin].
  - rewrite key_eqb_refl. f_equal.
    assert (X : forall l, ~ In (p_id p) (map p_id l) ->
                          filter (fun q => key_eqb (key_of q) (key_of p)) l
                          = []).
    { induction l as [| r l IHl]; intros H; [ reflexivity | ].
      cbn [filter]. cbn [map In] in H.
      destruct (key_eqb (key_of r) (key_of p)) eqn:E.
      - apply key_eqb_eq, key_of_id in E. elim H. auto.
      - apply IHl. tauto. }
    apply X, Hnin.
  - destruct (key_eqb (key_of q) (key_of p)) eqn:E.
    + apply key_eqb_eq, key_of_id in E.
      elim Hnin. rewrite E. apply in_map, Hin.
    + apply IH; assumption.
Qed.

Lemma aggregate_eq (rows : list (product * option sale)) (k : group_key) :
  aggregate rows k
  = (snd (fst k),
     sum_column s_quantity
       (filter (fun r => key_eqb (key_of (fst r)) k) rows),
     sum_column s_total_price
       (filter (fun r => key_eqb (key_of (fst r)) k) rows),
     snd k).
Proof. destruct k as [[i n] c]. reflexivity. Qed.

Lemma aggregate_product d (ps : list product) (p : product) :
  NoDup (map p_id ps) -> In p ps ->
  aggregate (flat_map (join_rows d) ps) (key_of p) = product_row d p.
Proof.
  intros N Hin. rewrite aggregate_eq.
  rewrite filter_rows_of_key, (filter_key_unique p ps N Hin).
  cbn [flat_map]. rewrite app_nil_r, !sum_column_join_rows. reflexivity.
Qed.

Lemma summary_groups event_id d :
  NoDup (map p_id (products d)) ->
  let rows := products_left_join_sales event_id d in
  map (aggregate rows) (group_keys (map (fun r => key_of (fst r)) rows))
  = map (product_row d)
        (filter (fun p => p_event_id p =? event_id) (products d)).
Proof.
  intros N rows. subst rows. unfold products_left_join_sales.
  pose proof (NoDup_map_filter p_id (fun p => p_event_id p =? event_id)
                               (products d) N) as N'.
  rewrite (group_keys_products d _ N'), map_map.
  apply map_ext_in. intros p Hin. apply aggregate_product; assumption.
Qed.

Lemma sales_desc_name_asc_iff (a b : string * Z * Z * Z) :
  sales_desc_name_asc a b = true <-> summary_order a b.
Proof.
  unfold sales_desc_name_asc, summary_order.
  rewrite orb_true_iff, andb_true_iff, Z.ltb_lt, Z.eqb_eq. tauto.
Qed.

Lemma sales_desc_name_asc_total (a b : string * Z * Z * Z) :
  sales_desc_name_asc a b = false -> sales_desc_name_asc b a = true.
Proof.
  intros H. apply not_true_iff_false in H.
  rewrite sales_desc_name_asc_iff in H. apply sales_desc_name_asc_iff.
  unfold summary_order in *.
  destruct (Z.lt_trichotomy (row_sales a) (row_sales b)) as [L | [E | G]].
  - left. exact L.
  - right. split; [ symmetry; exact E | ].
    apply string_leb_false.
    destruct (String.leb (row_name a) (row_name b)) eqn:B;
      [ | reflexivity ].
    elim H. right. split; [ exact E | reflexivity ].
  - elim H. left. exact G.
Qed.

Lemma sales_desc_name_asc_trans (a b c : string * Z * Z * Z) :
  sales_desc_name_asc a b = true -> sales_desc_name_asc b c = true ->
  sales_desc_name_asc a c = true.
Proof.
  rewrite !sales_desc_name_asc_iff. unfold summary_order.
  intros [L1 | (E1 & N1)] [L2 | (E2 & N2)].
  - left. lia.
  - left. lia.
  - left. lia.
  - right. split; [ lia | eapply string_leb_trans; eassumption ].
Qed.

Lemma StronglySorted_weaken {A : Type} (R1 R2 : A -> A -> Prop)
  (l : list A) :
  (forall x y, R1 x y -> R2 x y) ->
  StronglySorted R1 l -> StronglySorted R2 l.
Proof.
  intros H. induction 1 as [| x l S IH F]; constructor; auto.
  eapply Forall_impl; [ | exact F ]. auto.
Qed.

(** C8. [get_product_sales_summary] returns one row per product of the
    event: the product's name, the quantity sold and the revenue over the
    sales of the product that are not cancelled, and its unit price.  A
    product without such a sale is listed with quantity 0 and revenue 0.
    The rows come by revenue descending, and by name ascending where the
    revenue ties.  Products are told apart by their primary key. *)
Theorem get_product_sales_summary_spec (event_id : Z) (d : db) :
  NoDup (map p_id (products d)) ->
  Permutation (get_product_sales_summary event_id d)
              (map (product_row d)
                   (filter (fun p => p_event_id p =? event_id) (products d)))
  /\ StronglySorted summary_order (get_product_sales_summary event_id d)
  /\ (forall p,
         In p (products d) -> p_event_id p = event_id ->
         (forall s, In s (sales d) -> s_product_id s = p_id p ->
                    s_cancelled s = true) ->
         In (p_name p, 0, 0, p_price p)
            (get_product_sales_summary event_id d)).
Proof.
  intros N.
  assert (P : Permutation (get_product_sales_summary event_id d)
                (map (product_row d)
                   (filter (fun p => p_event_id p =? event_id)
                           (products d)))).
  { unfold get_product_sales_summary.
    rewrite <- (summary_groups event_id d N). apply order_by_perm. }
  split; [ exact P | split ].
  - unfold get_product_sales_summary.
    eapply StronglySorted_weaken;
      [ | apply (order_by_sorted sales_desc_name_asc
                   sales_desc_name_asc_total sales_desc_name_asc_trans) ].
    intros x y. apply sales_desc_name_asc_iff.
  - intros p Hin Ev Hc.
    eapply Permutation_in; [ apply Permutation_sym, P | ].
    apply in_map_iff. exists p. split.
    + unfold product_row.
      fold (live_sale_of (p_id p)).
      pose proof (proj2 (no_live_sale_iff (p_id p) d) Hc) as Z0.
      apply not_true_iff_false in Z0. rewrite count_pos_iff in Z0.
      destruct (filter (live_sale_of (p_id p)) (sales d));
        [ reflexivity | elim Z0; discriminate ].
    + apply filter_In. split; [ exact Hin | apply Z.eqb_eq, Ev ].
Qed.

Lemma get_product_sales_summary_spec_witness :
  let d0 := snd (add_product "2024-05-01 09:02:00" 1 "Badge" 150 5
              (snd (add_product "2024-05-01 09:01:00" 1 "Sticker" 300 10
                 (snd (add_product "2024-05-01 09:00:00" 1 "Card" 150 5
                    (snd (create_event "2024-05-01 08:00:00" "Spring Fair"
                                       "2024-05-01" init_database))))))) in
  let d1 := snd (record_sale "2024-05-01 10:01:00" 1 3 1 150
              (snd (record_sale "2024-05-01 10:00:00" 1 2 2 600 d0))) in
  let d := snd (cancel_sale 2 d1) in
  get_product_sales_summary 1 d
  = [("Sticker", 2, 600, 300); ("Badge", 0, 0, 150); ("Card", 0, 0, 150)]
  /\ In ("Card", 0, 0, 150) (get_product_sales_summary 1 d).
Proof.
  intros d0 d1 d. split; [ reflexivity | ].
  apply (get_product_sales_summary_spec 1 d)
    with (p := mk_product 1 1 "Card" 5 150 "2024-05-01 09:00:00").
  - repeat constructor; simpl; intuition discriminate.
  - left. reflexivity.
  - reflexivity.
  - simpl. intros s [<- | [<- | []]]; simpl; intros E;
      [ discriminate | discriminate ].
Defined.

End ProductSummary.

(* ================================================================= *)
(** ** Sequences of calls *)

Section Calls.
Import POSDatabase.

Lemma set_cancelled_true_same s :
  s_cancelled s = true -> set_cancelled s true = s.
Proof. destruct s; simpl; intros ->; reflexivity. Qed.

Lemma sale_kept_refl s : sale_kept s s.
Proof. left. reflexivity. Qed.

Lemma sale_kept_trans s1 s2 s3 :
  sale_kept s1 s2 -> sale_kept s2 s3 -> sale_kept s1 s3.
Proof.
  intros [-> | (C1 & ->)] [-> | (C2 & ->)].
  - left. reflexivity.
  - right. auto.
  - right. auto.
  - simpl in C2. discriminate.
Qed.

Lemma cancel_row_kept sale_id s : sale_kept s (cancel_row sale_id s).
Proof.
  unfold cancel_row. destruct (s_id s =? sale_id); [ | left; reflexivity ].
  destruct (s_cancelled s) eqn:C.
  - left. apply set_cancelled_true_same, C.
  - right. auto.
Qed.

Lemma exec_sale_kept (c : call) (d : db) (s : sale) :
  In s (sales d) -> exists s', In s' (sales (exec c d)) /\ sale_kept s s'.
Proof.
  intros Hin. destruct c; simpl.
  - exists s. split; [ exact Hin | apply sale_kept_refl ].
  - exists s. split; [ exact Hin | apply sale_kept_refl ].
  - exists s. split; [ | apply sale_kept_refl ].
    unfold delete_product. destruct (Sql.count _ >? 0); exact Hin.
  - exists s. split; [ | apply sale_kept_refl ].
    apply in_or_app. left. exact Hin.
  - exists s. split; [ exact Hin | apply sale_kept_refl ].
  - exists (cancel_row sale_id s). split; [ | apply cancel_row_kept ].
    apply (in_map (cancel_row sale_id)), Hin.
Qed.

Lemma exec_all_cons c cs d : exec_all (c :: cs) d = exec_all cs (exec c d).
Proof. reflexivity. Qed.

(** X1. Whatever calls follow, a recorded sale stays recorded with its id,
    event, product, quantity, total price and time; the only column that
    changes is the cancelled flag, from false to true and never back. *)
Theorem sales_are_kept (cs : list call) (d : db) (s : sale) :
  In s (sales d) ->
  exists s',
    In s' (sales (exec_all cs d))
    /\ (s_id s', s_event_id s', s_product_id s', s_quantity s',
        s_total_price s', s_sale_time s')
       = (s_id s, s_event_id s, s_product_id s, s_quantity s,
          s_total_price s, s_sale_time s)
    /\ (s_cancelled s = true -> s' = s).
Proof.
  intros Hin.
  assert (K : exists s', In s' (sales (exec_all cs d)) /\ sale_kept s s').
  { revert d s Hin. induction cs as [| c cs IH]; intros d s Hin.
    - exists s. split; [ exact Hin | apply sale_kept_refl ].
    - rewrite exec_all_cons.
      destruct (exec_sale_kept c d s Hin) as (s1 & H1 & K1).
      destruct (IH (exec c d) s1 H1) as (s2 & H2 & K2).
      exists s2. split; [ exact H2 | eapply sale_kept_trans; eassumption ]. }
  destruct K as (s' & Hin' & [-> | (C & ->)]).
  - exists s. auto.
  - exists (set_cancelled s true). split; [ exact Hin' | ].
    split; [ reflexivity | ]. congruence.
Qed.

Lemma sales_are_kept_witness :
  let s := mk_sale 1 1 1 2 600 "2024-05-01 10:00:00" true in
  let d := snd (cancel_sale 1
                  (snd (record_sale "2024-05-01 10:00:00" 1 1 2 600
                                    init_database))) in
  exists s',
    In s' (sales (exec_all [call_delete_product 1; call_cancel_sale 1;
                            call_update_stock 1 5] d))
    /\ s' = s.
Proof.
  intros s d.
  destruct (sales_are_kept [call_delete_product 1; call_cancel_sale 1;
                            call_update_stock 1 5] d s)
    as (s' & Hin & _ & E).
  - left. reflexivity.
  - exists s'. split; [ exact Hin | apply E; reflexivity ].
Defined.

Lemma exec_events (c : call) (d : db) :
  exists l, events (exec c d) = events d ++ l.
Proof.
  destruct c; simpl; try (exists []; rewrite app_nil_r; reflexivity).
  - eexists. reflexivity.
  - exists []. rewrite app_nil_r. unfold delete_product.
    destruct (Sql.count _ >? 0); reflexivity.
Qed.

Lemma exec_products_seq (c : call) (d : db) :
  products_seq d <= products_seq (exec c d).
Proof.
  destruct c; simpl; try lia.
  unfold delete_product. destruct (Sql.count _ >? 0); simpl; lia.
Qed.

Lemma exec_all_products_seq (cs : list call) (d : db) :
  products_seq d <= products_seq (exec_all cs d).
Proof.
  revert d. induction cs as [| c cs IH]; intros d; [ simpl; lia | ].
  rewrite exec_all_cons.
  pose proof (exec_products_seq c d). pose proof (IH (exec c d)). lia.
Qed.

Lemma exec_product (c : call) (d : db) (p' : product) :
  In p' (products (exec c d)) ->
  (exists p, In p (products d) /\ p' = set_stock p (p_stock p'))
  \/ products_seq d < p_id p'.
Proof.
  assert (Same : forall p, p = set_stock p (p_stock p))
    by (intros []; reflexivity).
  destruct c; simpl; intros Hin.
  - left. exists p'. auto.
  - apply in_app_or in Hin. destruct Hin as [Hin | [<- | []]].
    + left. exists p'. auto.
    + right. simpl. lia.
  - left. exists p'. split; [ | apply Same ].
    unfold delete_product in Hin.
    destruct (Sql.count _ >? 0); simpl in Hin; [ exact Hin | ].
    apply filter_In in Hin. tauto.
  - left. exists p'. auto.
  - apply in_map_iff in Hin. destruct Hin as (p & <- & Hin).
    left. exists p. split; [ exact Hin | ].
    destruct (p_id p =? product_id); [ reflexivity | apply Same ].
  - left. exists p'. auto.
Qed.

(** X2. The catalogue under any sequence of calls: events are only ever
    added, at the end, and none is changed; a product that is in the tables
    afterwards is either one that was there before, with the same id,
    event, name, price and creation time (only its stock may differ), or a
    new one with an id above the sequence counter. *)
Theorem catalogue_is_stable (cs : list call) (d : db) :
  (exists l, events (exec_all cs d) = events d ++ l)
  /\ forall p',
       In p' (products (exec_all cs d)) ->
       (exists p, In p (products d) /\ p' = set_stock p (p_stock p'))
       \/ products_seq d < p_id p'.
Proof.
  revert d. induction cs as [| c cs IH]; intros d.
  - split.
    + exists []. rewrite app_nil_r. reflexivity.
    + intros p' Hin. left. exists p'. split; [ exact Hin | ].
      destruct p'; reflexivity.
  - rewrite exec_all_cons. destruct (IH (exec c d)) as ((l & El) & Hp).
    split.
    + destruct (exec_events c d) as (l0 & E0).
      exists (l0 ++ l). rewrite El, E0, app_assoc. reflexivity.
    + intros p' Hin. pose proof (exec_products_seq c d) as M.
      destruct (Hp p' Hin) as [(p1 & H1 & E1) | G]; [ | right; lia ].
      destruct (exec_product c d p1 H1) as [(p0 & H0 & E0) | G].
      * left. exists p0. split; [ exact H0 | ].
        rewrite E1, E0. reflexivity.
      * right. rewrite E1. simpl. lia.
Qed.

Lemma wf_exec (c : call) (d : db) : wf d -> wf (exec c d).
Proof.
  intros W. destruct c; simpl.
  - apply wf_create_event, W.
  - apply wf_add_product, W.
  - apply wf_delete_product, W.
  - apply wf_record_sale, W.
  - apply wf_update_stock, W.
  - apply wf_cancel_sale, W.
Qed.

Lemma wf_exec_all (cs : list call) (d : db) : wf d -> wf (exec_all cs d).
Proof.
  revert d. induction cs as [| c cs IH]; intros d W; [ exact W | ].
  rewrite exec_all_cons. apply IH, wf_exec, W.
Qed.

Lemma exec_seqs (c : call) (d : db) :
  events_seq d <= events_seq (exec c d)
  /\ sales_seq d <= sales_seq (exec c d).
Proof.
  destruct c; simpl; try lia.
  unfold delete_product. destruct (Sql.count _ >? 0); simpl; lia.
Qed.

Lemma exec_all_seqs (cs : list call) (d : db) :
  events_seq d <= events_seq (exec_all cs d)
  /\ sales_seq d <= sales_seq (exec_all cs d).
Proof.
  revert d. induction cs as [| c cs IH]; intros d; [ simpl; lia | ].
  rewrite exec_all_cons.
  pose proof (exec_seqs c d). pose proof (IH (exec c d)). lia.
Qed.

(** X3. No id is handed out twice.  From tables with primary keys and after
    any calls, also ones that delete products, the id that [create_event],
    [add_product] or [record_sale] returns is different from the id of
    every event, product and sale that was in the tables before, and is
    not in use in the tables at hand. *)
Theorem ids_are_never_reused (cs : list call) (d : db) :
  wf d ->
  let d' := exec_all cs d in
  (forall now name date e,
      In e (events d) \/ In e (events d') ->
      fst (create_event now name date d') <> ev_id e)
  /\ (forall now event_id name price stock p,
         In p (products d) \/ In p (products d') ->
         fst (add_product now event_id name price stock d') <> p_id p)
  /\ (forall now event_id product_id quantity total_price s,
         In s (sales d) \/ In s (sales d') ->
         fst (record_sale now event_id product_id quantity total_price d')
         <> s_id s).
Proof.
  intros W d'.
  pose proof (wf_exec_all cs d W) as W'. fold d' in W'.
  pose proof (exec_all_products_seq cs d) as Mp.
  pose proof (exec_all_seqs cs d) as (Me & Ms).
  fold d' in Mp, Me, Ms.
  pose proof (wf_events_seq d W) as Fe. pose proof (wf_events_seq d' W') as Fe'.
  pose proof (wf_products_seq d W) as Fp.
  pose proof (wf_products_seq d' W') as Fp'.
  pose proof (wf_sales_seq d W) as Fs. pose proof (wf_sales_seq d' W') as Fs'.
  rewrite Forall_forall in Fe, Fe', Fp, Fp', Fs, Fs'.
  repeat split; simpl.
  - intros _ _ _ e [H | H]; [ specialize (Fe e H) | specialize (Fe' e H) ];
      lia.
  - intros _ _ _ _ _ p [H | H];
      [ specialize (Fp p H) | specialize (Fp' p H) ]; lia.
  - intros _ _ _ _ _ s [H | H];
      [ specialize (Fs s H) | specialize (Fs' s H) ]; lia.
Qed.

Lemma ids_are_never_reused_witness :
  let d := snd (add_product "2024-05-01 09:00:00" 1 "Sticker" 300 10
                  (snd (create_event "2024-05-01 08:00:00" "Spring Fair"
                                     "2024-05-01" init_database))) in
  fst (add_product "2024-05-01 09:30:00" 1 "Badge" 150 5
                   (exec_all [call_delete_product 1] d)) <> 1.
Proof.
  intros d.
  assert (W : wf d)
    by (apply wf_add_product, wf_create_event, wf_init_database).
  destruct (ids_are_never_reused [call_delete_product 1] d W)
    as (_ & H & _).
  apply (H "2024-05-01 09:30:00" 1 "Badge" 150 5
           (mk_product 1 1 "Sticker" 10 300 "2024-05-01 09:00:00")).
  left. left. reflexivity.
Defined.

End Calls.

(* ================================================================= *)
(** ** Listings *)

Section Listings.
Import POSDatabase.

Lemma StronglySorted_map {A B : Type} (R : B -> B -> Prop) (f : A -> B)
  (l : list A) :
  StronglySorted (fun a b => R (f a) (f b)) l -> StronglySorted R (map f l).
Proof.
  induction 1 as [| x l S IH F]; simpl; constructor; auto.
  apply Forall_map. exact F.
Qed.

Lemma StronglySorted_firstn {A : Type} (R : A -> A -> Prop) (n : nat)
  (l : list A) :
  StronglySorted R l -> StronglySorted R (firstn n l).
Proof.
  intros S. revert n. induction S as [| x l S IH F]; intros [| n]; simpl;
    try constructor; auto.
  apply Forall_forall. intros y Hy. rewrite Forall_forall in F.
  apply F. eapply firstn_incl. exact Hy.
Qed.

Lemma name_asc_total (a b : product) :
  name_asc a b = false -> name_asc b a = true.
Proof. apply string_leb_false. Qed.

Lemma name_asc_trans (a b c : product) :
  name_asc a b = true -> name_asc b c = true -> name_asc a c = true.
Proof. unfold name_asc. apply string_leb_trans. Qed.

(** X4. [get_products] lists exactly the products of the event, each once
    with its id, name, price and stock, in ascending order of name;
    products of other events are not listed. *)
Theorem get_products_sorted_by_name (event_id : Z) (d : db) :
  Permutation (get_products event_id d)
              (map (fun p => (p_id p, p_name p, p_price p, p_stock p))
                   (filter (fun p => p_event_id p =? event_id) (products d)))
  /\ StronglySorted by_name (get_products event_id d)
  /\ (forall product_id name price stock,
         In (product_id, name, price, stock) (get_products event_id d) <->
         exists p, In p (products d) /\ p_event_id p = event_id
                   /\ (p_id p, p_name p, p_price p, p_stock p)
                      = (product_id, name, price, stock)).
Proof.
  unfold get_products. split; [ | split ].
  - apply Permutation_map, order_by_perm.
  - apply (StronglySorted_map by_name).
    eapply StronglySorted_weaken;
      [ | apply (order_by_sorted name_asc name_asc_total name_asc_trans) ].
    intros x y H. exact H.
  - intros product_id name price stock. rewrite in_map_iff. split.
    + intros (p & E & Hin). apply order_by_In, filter_In in Hin.
      destruct Hin as (Hin & Ev). apply Z.eqb_eq in Ev.
      exists p. auto.
    + intros (p & Hin & Ev & E). exists p. split; [ exact E | ].
      apply order_by_In, filter_In. split; [ exact Hin | ].
      apply Z.eqb_eq, Ev.
Qed.

Lemma sale_time_desc_total (a b : sale * product) :
  sale_time_desc a b = false -> sale_time_desc b a = true.
Proof. apply string_leb_false. Qed.

Lemma sale_time_desc_trans (a b c : sale * product) :
  sale_time_desc a b = true -> sale_time_desc b c = true ->
  sale_time_desc a c = true.
Proof.
  unfold sale_time_desc. intros H1 H2. eapply string_leb_trans; eassumption.
Qed.

Lemma limit_sorted {A : Type} (R : A -> A -> Prop) (n : Z) (l : list A) :
  StronglySorted R l -> StronglySorted R (Sql.limit n l).
Proof.
  unfold Sql.limit. destruct (n <? 0); [ auto | ].
  apply StronglySorted_firstn.
Qed.

(** X5. [get_recent_sales] returns the sales of the event from the latest
    sale time to the earliest, and at most [limit] of them when the limit
    is not negative: the first [limit] rows of the unbounded history.  A
    negative limit bounds nothing.  Every row is a sale of the event
    together with the name of its product. *)
Theorem get_recent_sales_latest_first (event_id limit : Z) (d : db) :
  StronglySorted latest_first (get_recent_sales event_id limit d)
  /\ (0 <= limit ->
      Z.of_nat (List.length (get_recent_sales event_id limit d)) <= limit
      /\ get_recent_sales event_id limit d
         = firstn (Z.to_nat limit) (get_recent_sales event_id (-1) d))
  /\ (limit < 0 ->
      get_recent_sales event_id limit d = get_recent_sales event_id (-1) d)
  /\ (forall row,
         In row (get_recent_sales event_id limit d) ->
         exists s p,
           In s (sales d) /\ In p (products d)
           /\ s_event_id s = event_id /\ p_id p = s_product_id s
           /\ row = (s_id s, p_name p, s_quantity s, s_total_price s,
                     s_sale_time s, s_cancelled s)).
Proof.
  split; [ | split; [ | split ] ].
  - unfold get_recent_sales.
    apply (StronglySorted_map latest_first).
    apply limit_sorted.
    eapply StronglySorted_weaken;
      [ | apply (order_by_sorted sale_time_desc sale_time_desc_total
                                 sale_time_desc_trans) ].
    intros x y H. exact H.
  - intros L. unfold get_recent_sales, Sql.limit.
    assert (E : (limit <? 0) = false) by (apply Z.ltb_ge; exact L).
    rewrite E. simpl. split.
    + rewrite length_map, length_firstn. lia.
    + rewrite firstn_map. reflexivity.
  - intros L. unfold get_recent_sales, Sql.limit.
    assert (E : (limit <? 0) = true) by (apply Z.ltb_lt; exact L).
    rewrite E. reflexivity.
  - intros row. apply get_recent_sales_origin.
Qed.

Lemma get_recent_sales_latest_first_witness :
  let d0 := snd (add_product "2024-05-01 09:00:00" 1 "Sticker" 300 10
                   (snd (create_event "2024-05-01 08:00:00" "Spring Fair"
                                      "2024-05-01" init_database))) in
  let d := snd (record_sale "2024-05-01 10:05:00" 1 1 1 300
                  (snd (record_sale "2024-05-01 10:00:00" 1 1 2 600 d0))) in
  get_recent_sales 1 1 d
  = firstn 1 (get_recent_sales 1 (-1) d)
  /\ get_recent_sales 1 (-5) d = get_recent_sales 1 (-1) d.
Proof.
  intros d0 d. split.
  - apply (get_recent_sales_latest_first 1 1 d). lia.
  - apply (get_recent_sales_latest_first 1 (-5) d). lia.
Defined.

End Listings.

(* ================================================================= *)
(** ** Stock of a product *)

Section StockOfProduct.
Import POSDatabase.

Lemma set_stock_same (p : product) : set_stock p (p_stock p) = p.
Proof. destruct p; reflexivity. Qed.

Lemma filter_id_absent product_id (ps : list product) :
  (forall p, In p ps -> p_id p <> product_id) ->
  filter (fun p => p_id p =? product_id) ps = [].
Proof.
  induction ps as [| p ps IH]; simpl; intros H; [ reflexivity | ].
  destruct (Z.eqb_spec (p_id p) product_id) as [E | _].
  - elim (H p (or_introl eq_refl) E).
  - apply IH. auto.
Qed.

Lemma filter_id_unique (p : product) (ps : list product) :
  NoDup (map p_id ps) -> In p ps ->
  filter (fun q => p_id q =? p_id p) ps = [p].
Proof.
  induction ps as [| q ps IH]; simpl; intros N Hin; [ contradiction | ].
  inversion N as [| ? ? Hnin N']; subst.
  destruct Hin as [-> | Hin].
  - rewrite Z.eqb_refl. f_equal. apply filter_id_absent.
    intros q Hq E. apply Hnin. rewrite <- E. apply in_map, Hq.
  - destruct (Z.eqb_spec (p_id q) (p_id p)) as [E | _].
    + elim Hnin. rewrite E. apply in_map, Hin.
    + apply IH; assumption.
Qed.

Lemma get_product_stock_of (p : product) (d : db) :
  NoDup (map p_id (products d)) -> In p (products d) ->
  get_product_stock (p_id p) d = p_stock p.
Proof.
  intros N Hin. unfold get_product_stock.
  rewrite (filter_id_unique p (products d) N Hin). reflexivity.
Qed.

Lemma restock_rows_missing product_id quantity_change (ps : list product) :
  (forall p, In p ps -> p_id p <> product_id) ->
  map (restock product_id quantity_change) ps = ps.
Proof.
  intros H. rewrite <- (map_id ps) at 2. apply map_ext_in.
  intros p Hin. apply restock_other, H, Hin.
Qed.

(** X6. What is stored is read back.  In tables with primary keys,
    [add_product] with stock [stock] returns an id under which
    [get_product_stock] reads [stock]; a following [update_stock] of that
    id reports success and makes it read [stock + quantity_change],
    whatever the sign of the result, while the stock read under every
    other id stays what it was before the product was added. *)
Theorem stock_is_read_back (now : string) (event_id : Z) (name : string)
  (price stock quantity_change : Z) (d : db) :
  wf d ->
  let product_id := fst (add_product now event_id name price stock d) in
  let d1 := snd (add_product now event_id name price stock d) in
  let d2 := snd (update_stock product_id quantity_change d1) in
  get_product_stock product_id d1 = stock
  /\ fst (update_stock product_id quantity_change d1) = true
  /\ get_product_stock product_id d2 = stock + quantity_change
  /\ forall other,
       other <> product_id ->
       get_product_stock other d1 = get_product_stock other d
       /\ get_product_stock other d2 = get_product_stock other d.
Proof.
  intros W product_id d1 d2.
  pose proof (wf_add_product now event_id name price stock d W) as W1.
  fold d1 in W1.
  set (p := mk_product product_id event_id name stock price now).
  assert (Hin : In p (products d1))
    by (apply in_or_app; right; left; reflexivity).
  assert (F : filter (fun q => p_id q =? product_id) (products d1) = [p])
    by (apply (filter_id_unique p (products d1) (wf_products d1 W1) Hin)).
  split; [ | split; [ | split ] ].
  - unfold get_product_stock. rewrite F. reflexivity.
  - apply update_stock_found. exists p. split; [ exact Hin | reflexivity ].
  - unfold get_product_stock, d2. rewrite update_stock_products.
    assert (F2 : filter (fun q => p_id q =? product_id)
                   (map (restock product_id quantity_change) (products d1))
                 = map (restock product_id quantity_change)
                       (filter (fun q => p_id q =? product_id)
                               (products d1))).
    { generalize (products d1). intros l.
      induction l as [| q l IH]; simpl; [ reflexivity | ].
      rewrite restock_id.
      destruct (p_id q =? product_id); simpl; rewrite IH; reflexivity. }
    rewrite F2, F. simpl. unfold restock. simpl.
    rewrite Z.eqb_refl. reflexivity.
  - intros other Hne.
    assert (E1 : filter (fun q => p_id q =? other) (products d1)
                 = filter (fun q => p_id q =? other) (products d)).
    { unfold d1. simpl. rewrite filter_app. simpl.
      destruct (Z.eqb_spec (products_seq d + 1) other) as [E | _];
        [ elim Hne; symmetry; exact E | ].
      apply app_nil_r. }
    split.
    + unfold get_product_stock. rewrite E1. reflexivity.
    + unfold get_product_stock, d2. rewrite update_stock_products.
      assert (E2 : forall l,
                 filter (fun q => p_id q =? other)
                        (map (restock product_id quantity_change) l)
                 = filter (fun q => p_id q =? other) l).
      { induction l as [| q l IH]; simpl; [ reflexivity | ].
        rewrite restock_id.
        destruct (Z.eqb_spec (p_id q) other) as [E | _];
          rewrite IH; [ | reflexivity ].
        rewrite restock_other by congruence. reflexivity. }
      rewrite E2, E1. reflexivity.
Qed.

Lemma stock_is_read_back_witness :
  let d := snd (create_event "2024-05-01 08:00:00" "Spring Fair"
                             "2024-05-01" init_database) in
  let d1 := snd (add_product "2024-05-01 09:00:00" 1 "Sticker" 300 10 d) in
  get_product_stock 1 d1 = 10
  /\ get_product_stock 1 (snd (update_stock 1 (-3) d1)) = 10 + -3.
Proof.
  intros d d1.
  assert (W : wf d) by (apply wf_create_event, wf_init_database).
  pose proof (stock_is_read_back "2024-05-01 09:00:00" 1 "Sticker" 300 10
                                 (-3) d W) as H.
  simpl in H. destruct H as (H1 & _ & H2 & _).
  split; [ exact H1 | exact H2 ].
Defined.

(** X7. An id without a product: [get_product_stock] reads 0, which is
    also what it reads for a product that is sold out, and [update_stock]
    reports failure and leaves the tables exactly as they are. *)
Theorem unknown_product_has_no_stock (product_id quantity_change : Z)
  (d : db) :
  (forall p, In p (products d) -> p_id p <> product_id) ->
  get_product_stock product_id d = 0
  /\ update_stock product_id quantity_change d = (false, d).
Proof.
  intros H. split.
  - unfold get_product_stock. rewrite filter_id_absent by exact H.
    reflexivity.
  - unfold update_stock. rewrite filter_id_absent by exact H.
    fold (restock product_id quantity_change).
    rewrite restock_rows_missing by exact H.
    rewrite with_products_same. reflexivity.
Qed.

Lemma unknown_product_has_no_stock_witness :
  get_product_stock 7 init_database = 0
  /\ update_stock 7 (-2) init_database = (false, init_database).
Proof.
  apply (unknown_product_has_no_stock 7 (-2) init_database).
  intros p [].
Defined.

Lemma restock_restock product_id a b (p : product) :
  restock product_id b (restock product_id a p) = restock product_id (a + b) p.
Proof.
  unfold restock. destruct (p_id p =? product_id) eqn:E; simpl.
  - rewrite E. unfold set_stock. simpl. f_equal. lia.
  - rewrite E. reflexivity.
Qed.

(** X8. Stock changes add up: two [update_stock] calls for a product leave
    the tables as one call with the sum of the changes does, so a change
    followed by its opposite restores the tables, and a change of 0 changes
    nothing. *)
Theorem update_stock_adds_up (product_id a b : Z) (d : db) :
  snd (update_stock product_id b (snd (update_stock product_id a d)))
  = snd (update_stock product_id (a + b) d)
  /\ snd (update_stock product_id (- a) (snd (update_stock product_id a d)))
     = d
  /\ snd (update_stock product_id 0 d) = d
  /\ fst (update_stock product_id b (snd (update_stock product_id a d)))
     = fst (update_stock product_id a d).
Proof.
  assert (Zero : snd (update_stock product_id 0 d) = d).
  { unfold update_stock. cbn [snd].
    assert (M : map (fun p => if p_id p =? product_id
                              then set_stock p (p_stock p + 0) else p)
                    (products d) = products d).
    { rewrite <- (map_id (products d)) at 2. apply map_ext.
      intros p. destruct (p_id p =? product_id); [ | reflexivity ].
      rewrite Z.add_0_r. apply set_stock_same. }
    rewrite M. apply with_products_same. }
  assert (Add : forall x y,
             snd (update_stock product_id y
                               (snd (update_stock product_id x d)))
             = snd (update_stock product_id (x + y) d)).
  { intros x y. unfold update_stock. cbn [snd].
    unfold with_products. cbn [events events_seq products products_seq
                               sales sales_seq].
    f_equal. rewrite map_map. apply map_ext. intros p.
    apply (restock_restock product_id x y p). }
  split; [ apply Add | split; [ | split; [ exact Zero | ] ] ].
  - rewrite Add, Z.add_opp_diag_r. exact Zero.
  - unfold update_stock. cbn [fst snd].
    unfold with_products. cbn [products].
    fold (restock product_id a).
    assert (E : forall l,
               filter (fun p => p_id p =? product_id)
                      (map (restock product_id a) l)
               = map (restock product_id a)
                     (filter (fun p => p_id p =? product_id) l)).
    { induction l as [| q l IH]; simpl; [ reflexivity | ].
      rewrite restock_id.
      destruct (p_id q =? product_id); simpl; rewrite IH; reflexivity. }
    rewrite E. unfold Sql.count. rewrite length_map. reflexivity.
Qed.

End StockOfProduct.

(* ================================================================= *)
(** ** Recording sales *)

Section Recording.
Import POSDatabase POSApp.

Lemma get_sales_summary_app event_id d (new : list sale) :
  get_sales_summary event_id (with_sales d (sales d ++ new))
  = (let '(total_sales, total_quantity, transaction_count) :=
       get_sales_summary event_id d in
     let rows := filter (live_sale_in event_id) new in
     (total_sales + Sql.sum (map s_total_price rows),
      total_quantity + Sql.sum (map s_quantity rows),
      transaction_count + Sql.count rows)).
Proof.
  unfold get_sales_summary. simpl.
  rewrite filter_app, !map_app, !sum_app. unfold Sql.count.
  rewrite length_app, Nat2Z.inj_add. reflexivity.
Qed.

Lemma record_sale_as_app now event_id product_id quantity total_price d :
  snd (record_sale now event_id product_id quantity total_price d)
  = mk_db (events d) (events_seq d) (products d) (products_seq d)
          (sales d ++ [mk_sale (sales_seq d + 1) event_id product_id quantity
                               total_price now false])
          (sales_seq d + 1).
Proof. reflexivity. Qed.

Lemma get_sales_summary_seq event_id d ss n :
  get_sales_summary event_id
    (mk_db (events d) (events_seq d) (products d) (products_seq d) ss n)
  = get_sales_summary event_id (with_sales d ss).
Proof. reflexivity. Qed.

Lemma triple_eq (a b c a' b' c' : Z) :
  a = a' -> b = b' -> c = c' -> (a, b, c) = (a', b', c').
Proof. intros -> -> ->. reflexivity. Qed.

Lemma count_cons {A : Type} (x : A) (l : list A) :
  Sql.count (x :: l) = 1 + Sql.count l.
Proof. unfold Sql.count. cbn [List.length]. lia. Qed.

Lemma sum_cons (x : Z) (l : list Z) : Sql.sum (x :: l) = x + Sql.sum l.
Proof. reflexivity. Qed.

Lemma record_sale_summary now event_id product_id quantity total_price other
  d :
  get_sales_summary other
    (snd (record_sale now event_id product_id quantity total_price d))
  = (let '(total_sales, total_quantity, transaction_count) :=
       get_sales_summary other d in
     if other =? event_id
     then (total_sales + total_price, total_quantity + quantity,
           transaction_count + 1)
     else (total_sales, total_quantity, transaction_count)).
Proof.
  rewrite record_sale_as_app, get_sales_summary_seq, get_sales_summary_app.
  destruct (get_sales_summary other d) as [[ts tq] tc].
  cbn [filter]. unfold live_sale_in.
  cbn [s_event_id s_cancelled negb]. rewrite andb_true_r.
  rewrite (Z.eqb_sym event_id other).
  destruct (other =? event_id).
  - cbn [map]. rewrite !sum_cons, count_cons.
    unfold Sql.sum, Sql.count. cbn [fold_right List.length Z.of_nat].
    cbn [s_total_price s_quantity].
    apply triple_eq; lia.
  - unfold Sql.sum, Sql.count. cbn [map fold_right List.length Z.of_nat].
    apply triple_eq; lia.
Qed.

(** X9. [record_sale] adds its total price and its quantity to the summary
    of its event and raises the number of transactions by one; the summary
    of every other event, the products and the events are as before.  It
    checks nothing: neither that the product exists nor that the stock
    covers the quantity. *)
Theorem record_sale_adds_to_summary (now : string)
  (event_id product_id quantity total_price other : Z) (d : db) :
  let d' := snd (record_sale now event_id product_id quantity total_price d) in
  get_sales_summary other d'
  = (let '(total_sales, total_quantity, transaction_count) :=
       get_sales_summary other d in
     if other =? event_id
     then (total_sales + total_price, total_quantity + quantity,
           transaction_count + 1)
     else (total_sales, total_quantity, transaction_count))
  /\ products d' = products d
  /\ events d' = events d
  /\ sales d'
     = sales d ++ [mk_sale (fst (record_sale now event_id product_id quantity
                                             total_price d))
                           event_id product_id quantity total_price now
                           false].
Proof.
  intros d'. subst d'. split; [ | repeat split ].
  apply record_sale_summary.
Qed.

Lemma cancel_rows_fresh sale_id (ss : list sale) :
  (forall s, In s ss -> s_id s <> sale_id) ->
  map (cancel_row sale_id) ss = ss.
Proof.
  intros H. rewrite <- (map_id ss) at 2. apply map_ext_in.
  intros s Hin. unfold cancel_row.
  destruct (Z.eqb_spec (s_id s) sale_id) as [E | _]; [ | reflexivity ].
  elim (H s Hin E).
Qed.

(** X10. Recording a sale and cancelling it under the id that
    [record_sale] returned: the cancellation succeeds, and both
    [get_sales_summary] and [get_product_sales_summary] answer for every
    event what they answered before the sale, as does every stock.  The
    tables need primary keys for the id to single out the new sale. *)
Theorem record_then_cancel_restores_summaries (now : string)
  (event_id product_id quantity total_price : Z) (d : db) :
  wf d ->
  let r := record_sale now event_id product_id quantity total_price d in
  let d' := snd (cancel_sale (fst r) (snd r)) in
  fst (cancel_sale (fst r) (snd r)) = true
  /\ (forall other, get_sales_summary other d' = get_sales_summary other d)
  /\ (forall other,
         get_product_sales_summary other d'
         = get_product_sales_summary other d)
  /\ products d' = products d.
Proof.
  intros W r d'.
  assert (Fresh : forall s, In s (sales d) -> s_id s <> sales_seq d + 1).
  { intros s Hin. pose proof (wf_sales_seq d W) as F.
    rewrite Forall_forall in F. specialize (F s Hin). lia. }
  assert (S' : sales d'
               = sales d ++ [mk_sale (sales_seq d + 1) event_id product_id
                                     quantity total_price now true]).
  { unfold d', r. rewrite cancel_sale_sales. simpl.
    rewrite map_app, (cancel_rows_fresh _ _ Fresh). simpl.
    unfold cancel_row. simpl. rewrite Z.eqb_refl. reflexivity. }
  split; [ | split; [ | split ] ].
  - apply cancel_sale_found. eexists. split.
    + unfold r. simpl. apply in_or_app. right. left. reflexivity.
    + reflexivity.
  - intros other. apply get_sales_summary_live. rewrite S', filter_app.
    simpl. unfold live_sale_in at 2. simpl.
    rewrite andb_false_r. apply app_nil_r.
  - intros other. apply get_product_sales_summary_live; [ reflexivity | ].
    intros pid. rewrite S', filter_app. simpl.
    unfold live_sale_of at 2. simpl. rewrite andb_false_r. apply app_nil_r.
  - reflexivity.
Qed.

Lemma record_then_cancel_restores_summaries_witness :
  let d := snd (add_product "2024-05-01 09:00:00" 1 "Sticker" 300 10
                  (snd (create_event "2024-05-01 08:00:00" "Spring Fair"
                                     "2024-05-01" init_database))) in
  let r := record_sale "2024-05-01 10:00:00" 1 1 2 600 d in
  get_sales_summary 1 (snd (cancel_sale (fst r) (snd r)))
  = get_sales_summary 1 d.
Proof.
  intros d r.
  assert (W : wf d)
    by (apply wf_add_product, wf_create_event, wf_init_database).
  apply (record_then_cancel_restores_summaries "2024-05-01 10:00:00" 1 1 2
           600 d W).
Defined.

(** The tables after the loop of [checkout]. *)
Lemma record_lines_events clock n event_id cart_items d :
  events (record_lines clock n event_id cart_items d) = events d.
Proof.
  revert n d.
  induction cart_items as [| [[[product_id name] price] quantity] rest IH];
    intros n d; [ reflexivity | ].
  cbn [record_lines]. rewrite IH. reflexivity.
Qed.

Lemma current_cart_qty_cons product_id (item : cart_item) rest :
  current_cart_qty product_id (item :: rest)
  = (if item_id item =? product_id then item_quantity item else 0)
    + current_cart_qty product_id rest.
Proof.
  unfold current_cart_qty. simpl.
  destruct (item_id item =? product_id); reflexivity.
Qed.

Lemma record_lines_products clock n event_id cart_items d :
  products (record_lines clock n event_id cart_items d)
  = map (fun p => set_stock p (p_stock p
                                - current_cart_qty (p_id p) cart_items))
        (products d).
Proof.
  revert n d.
  induction cart_items as [| [[[product_id name] price] quantity] rest IH];
    intros n d.
  - simpl. rewrite <- (map_id (products d)) at 1. apply map_ext.
    intros p. unfold current_cart_qty. simpl.
    rewrite Z.sub_0_r, set_stock_same. reflexivity.
  - cbn [record_lines]. rewrite IH. rewrite update_stock_products.
    cbn [snd record_sale products]. rewrite map_map. apply map_ext.
    intros p. rewrite current_cart_qty_cons. cbn [item_id item_quantity].
    rewrite restock_id. unfold restock.
    rewrite (Z.eqb_sym product_id (p_id p)).
    destruct (p_id p =? product_id); unfold set_stock; simpl; f_equal; lia.
Qed.

Lemma record_lines_summary clock n event_id cart_items d other :
  get_sales_summary other (record_lines clock n event_id cart_items d)
  = (let '(total_sales, total_quantity, transaction_count) :=
       get_sales_summary other d in
     if other =? event_id
     then (total_sales + total cart_items,
           total_quantity + Sql.sum (map item_quantity cart_items),
           transaction_count + Sql.count cart_items)
     else (total_sales, total_quantity, transaction_count)).
Proof.
  revert n d.
  induction cart_items as [| [[[product_id name] price] quantity] rest IH];
    intros n d.
  - cbn [record_lines]. destruct (get_sales_summary other d) as [[ts tq] tc].
    unfold total, Sql.count, Sql.sum.
    cbn [map fold_right List.length Z.of_nat].
    destruct (other =? event_id); [ | reflexivity ].
    apply triple_eq; lia.
  - cbn [record_lines]. rewrite IH.
    assert (E : get_sales_summary other
                  (snd (update_stock product_id (- quantity)
                          (snd (record_sale (clock n) event_id product_id
                                            quantity (price * quantity) d))))
                = get_sales_summary other
                    (snd (record_sale (clock n) event_id product_id quantity
                                      (price * quantity) d)))
      by reflexivity.
    rewrite E, record_sale_summary.
    destruct (get_sales_summary other d) as [[ts tq] tc].
    unfold total. cbn [map]. rewrite !sum_cons, count_cons.
    cbn [item_price item_quantity].
    destruct (other =? event_id); [ | reflexivity ].
    apply triple_eq; lia.
Qed.

End Recording.

(* ================================================================= *)
(** ** Checkout *)

Section Checkout.
Import POSDatabase POSApp.

Lemma checkout_done clock event_id (cart_items : list cart_item) d :
  event_id <> 0 -> cart_items <> [] ->
  checkout clock true (Some event_id) cart_items d
  = (record_lines clock 0 event_id cart_items d, []).
Proof.
  intros E N. unfold checkout.
  destruct (Z.eqb_spec event_id 0) as [X | _]; [ contradiction | ].
  destruct cart_items; [ congruence | reflexivity ].
Qed.

(** X11. A confirmed checkout with a current event and lines in the cart
    records one sale per line and empties the cart: the summary of the
    event grows by the cart's total, by the number of pieces in the cart
    and by its number of lines, and the summary of every other event stays
    as it is.  Without a current event, with an empty cart or when the
    confirmation is declined, tables and cart stay untouched. *)
Theorem checkout_books_the_cart (clock : nat -> string) (askyesno : bool)
  (current_event_id : option Z) (cart_items : list cart_item) (d : db) :
  let r := checkout clock askyesno current_event_id cart_items d in
  (forall event_id,
      askyesno = true -> current_event_id = Some event_id ->
      event_id <> 0 -> cart_items <> [] ->
      snd r = []
      /\ Sql.count (sales (fst r)) = Sql.count (sales d) + Sql.count cart_items
      /\ events (fst r) = events d
      /\ forall other,
           get_sales_summary other (fst r)
           = (let '(total_sales, total_quantity, transaction_count) :=
                get_sales_summary other d in
              if other =? event_id
              then (total_sales + total cart_items,
                    total_quantity + Sql.sum (map item_quantity cart_items),
                    transaction_count + Sql.count cart_items)
              else (total_sales, total_quantity, transaction_count)))
  /\ (askyesno = false \/ current_event_id = None \/ cart_items = [] ->
      r = (d, cart_items)).
Proof.
  intros r. subst r. split.
  - intros event_id -> -> E N. rewrite (checkout_done _ _ _ _ E N).
    cbn [fst snd]. split; [ reflexivity | split; [ | split ] ].
    + clear N. generalize 0%nat. revert d.
      induction cart_items as [| [[[pid name] price] quantity] rest IH];
        intros d n.
      * unfold Sql.count. simpl. lia.
      * cbn [record_lines]. rewrite IH, count_cons.
        unfold Sql.count. cbn [snd update_stock with_products sales
                                   record_sale].
        rewrite length_app. simpl List.length. lia.
    + apply record_lines_events.
    + intros other. apply record_lines_summary.
  - unfold checkout. intros [-> | [-> | ->]].
    + destruct current_event_id as [e |]; [ | reflexivity ].
      destruct (e =? 0); [ reflexivity | ].
      destruct cart_items; reflexivity.
    + reflexivity.
    + destruct current_event_id as [e |]; [ | reflexivity ].
      destruct (e =? 0); reflexivity.
Qed.

Lemma checkout_books_the_cart_witness :
  let d := snd (add_product "2024-05-01 09:00:00" 1 "Sticker" 300 10
                  (snd (create_event "2024-05-01 08:00:00" "Spring Fair"
                                     "2024-05-01" init_database))) in
  let cart := [(1, "Sticker", 300, 2)] in
  snd (checkout (fun _ => "2024-05-01 10:00:00") true (Some 1) cart d) = []
  /\ checkout (fun _ => "2024-05-01 10:00:00") false (Some 1) cart d
     = (d, cart).
Proof.
  intros d cart. split.
  - apply (checkout_books_the_cart (fun _ => "2024-05-01 10:00:00") true
             (Some 1) cart d) with (event_id := 1).
    + reflexivity.
    + reflexivity.
    + discriminate.
    + discriminate.
  - apply (checkout_books_the_cart (fun _ => "2024-05-01 10:00:00") false
             (Some 1) cart d).
    left. reflexivity.
Defined.

Lemma filter_id_map_set_stock product_id (f : product -> Z)
  (ps : list product) :
  filter (fun p => p_id p =? product_id)
         (map (fun p => set_stock p (f p)) ps)
  = map (fun p => set_stock p (f p))
        (filter (fun p => p_id p =? product_id) ps).
Proof.
  induction ps as [| p ps IH]; simpl; [ reflexivity | ].
  destruct (p_id p =? product_id); simpl; rewrite IH; reflexivity.
Qed.

(** X12. A confirmed checkout takes from the stock of each product the
    pieces that the cart holds of it, and nothing else: the stock read
    afterwards under the id of an existing product is the stock read
    before less the quantity staged for that id, so the stock of a product
    that is not in the cart is unchanged.  A line whose product is no
    longer in the tables takes no stock: under its id the stock still
    reads 0.  No product is added or removed. *)
Theorem checkout_takes_stock (clock : nat -> string) (event_id : Z)
  (cart_items : list cart_item) (d : db) :
  event_id <> 0 -> cart_items <> [] ->
  let d' := fst (checkout clock true (Some event_id) cart_items d) in
  (forall product_id,
      (exists p, In p (products d) /\ p_id p = product_id) ->
      get_product_stock product_id d'
      = get_product_stock product_id d
        - current_cart_qty product_id cart_items)
  /\ (forall product_id,
         (forall p, In p (products d) -> p_id p <> product_id) ->
         get_product_stock product_id d' = 0)
  /\ map p_id (products d') = map p_id (products d).
Proof.
  intros E N d'. subst d'. rewrite (checkout_done _ _ _ _ E N). cbn [fst].
  split; [ | split ].
  - intros product_id (p & Hin & Ep).
    unfold get_product_stock. rewrite record_lines_products.
    rewrite filter_id_map_set_stock.
    destruct (filter (fun q => p_id q =? product_id) (products d))
      as [| q l] eqn:F.
    + exfalso.
      assert (X : In p (filter (fun q => p_id q =? product_id) (products d)))
        by (apply filter_In; split; [ exact Hin | apply Z.eqb_eq, Ep ]).
      rewrite F in X. exact X.
    + assert (Q : In q (filter (fun q => p_id q =? product_id) (products d)))
        by (rewrite F; left; reflexivity).
      apply filter_In in Q. destruct Q as (_ & Q). apply Z.eqb_eq in Q.
      simpl. rewrite Q. reflexivity.
  - intros product_id H.
    unfold get_product_stock. rewrite record_lines_products.
    rewrite filter_id_map_set_stock, filter_id_absent by exact H.
    reflexivity.
  - rewrite record_lines_products, map_map. reflexivity.
Qed.

Lemma checkout_takes_stock_witness :
  let d := snd (add_product "2024-05-01 09:00:00" 1 "Sticker" 300 10
                  (snd (create_event "2024-05-01 08:00:00" "Spring Fair"
                                     "2024-05-01" init_database))) in
  let cart := [(1, "Sticker", 300, 2); (9, "Gone", 100, 1)] in
  let d' := fst (checkout (fun _ => "2024-05-01 10:00:00") true (Some 1)
                          cart d) in
  get_product_stock 1 d' = get_product_stock 1 d - current_cart_qty 1 cart
  /\ get_product_stock 9 d' = 0.
Proof.
  intros d cart d'.
  assert (E : (1 : Z) <> 0) by discriminate.
  assert (N : cart <> []) by discriminate.
  destruct (checkout_takes_stock (fun _ => "2024-05-01 10:00:00") 1 cart d
                                 E N) as (H1 & H2 & _).
  split.
  - apply H1. eexists. split; [ left; reflexivity | reflexivity ].
  - apply H2. intros p [<- | []]. discriminate.
Defined.

(** Carts filled from the listed products. *)
Lemma add_to_cart_unchanged_or_added product quantity_var cart_items :
  add_to_cart product quantity_var cart_items
  = (cart_items, snd (add_to_cart product quantity_var cart_items))
  \/ exists quantity,
       quantity_var = Some quantity
       /\ snd (add_to_cart product quantity_var cart_items) = None.
Proof.
  destruct product as [[[product_id name] price] stock].
  unfold add_to_cart.
  destruct quantity_var as [quantity |]; [ | left; reflexivity ].
  destruct (quantity <=? 0); [ left; reflexivity | ].
  destruct (current_cart_qty product_id cart_items + quantity >? stock);
    [ left; reflexivity | ].
  right. exists quantity. split; [ reflexivity | ].
  destruct (update_line product_id name price quantity cart_items);
    reflexivity.
Qed.

Lemma add_to_cart_listed_covered event_id d product quantity_var cart_items :
  NoDup (map p_id (products d)) ->
  In product (get_products event_id d) ->
  covered d cart_items ->
  covered d (fst (add_to_cart product quantity_var cart_items)).
Proof.
  intros N Hin C.
  destruct (add_to_cart_unchanged_or_added product quantity_var cart_items)
    as [E | (quantity & -> & E)].
  - rewrite E. exact C.
  - destruct product as [[[product_id name] price] stock].
    apply (add_to_cart_covered product_id name price stock quantity
                               cart_items _ d).
    + apply (get_products_stock event_id d product_id name price stock N Hin).
    + exact C.
    + rewrite <- E. apply surjective_pairing.
Qed.

Lemma fill_cart_covered event_id d requests cart_items :
  NoDup (map p_id (products d)) ->
  (forall request, In request requests ->
                   In (fst request) (get_products event_id d)) ->
  covered d cart_items ->
  covered d (fill_cart requests cart_items).
Proof.
  intros N. revert cart_items.
  induction requests as [| [product quantity_var] rest IH];
    intros cart_items H C; [ exact C | ].
  cbn [fill_cart]. apply IH.
  - intros request Hr. apply H. right. exact Hr.
  - apply (add_to_cart_listed_covered event_id d); auto.
    apply (H (product, quantity_var)). left. reflexivity.
Qed.

(** X13. The stock check of the cart is enough.  Whatever is put into an
    empty cart with [add_to_cart], accepted or refused, from the rows
    that [get_products] lists for an event of tables with primary keys,
    the cart has one line per product and no line above the product's
    stock; checking it out against these tables leaves no stock below
    zero when none was. *)
Theorem cart_of_listed_products_is_covered (event_id : Z) (d : db)
  (requests : list ((Z * string * Z * Z) * option Z)) :
  NoDup (map p_id (products d)) ->
  (forall request, In request requests ->
                   In (fst request) (get_products event_id d)) ->
  let cart_items := fill_cart requests [] in
  NoDup (map item_id cart_items)
  /\ (forall item p,
         In item cart_items -> In p (products d) ->
         p_id p = item_id item -> item_quantity item <= p_stock p)
  /\ (stock_nonneg d ->
      forall clock askyesno current_event_id,
        stock_nonneg
          (fst (checkout clock askyesno current_event_id cart_items d))).
Proof.
  intros N H cart_items.
  assert (C : covered d cart_items).
  { apply (fill_cart_covered event_id d); auto.
    split; constructor. }
  split; [ apply C | split ].
  - intros item p Hi Hp E. destruct C as (_ & F).
    rewrite Forall_forall in F. apply (F item Hi p Hp E).
  - intros S clock askyesno current_event_id.
    destruct (checkout_cases clock askyesno current_event_id cart_items d)
      as [-> | (e & ->)]; [ exact S | ].
    apply record_lines_stock_nonneg; assumption.
Qed.

Lemma cart_of_listed_products_is_covered_witness :
  let d := snd (add_product "2024-05-01 09:00:00" 1 "Sticker" 300 4
                  (snd (create_event "2024-05-01 08:00:00" "Spring Fair"
                                     "2024-05-01" init_database))) in
  let requests := [((1, "Sticker", 300, 4), Some 2);
                   ((1, "Sticker", 300, 4), Some 3);
                   ((1, "Sticker", 300, 4), Some 1)] in
  fill_cart requests [] = [(1, "Sticker", 300, 3)]
  /\ NoDup (map item_id (fill_cart requests [])).
Proof.
  intros d requests. split; [ reflexivity | ].
  apply (cart_of_listed_products_is_covered 1 d requests).
  - repeat constructor. intros [].
  - intros request [<- | [<- | [<- | []]]]; left; reflexivity.
Defined.

End Checkout.

(* ================================================================= *)
(** ** Lines of the cart *)

Section CartLines.
Import POSDatabase POSApp.

Lemma total_app (l1 l2 : list cart_item) : total (l1 ++ l2) = total l1 + total l2.
Proof. unfold total. rewrite map_app, sum_app. reflexivity. Qed.

Lemma total_filter_split (f : cart_item -> bool) (l : list cart_item) :
  total l = total (filter f l) + total (filter (fun x => negb (f x)) l).
Proof.
  unfold total. induction l as [| x l IH]; [ reflexivity | ].
  cbn [map filter]. rewrite sum_cons, IH.
  destruct (f x); cbn [negb map]; rewrite sum_cons; lia.
Qed.

Lemma remove_from_cart_app (product_name : tree_value)
  (l1 l2 : list cart_item) :
  remove_from_cart product_name (l1 ++ l2)
  = remove_from_cart product_name l1 ++ remove_from_cart product_name l2.
Proof. apply filter_app. Qed.

Lemma differs_text (name s : string) :
  differs name (tree_text s) = negb (String.eqb name s).
Proof. reflexivity. Qed.

(** X14. [remove_from_cart] compares the names of the cart lines with what
    the cart tree hands back for the selected row.  A name that reads as a
    number comes back as that number, which equals no name: then nothing is
    removed.  For every other name the lines with that name are dropped,
    also lines of different products that share it, and each line that is
    kept stays between what is kept of the lines before it and of the lines
    after it.  A name that is not in the cart changes nothing, removing
    twice is removing once, the total falls by the subtotals of the
    dropped lines, and a cart that the stock covers stays covered. *)
Theorem remove_from_cart_by_name (int : string -> option Z) (name : string)
  (cart_items : list cart_item) (d : db) :
  let product_name := convert_stringval int name in
  let cart_items' := remove_from_cart product_name cart_items in
  (int name <> None -> cart_items' = cart_items)
  /\ (int name = None ->
      (forall item,
          In item cart_items' <->
          In item cart_items /\ item_name item <> name)
      /\ (forall l1 item l2,
             cart_items = l1 ++ item :: l2 ->
             cart_items'
             = remove_from_cart product_name l1
               ++ (if String.eqb (item_name item) name then [] else [item])
               ++ remove_from_cart product_name l2)
      /\ ((forall item, In item cart_items -> item_name item <> name) ->
          cart_items' = cart_items))
  /\ (exists dropped,
         Forall (fun item => item_name item = name) dropped
         /\ Permutation cart_items (dropped ++ cart_items')
         /\ total cart_items = total dropped + total cart_items')
  /\ remove_from_cart product_name cart_items' = cart_items'
  /\ (covered d cart_items -> covered d cart_items').
Proof.
  intros product_name cart_items'. subst cart_items'.
  split; [ | split; [ | split; [ | split ] ] ].
  - subst product_name. unfold convert_stringval.
    destruct (int name) as [n |]; [ intros _ | congruence ].
    apply filter_all. reflexivity.
  - subst product_name. unfold convert_stringval. intros ->.
    split; [ | split ].
    + intros item. unfold remove_from_cart.
      rewrite filter_In, differs_text, negb_true_iff, String.eqb_neq. tauto.
    + intros l1 item l2 ->.
      rewrite remove_from_cart_app. f_equal.
      unfold remove_from_cart at 1. cbn [filter]. rewrite differs_text.
      destruct (String.eqb (item_name item) name); reflexivity.
    + intros H. apply filter_all. intros item Hin.
      rewrite differs_text. apply negb_true_iff, String.eqb_neq, H, Hin.
  - exists (filter (fun item => negb (differs (item_name item) product_name))
                   cart_items).
    split; [ | split ].
    + apply Forall_forall. intros item H. apply filter_In in H.
      destruct H as (_ & H). apply negb_true_iff in H.
      subst product_name. unfold convert_stringval in H.
      destruct (int name); [ discriminate | ].
      rewrite differs_text in H. apply negb_false_iff in H.
      apply String.eqb_eq, H.
    + unfold remove_from_cart.
      induction cart_items as [| x l IH]; simpl; [ constructor | ].
      destruct (differs (item_name x) product_name); simpl.
      * eapply perm_trans; [ apply perm_skip, IH | ].
        apply Permutation_middle.
      * apply perm_skip, IH.
    + rewrite Z.add_comm.
      apply (total_filter_split
               (fun item => differs (item_name item) product_name)).
  - apply filter_filter_same.
  - intros (N & F). unfold remove_from_cart. split.
    + clear F. induction cart_items as [| x l IH]; simpl; [ constructor | ].
      inversion N as [| ? ? Hnin N']; subst.
      destruct (differs (item_name x) product_name); simpl; auto.
      constructor; auto. intros Hin. apply Hnin.
      apply in_map_iff in Hin. destruct Hin as (y & E & Hy).
      apply filter_In in Hy. rewrite <- E. apply in_map. tauto.
    + apply Forall_forall. intros item Hin. apply filter_In in Hin.
      rewrite Forall_forall in F. apply F. tauto.
Qed.

Lemma remove_from_cart_by_name_witness :
  let cart := [(1, "Sticker", 300, 2); (2, "2024", 150, 1);
               (3, "Sticker", 250, 1)] in
  let selected := convert_stringval Python.int in
  remove_from_cart (selected "2024") cart = cart
  /\ In (2, "2024", 150, 1) (remove_from_cart (selected "Sticker") cart)
  /\ remove_from_cart (selected "Card") cart = cart
  /\ covered init_database (remove_from_cart (selected "Sticker") cart).
Proof.
  intros cart selected. split; [ | split; [ | split ] ].
  - destruct (remove_from_cart_by_name Python.int "2024" cart init_database)
      as (H & _).
    apply H. vm_compute. discriminate.
  - destruct (remove_from_cart_by_name Python.int "Sticker" cart
                                       init_database) as (_ & H & _).
    destruct H as (H & _); [ vm_compute; reflexivity | ].
    apply H. split; [ right; left; reflexivity | discriminate ].
  - destruct (remove_from_cart_by_name Python.int "Card" cart init_database)
      as (_ & H & _).
    destruct H as (_ & _ & H); [ vm_compute; reflexivity | ].
    apply H. intros item [<- | [<- | [<- | []]]]; discriminate.
  - destruct (remove_from_cart_by_name Python.int "Sticker" cart
                                       init_database) as (_ & _ & _ & _ & H).
    apply H. split.
    + repeat constructor; simpl; intuition discriminate.
    + repeat constructor; intros p [].
Defined.

Lemma update_line_total product_id name price quantity cart_items
  cart_items' :
  (forall item, In item cart_items -> item_id item = product_id ->
                item_price item = price) ->
  update_line product_id name price quantity cart_items = Some cart_items' ->
  total cart_items' = total cart_items + price * quantity
  /\ (Forall (fun item => 0 < item_quantity item) cart_items -> 0 < quantity ->
      Forall (fun item => 0 < item_quantity item) cart_items').
Proof.
  revert cart_items'.
  induction cart_items as [| item rest IH]; intros c' P; cbn [update_line];
    [ discriminate | ].
  destruct (Z.eqb_spec (item_id item) product_id) as [E | N].
  - intros H. injection H as <-.
    assert (Pi : item_price item = price)
      by (apply P; [ left; reflexivity | exact E ]).
    destruct item as [[[i nm] pr] q]. cbn [item_price item_quantity] in *.
    subst pr. split.
    + unfold total. cbn [map]. rewrite !sum_cons.
      cbn [item_price item_quantity]. lia.
    + intros F Q. inversion F as [| ? ? Hq F']; subst.
      cbn [item_quantity] in Hq. constructor; [ | exact F' ].
      cbn [item_quantity]. lia.
  - destruct (update_line product_id name price quantity rest) as [r |];
      cbn [option_map]; intros H; [ | discriminate ].
    injection H as <-.
    destruct (IH r) as (T & Fq); [ | reflexivity | ].
    + intros x Hx. apply P. right. exact Hx.
    + split.
      * unfold total in *. cbn [map]. rewrite !sum_cons, T. lia.
      * intros F Q. inversion F as [| ? ? Hq F']; subst.
        constructor; [ exact Hq | apply Fq; assumption ].
Qed.

(** X15. When [add_to_cart] accepts a request, the total of the cart
    grows by the price times the quantity, provided a line that the cart
    already has for the product carries the same price (the merged line
    takes the name and the price of the request); the quantities of all
    lines stay positive.  When it refuses, nothing changes. *)
Theorem add_to_cart_total (product_id : Z) (name : string)
  (price stock : Z) (quantity_var : option Z) (cart_items : list cart_item) :
  (forall item, In item cart_items -> item_id item = product_id ->
                item_price item = price) ->
  Forall (fun item => 0 < item_quantity item) cart_items ->
  let r := add_to_cart (product_id, name, price, stock) quantity_var
                       cart_items in
  Forall (fun item => 0 < item_quantity item) (fst r)
  /\ (snd r <> None -> fst r = cart_items)
  /\ (snd r = None ->
      exists quantity,
        quantity_var = Some quantity /\ 0 < quantity
        /\ total (fst r) = total cart_items + price * quantity
        /\ current_cart_qty product_id cart_items + quantity <= stock).
Proof.
  intros P F r. subst r. unfold add_to_cart.
  destruct quantity_var as [quantity |];
    [ | split; [ exact F | split; [ reflexivity | discriminate ] ] ].
  destruct (Z.leb_spec quantity 0) as [Q | Q];
    [ split; [ exact F | split; [ reflexivity | discriminate ] ] | ].
  destruct (Z.gtb_spec (current_cart_qty product_id cart_items + quantity)
                       stock) as [G | G];
    [ split; [ exact F | split; [ reflexivity | discriminate ] ] | ].
  destruct (update_line product_id name price quantity cart_items)
    as [c |] eqn:U; cbn [fst snd].
  - destruct (update_line_total _ _ _ _ _ _ P U) as (T & Fq).
    split; [ apply Fq; assumption | split; [ congruence | ] ].
    intros _. exists quantity. repeat split; auto.
  - split; [ | split; [ congruence | ] ].
    + apply Forall_app. split; [ exact F | ].
      repeat constructor. exact Q.
    + intros _. exists quantity. repeat split; auto.
      rewrite total_app. unfold total at 2. simpl. lia.
Qed.

Lemma add_to_cart_total_witness :
  total (fst (add_to_cart (1, "Sticker", 300, 10) (Some 3)
                          [(1, "Sticker", 300, 2)]))
  = total [(1, "Sticker", 300, 2)] + 300 * 3.
Proof.
  destruct (add_to_cart_total 1 "Sticker" 300 10 (Some 3)
                              [(1, "Sticker", 300, 2)])
    as (_ & _ & H).
  - intros item [<- | []] _. reflexivity.
  - repeat constructor.
  - destruct H as (quantity & E & _ & T & _); [ reflexivity | ].
    injection E as <-. exact T.
Defined.

(** X16. Pressing cancel on a row of the history and confirming always
    ends in the success box: the row stands for a sale in the tables, so
    [cancel_sale] finds it, and the check for an already cancelled sale
    never applies, whether the row shows the sale as cancelled or not.
    Afterwards the sale is cancelled.  Declining changes nothing. *)
Theorem cancel_from_history_succeeds (event_id : Z) (item : Z * string)
  (d : db) :
  In item (history event_id d) ->
  let r := cancel_selected_sale true item d in
  fst r = sale_cancelled
  /\ snd r = snd (cancel_sale (fst item) d)
  /\ (forall s, In s (sales (snd r)) -> s_id s = fst item ->
                s_cancelled s = true)
  /\ cancel_selected_sale false item d = (not_confirmed, d).
Proof.
  intros Hin. unfold history in Hin.
  apply in_map_iff in Hin. destruct Hin as (row & E & Hrow).
  apply get_recent_sales_origin in Hrow.
  destruct Hrow as (s & p & Hs & _ & _ & _ & ->).
  cbv beta iota in E. subst item. cbn [fst].
  unfold cancel_selected_sale. rewrite status_is_not_guard_text.
  assert (T : fst (cancel_sale (s_id s) d) = true)
    by (apply cancel_sale_found; exists s; auto).
  destruct (cancel_sale (s_id s) d) as [ok d'] eqn:C.
  cbn [fst snd] in *. subst ok.
  split; [ reflexivity | split; [ reflexivity | split; [ | reflexivity ] ] ].
  intros s' Hin' Eid. cbn [snd] in Hin'.
  assert (D : d' = snd (cancel_sale (s_id s) d)) by (rewrite C; reflexivity).
  rewrite D, cancel_sale_sales in Hin'.
  apply in_map_iff in Hin'. destruct Hin' as (s0 & <- & _).
  unfold cancel_row in *.
  destruct (Z.eqb_spec (s_id s0) (s_id s)) as [_ | N];
    [ reflexivity | contradiction ].
Qed.

Lemma cancel_from_history_succeeds_witness :
  let d0 := snd (add_product "2024-05-01 09:00:00" 1 "Sticker" 300 10
                   (snd (create_event "2024-05-01 08:00:00" "Spring Fair"
                                      "2024-05-01" init_database))) in
  let d := snd (cancel_sale 1
                  (snd (record_sale "2024-05-01 10:00:00" 1 1 2 600 d0))) in
  fst (cancel_selected_sale true (1, status true) d) = sale_cancelled.
Proof.
  intros d0 d.
  apply (cancel_from_history_succeeds 1 (1, status true) d).
  left. reflexivity.
Defined.

End CartLines.

(* ================================================================= *)
(** ** The two summaries side by side *)

Section Summaries.
Import POSDatabase.

Lemma sum_perm (l1 l2 : list Z) :
  Permutation l1 l2 -> Sql.sum l1 = Sql.sum l2.
Proof.
  induction 1 as [| x l1 l2 P IH | x y l | l1 l2 l3 P1 IH1 P2 IH2];
    rewrite ?sum_cons; lia.
Qed.

Lemma sum_map_add {A : Type} (f g : A -> Z) (l : list A) :
  Sql.sum (map (fun x => f x + g x) l)
  = Sql.sum (map f l) + Sql.sum (map g l).
Proof.
  induction l as [| x l IH]; [ reflexivity | ].
  cbn [map]. rewrite !sum_cons, IH. lia.
Qed.

Lemma sum_map_zero {A : Type} (f : A -> Z) (l : list A) :
  (forall x, In x l -> f x = 0) -> Sql.sum (map f l) = 0.
Proof.
  induction l as [| x l IH]; intros H; [ reflexivity | ].
  cbn [map]. rewrite sum_cons, (H x (or_introl eq_refl)), IH; [ lia | ].
  intros y Hy. apply H. right. exact Hy.
Qed.

Lemma sum_map_single (c : Z) (p0 : product) (ps : list product) :
  NoDup (map p_id ps) -> In p0 ps ->
  Sql.sum (map (fun p => if p_id p0 =? p_id p then c else 0) ps) = c.
Proof.
  induction ps as [| q ps IH]; intros N Hin; [ contradiction | ].
  cbn [map] in *. inversion N as [| ? ? Hnin N']; subst.
  rewrite sum_cons. destruct Hin as [-> | Hin].
  - rewrite Z.eqb_refl, sum_map_zero; [ lia | ].
    intros p Hp. destruct (Z.eqb_spec (p_id p0) (p_id p)) as [E | _];
      [ | reflexivity ].
    elim Hnin. rewrite E. apply in_map, Hp.
  - destruct (Z.eqb_spec (p_id p0) (p_id q)) as [E | _].
    + elim Hnin. rewrite <- E. apply in_map, Hin.
    + rewrite (IH N' Hin). lia.
Qed.

(** The share of one sale in the sums over the products of an event. *)
Lemma sale_share event_id (c : Z) (s : sale) (ps : list product) :
  NoDup (map p_id ps) ->
  (s_cancelled s = false ->
   exists p, In p ps /\ p_id p = s_product_id s
             /\ p_event_id p = s_event_id s) ->
  Sql.sum (map (fun p => if live_sale_of (p_id p) s then c else 0)
               (filter (fun p => p_event_id p =? event_id) ps))
  = (if live_sale_in event_id s then c else 0).
Proof.
  intros N H. unfold live_sale_in.
  destruct (s_cancelled s) eqn:C.
  - rewrite andb_false_r. apply sum_map_zero.
    intros p _. unfold live_sale_of. rewrite C, andb_false_r. reflexivity.
  - destruct (H eq_refl) as (p0 & Hin & Eid & Eev).
    rewrite andb_true_r.
    assert (X : forall p,
               (if live_sale_of (p_id p) s then c else 0)
               = (if p_id p0 =? p_id p then c else 0)).
    { intros p. unfold live_sale_of.
      rewrite C, andb_true_r, Eid. reflexivity. }
    rewrite (map_ext _ _ X).
    destruct (Z.eqb_spec (s_event_id s) event_id) as [E | E].
    + apply sum_map_single.
      * apply NoDup_map_filter, N.
      * apply filter_In. split; [ exact Hin | ].
        apply Z.eqb_eq. congruence.
    + apply sum_map_zero. intros p Hp. apply filter_In in Hp.
      destruct Hp as (Hp & Ev). apply Z.eqb_eq in Ev.
      destruct (Z.eqb_spec (p_id p0) (p_id p)) as [Y | _]; [ | reflexivity ].
      assert (p0 = p) by (eapply NoDup_map_inj; eauto).
      subst p. congruence.
Qed.

Lemma sums_over_products event_id (col : sale -> Z) (ps : list product)
  (ss : list sale) :
  NoDup (map p_id ps) ->
  (forall s, In s ss -> s_cancelled s = false ->
             exists p, In p ps /\ p_id p = s_product_id s
                       /\ p_event_id p = s_event_id s) ->
  Sql.sum (map (fun p => Sql.sum (map col (filter (live_sale_of (p_id p)) ss)))
               (filter (fun p => p_event_id p =? event_id) ps))
  = Sql.sum (map col (filter (live_sale_in event_id) ss)).
Proof.
  intros N. induction ss as [| s ss IH]; intros H.
  - cbn [filter map]. apply sum_map_zero. reflexivity.
  - assert (E : forall p,
               Sql.sum (map col (filter (live_sale_of (p_id p)) (s :: ss)))
               = (if live_sale_of (p_id p) s then col s else 0)
                 + Sql.sum (map col (filter (live_sale_of (p_id p)) ss))).
    { intros p. cbn [filter].
      destruct (live_sale_of (p_id p) s); [ reflexivity | lia ]. }
    rewrite (map_ext _ _ E), sum_map_add, IH.
    + rewrite (sale_share event_id (col s) s ps N).
      * cbn [filter]. destruct (live_sale_in event_id s);
          [ reflexivity | lia ].
      * apply H. left. reflexivity.
    + intros s' Hs'. apply H. right. exact Hs'.
Qed.

(** X17. The summary by product adds up to the summary of the event: when
    products have primary keys and every sale that is not cancelled refers
    to a product in the tables that belongs to the sale's event, the
    revenues of the rows of [get_product_sales_summary] sum to the total
    revenue of [get_sales_summary], and the quantities to the total
    quantity. *)
Theorem product_summary_adds_up (event_id : Z) (d : db) :
  NoDup (map p_id (products d)) ->
  sales_refer_to_products d ->
  let '(total_sales, total_quantity, _) := get_sales_summary event_id d in
  Sql.sum (map row_sales (get_product_sales_summary event_id d))
  = total_sales
  /\ Sql.sum (map row_quantity (get_product_sales_summary event_id d))
     = total_quantity.
Proof.
  intros N R.
  assert (P : Permutation (get_product_sales_summary event_id d)
                (map (product_row d)
                   (filter (fun p => p_event_id p =? event_id)
                           (products d)))).
  { unfold get_product_sales_summary.
    rewrite <- (summary_groups event_id d N). apply order_by_perm. }
  unfold get_sales_summary. split.
  - rewrite (sum_perm _ _ (Permutation_map row_sales P)), map_map.
    apply (sums_over_products event_id s_total_price (products d) (sales d)
                              N R).
  - rewrite (sum_perm _ _ (Permutation_map row_quantity P)), map_map.
    apply (sums_over_products event_id s_quantity (products d) (sales d)
                              N R).
Qed.

Lemma product_summary_adds_up_witness :
  let d0 := snd (add_product "2024-05-01 09:01:00" 1 "Badge" 150 5
              (snd (add_product "2024-05-01 09:00:00" 1 "Sticker" 300 10
                 (snd (create_event "2024-05-01 08:00:00" "Spring Fair"
                                    "2024-05-01" init_database))))) in
  let d := snd (record_sale "2024-05-01 10:01:00" 1 2 1 150
              (snd (record_sale "2024-05-01 10:00:00" 1 1 2 600 d0))) in
  Sql.sum (map row_sales (get_product_sales_summary 1 d)) = 750
  /\ Sql.sum (map row_quantity (get_product_sales_summary 1 d)) = 3.
Proof.
  intros d0 d.
  apply (product_summary_adds_up 1 d).
  - repeat constructor; simpl; intuition discriminate.
  - intros s [<- | [<- | []]] _; eexists; simpl;
      [ split; [ left; reflexivity | split; reflexivity ]
      | split; [ right; left; reflexivity | split; reflexivity ] ].
Defined.

End Summaries.

(* ================================================================= *)
(** ** The dialogs *)

Section Dialogs.
Import POSDatabase.

(** X18. What the event dialog answers.  The name is checked first and the
    date second: the name error is shown exactly when the stripped name is
    empty, the date error exactly when the stripped name is not empty and
    [strptime] refuses the stripped date, and a result is left in the one
    case that remains.  The result is the stripped name and the stripped
    date, the date as the text that was entered.  A result that is entered
    again is accepted as it is, when stripping leaves the two stripped
    texts as they are. *)
Theorem event_dialog_result (strip : string -> string)
  (strptime : string -> option (Z * Z * Z)) (name_var date_var : string) :
  let name := strip name_var in
  let date := strip date_var in
  let r := EventDialog.create_event strip strptime name_var date_var in
  (r = EventDialog.showerror EventDialog.enter_event_name <-> name = "")
  /\ (r = EventDialog.showerror EventDialog.enter_valid_date <->
      name <> "" /\ strptime date = None)
  /\ (r = EventDialog.result name date <->
      name <> "" /\ strptime date <> None)
  /\ (forall name' date',
         r = EventDialog.result name' date' -> name' = name /\ date' = date)
  /\ (strip name = name -> strip date = date ->
      r = EventDialog.result name date ->
      EventDialog.create_event strip strptime name date = r).
Proof.
  intros name date r. subst name date r. unfold EventDialog.create_event.
  destruct (String.eqb_spec (strip name_var) "") as [E | N].
  - split; [ | split; [ | split; [ | split ] ] ].
    + tauto.
    + split; [ discriminate | intros (X & _); contradiction ].
    + split; [ discriminate | intros (X & _); contradiction ].
    + discriminate.
    + discriminate.
  - destruct (strptime (strip date_var)) as [ymd |] eqn:P.
    + split; [ | split; [ | split; [ | split ] ] ].
      * split; [ discriminate | contradiction ].
      * split; [ discriminate | intros (_ & X); discriminate ].
      * split; [ intros _; split; [ exact N | discriminate ]
               | reflexivity ].
      * intros name' date' H. inversion H. split; reflexivity.
      * intros En Ed _. rewrite En, Ed.
        destruct (String.eqb_spec (strip name_var) "") as [E' | _];
          [ contradiction | ].
        rewrite P. reflexivity.
    + split; [ | split; [ | split; [ | split ] ] ].
      * split; [ discriminate | contradiction ].
      * split; [ intros _; split; [ exact N | reflexivity ]
               | reflexivity ].
      * split; [ discriminate | intros (_ & X); congruence ].
      * discriminate.
      * discriminate.
Qed.

Lemma event_dialog_result_witness :
  let create_event := EventDialog.create_event Python.strip Python.strptime in
  create_event "　　" "2024-05-01"
  = EventDialog.showerror EventDialog.enter_event_name
  /\ create_event "Spring Fair" "2024-05-１"
     = EventDialog.showerror EventDialog.enter_valid_date
  /\ create_event "  Spring Fair　" " 2024-5-1５"
     = EventDialog.result "Spring Fair" "2024-5-1５"
  /\ create_event "Spring Fair" "2024-5-1５"
     = create_event "  Spring Fair　" " 2024-5-1５".
Proof.
  intros create_event.
  pose proof (event_dialog_result Python.strip Python.strptime
                "　　" "2024-05-01") as (H1 & _).
  pose proof (event_dialog_result Python.strip Python.strptime
                "Spring Fair" "2024-05-１") as (_ & H2 & _).
  pose proof (event_dialog_result Python.strip Python.strptime
                "  Spring Fair　" " 2024-5-1５") as (_ & _ & H3 & _ & H4).
  split; [ | split; [ | split ] ].
  - apply H1. vm_compute. reflexivity.
  - apply H2. split; [ vm_compute; discriminate | vm_compute; reflexivity ].
  - apply H3. split; vm_compute; discriminate.
  - apply H4.
    + vm_compute. reflexivity.
    + vm_compute. reflexivity.
    + apply H3. split; vm_compute; discriminate.
Defined.




End Dialogs.

(* ================================================================= *)
(** ** Selecting and deleting by text *)

Section ByText.
Import POSDatabase POSApp.

Lemma dict_get_set (k k' : string) (v : Z) (dict : list (string * Z)) :
  dict_get k (dict_set k' v dict)
  = if String.eqb k' k then Some v else dict_get k dict.
Proof.
  induction dict as [| [k0 v0] rest IH]; cbn [dict_set dict_get].
  - reflexivity.
  - destruct (String.eqb_spec k0 k') as [E0 | N0]; cbn [dict_get].
    + subst k0. destruct (String.eqb k' k); reflexivity.
    + rewrite IH. destruct (String.eqb_spec k0 k) as [E1 | N1];
        [ | reflexivity ].
      subst k0. destruct (String.eqb_spec k' k) as [E2 | _];
        [ | reflexivity ].
      elim N0. symmetry. exact E2.
Qed.

Lemma dict_of_events_get (k : string) (v : Z)
  (l : list (Z * string * string)) (acc : list (string * Z)) :
  (forall event_id name date,
      In (event_id, name, date) l -> event_text name date = k ->
      event_id = v) ->
  (exists event_id name date,
      In (event_id, name, date) l /\ event_text name date = k)
  \/ dict_get k acc = Some v ->
  dict_get k
    (fold_left (fun dict e => let '(event_id, name, date) := e in
                              dict_set (event_text name date) event_id dict)
               l acc)
  = Some v.
Proof.
  revert acc. induction l as [| [[i n] t] l IH]; intros acc U H.
  - destruct H as [(i & n & t & [] & _) | H]. exact H.
  - cbn [fold_left]. apply IH.
    + intros i' n' t' Hin. apply U. right. exact Hin.
    + destruct (String.eqb (event_text n t) k) eqn:B.
      * right. rewrite dict_get_set, B.
        apply String.eqb_eq in B.
        f_equal. apply (U i n t); [ left; reflexivity | exact B ].
      * destruct H as [(i' & n' & t' & [X | Hin] & E') | H].
        -- inversion X; subst. apply String.eqb_neq in B. contradiction.
        -- left. exists i', n', t'. auto.
        -- right. rewrite dict_get_set, B. exact H.
Qed.

Lemma get_events_In event_id name date d :
  In (event_id, name, date) (get_events d) <->
  exists e, In e (events d)
            /\ (ev_id e, ev_name e, ev_date e) = (event_id, name, date).
Proof.
  unfold get_events. rewrite in_map_iff. split.
  - intros (e & E & Hin). apply order_by_In in Hin. exists e. auto.
  - intros (e & Hin & E). exists e. split; [ exact E | ].
    apply order_by_In, Hin.
Qed.

Lemma on_event_selected_data selected s :
  session_event_data (on_event_selected selected s) = session_event_data s.
Proof.
  unfold on_event_selected.
  destruct (dict_get selected (session_event_data s)); reflexivity.
Qed.

Lemma load_events_data d s :
  session_event_data (load_events d s)
  = fold_left (fun dict e => let '(event_id, name, date) := e in
                             dict_set (event_text name date) event_id dict)
              (get_events d) [].
Proof.
  unfold load_events.
  destruct (map _ (get_events d)) as [| first rest];
    [ reflexivity | ].
  rewrite on_event_selected_data. reflexivity.
Qed.

(** X20. After an event is created through the dialog, the events are
    reloaded and the new event is selected by its text, name and date:
    it becomes the current event of the session and the cart is emptied,
    provided no earlier event shows the same text.  (The texts are the
    keys of a dictionary, so an event that shares its text with another
    cannot be told apart from it.)  The dialog gives a result when the
    stripped name is not empty and [strptime] takes the stripped date;
    name and date of the event are the stripped texts. *)
Theorem new_event_becomes_current (strip : string -> string)
  (strptime : string -> option (Z * Z * Z))
  (now name_var date_var : string) (s : session) (d : db) :
  let name := strip name_var in
  let date := strip date_var in
  name <> "" -> strptime date <> None ->
  (forall e, In e (events d) ->
             event_text (ev_name e) (ev_date e) <> event_text name date) ->
  let r := create_new_event_selected strip strptime now name_var date_var
                                     s d in
  session_event_id (fst r) = Some (fst (create_event now name date d))
  /\ session_cart (fst r) = []
  /\ snd r = snd (create_event now name date d)
  /\ In (mk_event (fst (create_event now name date d)) name date now)
        (events (snd r)).
Proof.
  intros name date N V U r. subst r. unfold create_new_event_selected.
  assert (R : EventDialog.create_event strip strptime name_var date_var
              = EventDialog.result name date).
  { unfold EventDialog.create_event. fold name date.
    apply String.eqb_neq in N. rewrite N.
    destruct (strptime date); [ reflexivity | congruence ]. }
  rewrite R. cbn [fst snd].
  set (d' := snd (create_event now name date d)).
  assert (G : dict_get (event_text name date)
                (session_event_data (load_events d' s))
              = Some (events_seq d + 1)).
  { rewrite load_events_data. apply dict_of_events_get.
    - intros i n t Hin E. apply get_events_In in Hin.
      destruct Hin as (e & Hin & X). inversion X; subst.
      unfold d' in Hin. simpl in Hin. apply in_app_or in Hin.
      destruct Hin as [Hin | [<- | []]]; [ | reflexivity ].
      elim (U e Hin E).
    - left. exists (events_seq d + 1), name, date.
      split; [ | reflexivity ].
      apply get_events_In. eexists. split.
      + unfold d'. simpl. apply in_or_app. right. left. reflexivity.
      + reflexivity. }
  unfold on_event_selected. rewrite G. repeat split.
  unfold d'. simpl. apply in_or_app. right. left. reflexivity.
Qed.

Lemma new_event_becomes_current_witness :
  let d := snd (create_event "2024-04-01 08:00:00" "Winter Fair"
                             "2024-01-20" init_database) in
  let s := mk_session (Some 1) [(1, "Sticker", 300, 2)] [] in
  let r := create_new_event_selected Python.strip Python.strptime
             "2024-05-01 08:00:00" "　Spring Fair " "2024-05-01" s d in
  session_event_id (fst r) = Some 2
  /\ session_cart (fst r) = []
  /\ In (mk_event 2 "Spring Fair" "2024-05-01" "2024-05-01 08:00:00")
        (events (snd r)).
Proof.
  intros d s r.
  destruct (new_event_becomes_current Python.strip Python.strptime
              "2024-05-01 08:00:00" "　Spring Fair " "2024-05-01" s d)
    as (H1 & H2 & _ & H4).
  - vm_compute. discriminate.
  - vm_compute. discriminate.
  - intros e [<- | []]. vm_compute. discriminate.
  - split; [ exact H1 | split; [ exact H2 | exact H4 ] ].
Defined.

Lemma find_by_name_some product_name rows product_id :
  ProductManagementDialog.find_by_name product_name rows = Some product_id ->
  exists price stock, In (product_id, product_name, price, stock) rows.
Proof.
  induction rows as [| [[[i n] pr] st] rows IH];
    cbn [ProductManagementDialog.find_by_name]; [ discriminate | ].
  destruct (String.eqb_spec n product_name) as [E | _].
  - intros H. inversion H; subst. exists pr, st. left. reflexivity.
  - intros H. destruct (IH H) as (pr' & st' & Hin).
    exists pr', st'. right. exact Hin.
Qed.

Lemma find_by_name_none product_name rows :
  (forall product_id price stock,
      ~ In (product_id, product_name, price, stock) rows) ->
  ProductManagementDialog.find_by_name product_name rows = None.
Proof.
  induction rows as [| [[[i n] pr] st] rows IH];
    cbn [ProductManagementDialog.find_by_name]; intros H; [ reflexivity | ].
  destruct (String.eqb_spec n product_name) as [E | _].
  - subst n. elim (H i pr st). left. reflexivity.
  - apply IH. intros i' pr' st' Hin. apply (H i' pr' st'). right. exact Hin.
Qed.

Lemma get_products_In event_id d product_id name price stock :
  In (product_id, name, price, stock) (get_products event_id d) ->
  exists p, In p (products d) /\ p_event_id p = event_id
            /\ p_id p = product_id /\ p_name p = name.
Proof.
  unfold get_products. intros H. apply in_map_iff in H.
  destruct H as (p & E & Hin). apply order_by_In, filter_In in Hin.
  destruct Hin as (Hin & Ev). apply Z.eqb_eq in Ev.
  inversion E; subst. exists p. auto.
Qed.

Lemma delete_product_true product_id d :
  fst (delete_product product_id d) = true ->
  (forall s, In s (sales d) -> s_product_id s = product_id ->
             s_cancelled s = true)
  /\ snd (delete_product product_id d)
     = with_products d
         (filter (fun p => negb (p_id p =? product_id)) (products d)).
Proof.
  unfold delete_product.
  destruct (Sql.count (filter (live_sale_of product_id) (sales d)) >? 0)
    eqn:L; [ discriminate | ].
  intros _. split; [ | reflexivity ].
  apply (proj1 (no_live_sale_iff product_id d) L).
Qed.

Lemma delete_product_false product_id d :
  fst (delete_product product_id d) = false ->
  snd (delete_product product_id d) = d.
Proof.
  unfold delete_product.
  destruct (Sql.count (filter (live_sale_of product_id) (sales d)) >? 0);
    [ reflexivity | ].
  cbn [fst snd]. intros H.
  rewrite filter_all; [ apply with_products_same | ].
  intros p Hin. apply negb_true_iff, Z.eqb_neq. intros E.
  apply not_true_iff_false in H. apply H, count_pos_exists.
  exists p. split; [ exact Hin | apply Z.eqb_eq, E ].
Qed.

(** X21. Deleting the selected product goes by its name.  The product
    that is deleted is the first that [get_products] lists for the event
    under the selected name, so of two products with one name it need not
    be the selected one.  It is deleted only after confirmation and only
    when no sale that is not cancelled refers to it; then its row, and no
    other, is gone and the sales are kept.  In every other case the tables
    stay as they are; a name that no product of the event has is reported
    as not found. *)
Theorem delete_selected_product_by_name (askyesno : bool)
  (product_name : string) (event_id : Z) (d : db) :
  let r := ProductManagementDialog.delete_selected_product askyesno
             product_name event_id d in
  (fst r <> ProductManagementDialog.product_deleted -> snd r = d)
  /\ (fst r = ProductManagementDialog.product_deleted ->
      askyesno = true
      /\ exists p,
           In p (products d) /\ p_event_id p = event_id
           /\ p_name p = product_name
           /\ ProductManagementDialog.find_by_name product_name
                (get_products event_id d) = Some (p_id p)
           /\ (forall s, In s (sales d) -> s_product_id s = p_id p ->
                         s_cancelled s = true)
           /\ products (snd r)
              = filter (fun q => negb (p_id q =? p_id p)) (products d)
           /\ sales (snd r) = sales d)
  /\ ((forall p, In p (products d) -> p_event_id p = event_id ->
                 p_name p <> product_name) ->
      r = (ProductManagementDialog.product_not_found, d)).
Proof.
  intros r. subst r.
  unfold ProductManagementDialog.delete_selected_product.
  destruct (ProductManagementDialog.find_by_name product_name
              (get_products event_id d)) as [product_id |] eqn:F.
  - destruct (find_by_name_some _ _ _ F) as (price & stock & Hrow).
    destruct (get_products_In _ _ _ _ _ _ Hrow) as (p & Hin & Ev & Eid & En).
    split; [ | split ].
    + destruct (product_id =? 0); [ reflexivity | ].
      destruct askyesno; [ | reflexivity ].
      destruct (delete_product product_id d) as [ok d'] eqn:D.
      destruct ok; [ intros X; elim X; reflexivity | intros _ ].
      pose proof (delete_product_false product_id d) as H.
      rewrite D in H. apply H. reflexivity.
    + destruct (product_id =? 0); [ discriminate | ].
      destruct askyesno; [ | discriminate ].
      destruct (delete_product product_id d) as [ok d'] eqn:D.
      destruct ok; [ intros _ | discriminate ].
      split; [ reflexivity | ].
      pose proof (delete_product_true product_id d) as H.
      rewrite D in H. destruct (H eq_refl) as (Hc & Hd).
      cbn [snd] in *. subst d' product_id.
      exists p. repeat split; auto.
    + intros H. elim (H p Hin Ev En).
  - split; [ reflexivity | split; [ discriminate | reflexivity ] ].
Qed.

Lemma delete_selected_product_by_name_witness :
  let d := snd (add_product "2024-05-01 09:01:00" 1 "Sticker" 250 3
              (snd (add_product "2024-05-01 09:00:00" 1 "Sticker" 300 10
                 (snd (create_event "2024-05-01 08:00:00" "Spring Fair"
                                    "2024-05-01" init_database))))) in
  map p_id
      (products (snd (ProductManagementDialog.delete_selected_product true
                        "Sticker" 1 d))) = [2]
  /\ ProductManagementDialog.delete_selected_product true "Badge" 1 d
     = (ProductManagementDialog.product_not_found, d).
Proof.
  intros d. split; [ reflexivity | ].
  apply (delete_selected_product_by_name true "Badge" 1 d).
  intros p [<- | [<- | []]] _; discriminate.
Defined.

End ByText.

(* ================================================================= *)
(** ** Cancelling by id *)

Section CancelById.
Import POSDatabase.

(** X22. [cancel_sale] answers whether a sale with the id is in the
    tables, cancelled or not.  For an id that no sale has it answers false
    and leaves the tables exactly as they are; otherwise it answers true,
    every sale with that id is cancelled afterwards, and the sales with
    another id are untouched. *)
Theorem cancel_sale_by_id (sale_id : Z) (d : db) :
  let r := cancel_sale sale_id d in
  (fst r = true <-> exists s, In s (sales d) /\ s_id s = sale_id)
  /\ ((forall s, In s (sales d) -> s_id s <> sale_id) -> r = (false, d))
  /\ (forall s, In s (sales (snd r)) -> s_id s = sale_id ->
                s_cancelled s = true)
  /\ (forall s, s_id s <> sale_id ->
                (In s (sales (snd r)) <-> In s (sales d))).
Proof.
  intros r. subst r. split; [ | split; [ | split ] ].
  - apply cancel_sale_found.
  - intros H. unfold cancel_sale.
    assert (C : Sql.count (filter (fun s => s_id s =? sale_id) (sales d))
                = 0).
    { assert (F : filter (fun s => s_id s =? sale_id) (sales d) = []).
      { induction (sales d) as [| s l IH]; [ reflexivity | ].
        cbn [filter].
        destruct (Z.eqb_spec (s_id s) sale_id) as [E | _].
        - elim (H s (or_introl eq_refl) E).
        - apply IH. intros s' Hs'. apply H. right. exact Hs'. }
      rewrite F. reflexivity. }
    rewrite C. fold (cancel_row sale_id).
    rewrite (cancel_rows_fresh sale_id (sales d) H).
    destruct d; reflexivity.
  - intros s Hin E. rewrite cancel_sale_sales in Hin.
    apply in_map_iff in Hin. destruct Hin as (s0 & <- & _).
    unfold cancel_row in *.
    destruct (Z.eqb_spec (s_id s0) sale_id) as [_ | N];
      [ reflexivity | contradiction ].
  - intros s N. rewrite cancel_sale_sales, in_map_iff. split.
    + intros (s0 & E & Hin). unfold cancel_row in E.
      destruct (Z.eqb_spec (s_id s0) sale_id) as [X | _].
      * subst s. simpl in N. contradiction.
      * subst s0. exact Hin.
    + intros Hin. exists s. split; [ | exact Hin ].
      unfold cancel_row.
      destruct (Z.eqb_spec (s_id s) sale_id); [ contradiction | reflexivity ].
Qed.

Lemma cancel_sale_by_id_witness :
  let d := snd (record_sale "2024-05-01 10:00:00" 1 1 2 600 init_database) in
  cancel_sale 7 d = (false, d).
Proof.
  intros d.
  apply (cancel_sale_by_id 7 d).
  intros s [<- | []]. discriminate.
Defined.

End CancelById.
